(** * Fight Position Notation: decoding and pose mapping

    A shallow embedding of [blender_render_fpn.py]: the notation decoder
    [parse_fpn], the scene code that consumes its result
    ([create_simple_mannequin], [pose_mannequin], [setup_scene]), and the
    script around them ([render_scene], [main]).

    Conventions of the embedding.
    - A Python [str] is a [string] of 8-bit code points (Latin-1).  Code
      points above 255, among them further white space and decimal digits
      of Unicode, are outside the model.
    - A Python [int] is a [Z]; a Python [float] is a binary64 [float].
    - A raised exception is the [Raise] case of [result]; code that mutates
      the scene before it raises keeps the mutated scene (see [cmd]).
    - The dictionaries built by [parse_fpn] are never mutated afterwards
      and are modelled as records with the keys as field names.
    - The host engine keeps what the script writes to its properties in
      its own precision; the conversion is the parameter [single] of the
      scene code, and [binary32] is the instance used for evaluation.
    - [int()] is modelled with the interpreter's limit on the number of
      digits as a parameter, [max_str_digits]. *)

From Stdlib Require Import ZArith NArith List String Ascii Bool Lia.
From Stdlib Require Import PrimFloat SpecFloat FloatOps.
Import ListNotations.

(* Decimal float literals denote the nearest binary64 value, as in Python. *)
Set Warnings "-inexact-float".

Local Open Scope string_scope.
Local Open Scope Z_scope.

(** ** Exceptions and results *)

(** The [ValueError]s the decoder can meet, by message. *)
Inductive value_error : Type :=
| Invalid_FPN_format (fpn_string : string)
    (* f"Invalid FPN format: {fpn_string}" *)
| Invalid_fighter_format (fpn_fighter : string)
    (* f"Invalid fighter format: {fpn_fighter}" *)
| invalid_literal (token : string)
    (* invalid literal for int() with base 10: token *)
| exceeds_limit (digits : Z).
    (* Exceeds the limit for integer string conversion *)

Inductive exn : Type :=
| ValueError (msg : value_error)
| IndexError      (* list / string index out of range *)
| OverflowError.  (* int too large to convert to float *)

Inductive result (A : Type) : Type :=
| Ok (a : A)
| Raise (e : exn).

Arguments Ok {A} a.
Arguments Raise {A} e.

Definition bind {A B : Type} (r : result A) (k : A -> result B) : result B :=
  match r with
  | Ok a => k a
  | Raise e => Raise e
  end.

Notation "x <- r ;; k" := (bind r (fun x => k))
  (at level 61, r at next level, right associativity).

(** ** Characters and strings *)

Definition ord (c : ascii) : N := N_of_ascii c.

Definition in_range (lo hi : N) (c : ascii) : bool :=
  (N.leb lo (ord c) && N.leb (ord c) hi)%bool.

(** [str.isspace] on one code point below 256: TAB..CR, FS..US, SPACE,
    NEL and NBSP.  [str.strip()] removes exactly these. *)
Definition isspace (c : ascii) : bool :=
  (in_range 9 13 c || in_range 28 32 c
   || N.eqb (ord c) 133 || N.eqb (ord c) 160)%bool.

(** White space as [int()] skips it: the C-locale white space, and the
    non-ASCII white space that the conversion first turns into a blank.
    FS..US are white space for [strip] but not for [int()]. *)
Definition int_space (c : ascii) : bool :=
  (in_range 9 13 c || N.eqb (ord c) 32
   || N.eqb (ord c) 133 || N.eqb (ord c) 160)%bool.

Definition is_digit (c : ascii) : bool := in_range 48 57 c.

Definition digit_value (c : ascii) : Z := Z.of_N (ord c) - 48.

Fixpoint lstrip (s : string) : string :=
  match s with
  | EmptyString => EmptyString
  | String c r => if isspace c then lstrip r else s
  end.

Fixpoint rstrip (s : string) : string :=
  match s with
  | EmptyString => EmptyString
  | String c r =>
      match rstrip r with
      | EmptyString => if isspace c then EmptyString else String c EmptyString
      | r' => String c r'
      end
  end.

(** [s.strip()] *)
Definition strip (s : string) : string := rstrip (lstrip s).

(** [s.split(sep)] for a one-character separator: never an empty list. *)
Fixpoint split (sep : ascii) (s : string) : list string :=
  match s with
  | EmptyString => [EmptyString]
  | String c r =>
      if Ascii.eqb c sep then EmptyString :: split sep r
      else match split sep r with
           | [] => [String c EmptyString]
           | h :: t => String c h :: t
           end
  end.

(** [l[i]] for a non-negative constant index. *)
Definition getitem {A : Type} (l : list A) (i : nat) : result A :=
  match nth_error l i with
  | Some x => Ok x
  | None => Raise IndexError
  end.

(** [s[i]] on a string, a one-character string in Python. *)
Definition str_getitem (s : string) (i : nat) : result ascii :=
  match String.get i s with
  | Some c => Ok c
  | None => Raise IndexError
  end.

(** ** Numbers *)

(** Conversion of an [int] to a [float]: round to nearest, ties to even;
    a magnitude that rounds beyond the largest finite float raises. *)
Definition float_of_Z (z : Z) : float :=
  SF2Prim (binary_normalize prec emax z 0 false).

Definition float_of_int (z : Z) : result float :=
  let f := float_of_Z z in
  if is_infinity f then Raise OverflowError else Ok f.

(** [n / d] for an [int] n and a non-zero [float] d. *)
Definition int_truediv_float (n : Z) (d : float) : result float :=
  x <- float_of_int n ;; Ok (x / d)%float.

Fixpoint skip_int_space (s : string) : string :=
  match s with
  | EmptyString => EmptyString
  | String c r => if int_space c then skip_int_space r else s
  end.

(** The digit scan of [int()]: decimal digits, single underscores allowed
    between them.  Returns the value, the number of digits and the unread
    rest; [None] for a doubled or trailing underscore. *)
Fixpoint scan_digits (prev_us : bool) (acc digits : Z) (s : string)
  : option (Z * Z * string) :=
  match s with
  | EmptyString => if prev_us then None else Some (acc, digits, EmptyString)
  | String c r =>
      if is_digit c then
        scan_digits false (10 * acc + digit_value c) (digits + 1) r
      else if Ascii.eqb c "_" then
        if prev_us then None else scan_digits true acc digits r
      else
        if prev_us then None else Some (acc, digits, s)
  end.

(** An optional sign: whether it is a minus, and what follows it. *)
Definition read_sign (s : string) : bool * string :=
  match s with
  | String c r =>
      if Ascii.eqb c "+" then (false, r)
      else if Ascii.eqb c "-" then (true, r)
      else (false, s)
  | EmptyString => (false, s)
  end.

Definition starts_with_underscore (s : string) : bool :=
  match s with
  | String c _ => Ascii.eqb c "_"
  | EmptyString => false
  end.

(** ** The decoded state *)

Record momentum_t : Type := {
  linear : float;
  rotational : Z
}.

Record biomech_t : Type := {
  hip_rot : Z;
  torso_rot : Z;
  weight : float;
  recovering : bool;
  frames : Z
}.

Record fighter_t : Type := {
  stance : string;
  balance : float;
  fatigue : float;
  damage : float;
  momentum : momentum_t;
  biomech : biomech_t;
  limbs : string
}.

Record fight_state : Type := {
  fighter_a : fighter_t;
  fighter_b : fighter_t;
  distance : string;
  turn : string;
  move_count : Z
}.

Section Decoder.

(** [sys.get_int_max_str_digits()]: 4300 by default where the interpreter
    has the limit, 0 where it is switched off or absent. *)
Variable max_str_digits : Z.

(** [int(s)] for a string [s], base 10. *)
Definition py_int (s : string) : result Z :=
  let bad := Raise (ValueError (invalid_literal s)) in
  let s1 := skip_int_space s in
  let '(neg, s2) := read_sign s1 in
  if starts_with_underscore s2 then bad
  else
    match scan_digits false 0 0 s2 with
    | None => bad
    | Some (v, digits, rest) =>
        if ((640 <? digits) && (0 <? max_str_digits)
            && (max_str_digits <? digits))%bool
        then Raise (ValueError (exceeds_limit digits))
        else if digits =? 0 then bad
        else
          match skip_int_space rest with
          | EmptyString => Ok (if neg then - v else v)
          | _ => bad
          end
    end.

(** ** [parse_fpn] *)

(** [int(tok) / d] *)
Definition int_over (tok : string) (d : float) : result float :=
  n <- py_int tok ;; int_truediv_float n d.

Definition parse_fighter (fpn_fighter : string) : result fighter_t :=
  let parts := split "." fpn_fighter in
  if negb (List.length parts =? 7)%nat then
    Raise (ValueError (Invalid_fighter_format fpn_fighter))
  else
    p4 <- getitem parts 4 ;;
    let mom := split "," p4 in
    p5 <- getitem parts 5 ;;
    let bio := split "," p5 in
    p0 <- getitem parts 0 ;;
    p1 <- getitem parts 1 ;;
    v_balance <- int_over p1 100 ;;
    p2 <- getitem parts 2 ;;
    v_fatigue <- int_over p2 100 ;;
    p3 <- getitem parts 3 ;;
    v_damage <- int_over p3 100 ;;
    m0 <- getitem mom 0 ;;
    v_linear <- int_over m0 10 ;;
    m1 <- getitem mom 1 ;;
    v_rotational <- py_int m1 ;;
    b0 <- getitem bio 0 ;;
    v_hip_rot <- py_int b0 ;;
    b1 <- getitem bio 1 ;;
    v_torso_rot <- py_int b1 ;;
    b2 <- getitem bio 2 ;;
    v_weight <- int_over b2 100 ;;
    b3 <- getitem bio 3 ;;
    b4 <- getitem bio 4 ;;
    v_frames <- py_int b4 ;;
    p6 <- getitem parts 6 ;;
    Ok {| stance := p0;
          balance := v_balance;
          fatigue := v_fatigue;
          damage := v_damage;
          momentum := {| linear := v_linear; rotational := v_rotational |};
          biomech := {| hip_rot := v_hip_rot;
                        torso_rot := v_torso_rot;
                        weight := v_weight;
                        recovering := String.eqb b3 "1";
                        frames := v_frames |};
          limbs := p6 |}.

Definition parse_fpn (fpn_string : string) : result fight_state :=
  let parts := split "/" (strip fpn_string) in
  if negb (List.length parts =? 5)%nat then
    Raise (ValueError (Invalid_FPN_format fpn_string))
  else
    q0 <- getitem parts 0 ;;
    fa <- parse_fighter q0 ;;
    q1 <- getitem parts 1 ;;
    fb <- parse_fighter q1 ;;
    q2 <- getitem parts 2 ;;
    q3 <- getitem parts 3 ;;
    q4 <- getitem parts 4 ;;
    mc <- py_int q4 ;;
    Ok {| fighter_a := fa;
          fighter_b := fb;
          distance := q2;
          turn := q3;
          move_count := mc |}.

End Decoder.

Definition example_fpn : string :=
  "o.95.15.0.3,5.10,15,55,0,0.----/s.90.20.5.-1,0.-5,-10,45,0,0.----/m/A/5".


(** ** The host engine's data: [bpy.data]

    Objects and materials live in one store and are referred to by their
    position in it, so that two objects naming the same material share it.
    Of an object the model keeps the name, the type, the transform, the
    parent and the material slots; of a material, the colour input of its
    "Principled BSDF" node.  Mesh geometry, light and camera settings are
    left out.  Objects are listed in the order of their creation; the
    engine renames a new object or material whose name is taken, which
    the model leaves out: the scene is cleared before anything is made,
    and the names made afterwards are distinct.  The
    order in which the engine lists objects does not matter to the script,
    which finds objects by name and whose one loop over all objects has an
    effect that depends only on how many of them carry a material (see
    [for_each_darken]). *)

Local Open Scope float_scope.

Inductive object_type : Type := EMPTY | MESH | LIGHT | CAMERA.

Definition vec3 : Type := (float * float * float)%type.
Definition rgba : Type := (float * float * float * float)%type.

Record material_t : Type := {
  mat_name : string;
  default_value : rgba
}.

Record object_t : Type := {
  obj_name : string;
  obj_type : object_type;
  location : vec3;
  rotation_euler : vec3;
  scale : vec3;
  parent : option nat;
  obj_materials : list nat
}.

Record blend_data : Type := {
  objects : list object_t;
  materials : list material_t
}.

(** The name of object [o] in a store. *)
Definition name_of (d : blend_data) (o : nat) : string :=
  match nth_error (objects d) o with
  | Some x => obj_name x
  | None => EmptyString
  end.

(** A statement sequence over the store: it returns the store as it has
    left it, with a value or with the exception raised. *)
Definition cmd (A : Type) : Type := blend_data -> blend_data * result A.

Definition ret {A : Type} (a : A) : cmd A := fun d => (d, Ok a).

Definition lift {A : Type} (r : result A) : cmd A := fun d => (d, r).

Definition cbind {A B : Type} (c : cmd A) (k : A -> cmd B) : cmd B :=
  fun d =>
    match c d with
    | (d', Ok a) => k a d'
    | (d', Raise e) => (d', Raise e)
    end.

Notation "x <~ c ;; k" := (cbind c (fun x => k))
  (at level 61, c at next level, right associativity).
Notation "c ;;; k" := (cbind c (fun _ => k))
  (at level 61, right associativity).

(** [for x in l: body(x)] *)
Fixpoint for_each {A : Type} (l : list A) (body : A -> cmd unit) : cmd unit :=
  match l with
  | [] => ret tt
  | x :: l' => body x ;;; for_each l' body
  end.

Fixpoint list_update {A : Type} (l : list A) (i : nat) (f : A -> A) : list A :=
  match l, i with
  | [], _ => []
  | x :: l', O => f x :: l'
  | x :: l', S i' => x :: list_update l' i' f
  end.

Fixpoint find_name (n : string) (l : list object_t) : option nat :=
  match l with
  | [] => None
  | o :: l' =>
      if String.eqb (obj_name o) n then Some O
      else option_map S (find_name n l')
  end.

(** [s.startswith(p)] *)
Fixpoint startswith (p s : string) : bool :=
  match p, s with
  | EmptyString, _ => true
  | String a p', String b s' => (Ascii.eqb a b && startswith p' s')%bool
  | String _ _, EmptyString => false
  end.

Definition vec_set (v : vec3) (axis : nat) (x : float) : vec3 :=
  let '(a, b, c) := v in
  match axis with
  | O => (x, b, c)
  | S O => (a, x, c)
  | _ => (a, b, x)
  end.

Definition vec_get (v : vec3) (axis : nat) : float :=
  let '(a, b, c) := v in
  match axis with
  | O => a
  | S O => b
  | _ => c
  end.

Definition math_pi : float := 0x1.921fb54442d18p+1.

(** [math.radians(n)] for an [int] n: the argument is converted to a
    float first, then scaled by the constant pi / 180. *)
Definition math_radians (n : Z) : result float :=
  x <- float_of_int n ;; Ok (x * (math_pi / 180)).

(** A number as a literal of the script gives it: [4] or [4.0]. *)
Inductive number : Type :=
| Int (z : Z)
| Float (x : float).

(** The float a number stands for where one is wanted.  Exact for the
    integers met here, all far below 2^53. *)
Definition as_float (n : number) : float :=
  match n with
  | Int z => float_of_Z z
  | Float x => x
  end.

(** [-n] *)
Definition number_neg (n : number) : number :=
  match n with
  | Int z => Int (- z)
  | Float x => Float (- x)
  end.

(** [n / 2] *)
Definition half (n : number) : float := as_float n / 2.

(** [d.get(k, default)] on a dictionary literal. *)
Fixpoint dict_get {V : Type} (d : list (string * V)) (k : string) (default : V) : V :=
  match d with
  | [] => default
  | (k', v) :: d' => if String.eqb k' k then v else dict_get d' k default
  end.

Definition distance_map : list (string * number) :=
  [("c", Float 1.5); ("s", Float 2.5); ("m", Int 4); ("l", Int 6); ("v", Int 8)].

(** [dist] of [setup_scene], as a function of [state['distance']]. *)
Definition dist_of (code : string) : number :=
  dict_get distance_map code (Int 4).

(** [c in ['E', 'B']] *)
Definition in_E_B (c : ascii) : bool :=
  (Ascii.eqb c "E" || Ascii.eqb c "B")%bool.

Section Scene.

(** What the engine keeps of a Python float written to one of its
    properties (it stores vectors and colours in single precision). *)
Variable single : float -> float.

Definition store_vec (v : vec3) : vec3 :=
  let '(a, b, c) := v in (single a, single b, single c).

Definition store_rgba (v : rgba) : rgba :=
  let '(r, g, b, a) := v in (single r, single g, single b, single a).

Definition update_object (i : nat) (f : object_t -> object_t) : cmd unit :=
  fun d => ({| objects := list_update (objects d) i f;
               materials := materials d |}, Ok tt).

Definition update_material (i : nat) (f : material_t -> material_t) : cmd unit :=
  fun d => ({| objects := objects d;
               materials := list_update (materials d) i f |}, Ok tt).

(** A new object at [loc] with the engine's default rotation and scale, as
    a [bpy.ops] "add" operator leaves it; the result is the new object
    ([bpy.context.active_object] after the operator). *)
Definition new_object (n : string) (t : object_type) (loc : vec3) : cmd nat :=
  fun d =>
    ({| objects := objects d ++
                   [{| obj_name := n; obj_type := t;
                       location := store_vec loc;
                       rotation_euler := (0, 0, 0);
                       scale := (1, 1, 1);
                       parent := None;
                       obj_materials := [] |}];
        materials := materials d |},
     Ok (List.length (objects d))).

(** [bpy.data.objects.new(n, None)], linked to the scene: an empty. *)
Definition objects_new (n : string) : cmd nat :=
  fun d =>
    ({| objects := objects d ++
                   [{| obj_name := n; obj_type := EMPTY;
                       location := (0, 0, 0);
                       rotation_euler := (0, 0, 0);
                       scale := (1, 1, 1);
                       parent := None;
                       obj_materials := [] |}];
        materials := materials d |},
     Ok (List.length (objects d))).

(** [bpy.data.materials.new(name=n)] followed by [use_nodes = True]; the
    colour is the node's default grey until the script sets it. *)
Definition materials_new (n : string) : cmd nat :=
  fun d =>
    ({| objects := objects d;
        materials := materials d ++
                     [{| mat_name := n; default_value := (0.8, 0.8, 0.8, 1) |}] |},
     Ok (List.length (materials d))).

(** [bpy.data.objects.get(n)] *)
Definition objects_get (n : string) : cmd (option nat) :=
  fun d => (d, Ok (find_name n (objects d))).

(** [o.name] *)
Definition get_name (o : nat) : cmd string :=
  fun d => (d, Ok (name_of d o)).

Definition set_name (o : nat) (n : string) : cmd unit :=
  update_object o (fun x =>
    {| obj_name := n; obj_type := obj_type x; location := location x;
       rotation_euler := rotation_euler x; scale := scale x;
       parent := parent x; obj_materials := obj_materials x |}).

Definition set_location (o : nat) (v : vec3) : cmd unit :=
  update_object o (fun x =>
    {| obj_name := obj_name x; obj_type := obj_type x; location := store_vec v;
       rotation_euler := rotation_euler x; scale := scale x;
       parent := parent x; obj_materials := obj_materials x |}).

Definition set_scale (o : nat) (v : vec3) : cmd unit :=
  update_object o (fun x =>
    {| obj_name := obj_name x; obj_type := obj_type x; location := location x;
       rotation_euler := rotation_euler x; scale := store_vec v;
       parent := parent x; obj_materials := obj_materials x |}).

Definition set_parent (o p : nat) : cmd unit :=
  update_object o (fun x =>
    {| obj_name := obj_name x; obj_type := obj_type x; location := location x;
       rotation_euler := rotation_euler x; scale := scale x;
       parent := Some p; obj_materials := obj_materials x |}).

(** [o.rotation_euler = v] *)
Definition set_rotation_euler (o : nat) (v : vec3) : cmd unit :=
  update_object o (fun x =>
    {| obj_name := obj_name x; obj_type := obj_type x; location := location x;
       rotation_euler := store_vec v; scale := scale x;
       parent := parent x; obj_materials := obj_materials x |}).

(** [o.rotation_euler[axis] = a] *)
Definition set_rotation (o : nat) (axis : nat) (a : float) : cmd unit :=
  update_object o (fun x =>
    {| obj_name := obj_name x; obj_type := obj_type x; location := location x;
       rotation_euler := vec_set (rotation_euler x) axis (single a);
       scale := scale x;
       parent := parent x; obj_materials := obj_materials x |}).

(** [o.data.materials.append(m)] *)
Definition materials_append (o m : nat) : cmd unit :=
  update_object o (fun x =>
    {| obj_name := obj_name x; obj_type := obj_type x; location := location x;
       rotation_euler := rotation_euler x; scale := scale x;
       parent := parent x; obj_materials := obj_materials x ++ [m] |}).

(** [m.node_tree.nodes["Principled BSDF"].inputs[0].default_value] *)
Definition get_default_value (m : nat) : cmd rgba :=
  fun d => (d, Ok match nth_error (materials d) m with
                  | Some x => default_value x
                  | None => (0, 0, 0, 0)
                  end).

Definition set_default_value (m : nat) (c : rgba) : cmd unit :=
  update_material m (fun x =>
    {| mat_name := mat_name x; default_value := store_rgba c |}).

(** ** [clear_scene] *)

Definition clear_scene : cmd unit :=
  fun d => ({| objects := []; materials := materials d |}, Ok tt).

(** ** [create_simple_mannequin] *)

Definition create_arm (name : string) (mannequin mat : nat)
  (side : string) (sign : Z) : cmd unit :=
  let x := float_of_Z sign * 0.35 in
  upper_arm <~ new_object "Cylinder" MESH (x, 0, 3.0) ;;
  set_name upper_arm (name ++ "_" ++ side ++ "_upper_arm") ;;;
  set_parent upper_arm mannequin ;;;
  materials_append upper_arm mat ;;;
  lower_arm <~ new_object "Cylinder" MESH (x, 0, 2.6) ;;
  set_name lower_arm (name ++ "_" ++ side ++ "_lower_arm") ;;;
  set_parent lower_arm mannequin ;;;
  materials_append lower_arm mat ;;;
  hand <~ new_object "Sphere" MESH (x, 0, 2.4) ;;
  set_name hand (name ++ "_" ++ side ++ "_hand") ;;;
  set_parent hand mannequin ;;;
  materials_append hand mat.

Definition create_leg (name : string) (mannequin mat : nat)
  (side : string) (sign : Z) : cmd unit :=
  let x := float_of_Z sign * 0.15 in
  upper_leg <~ new_object "Cylinder" MESH (x, 0, 1.85) ;;
  set_name upper_leg (name ++ "_" ++ side ++ "_upper_leg") ;;;
  set_parent upper_leg mannequin ;;;
  materials_append upper_leg mat ;;;
  lower_leg <~ new_object "Cylinder" MESH (x, 0, 1.25) ;;
  set_name lower_leg (name ++ "_" ++ side ++ "_lower_leg") ;;;
  set_parent lower_leg mannequin ;;;
  materials_append lower_leg mat ;;;
  foot <~ new_object "Cube" MESH (x, 0.08, 0.05) ;;
  set_name foot (name ++ "_" ++ side ++ "_foot") ;;;
  set_scale foot (0.12, 0.25, 0.1) ;;;
  set_parent foot mannequin ;;;
  materials_append foot mat.

Definition create_simple_mannequin (name : string) (color : rgba) : cmd nat :=
  mannequin <~ objects_new name ;;
  mat <~ materials_new (name ++ "_material") ;;
  set_default_value mat color ;;;
  head <~ new_object "Sphere" MESH (0, 0, 3.6) ;;
  set_name head (name ++ "_head") ;;;
  set_parent head mannequin ;;;
  materials_append head mat ;;;
  torso <~ new_object "Cube" MESH (0, 0, 2.9) ;;
  set_name torso (name ++ "_torso") ;;;
  set_scale torso (0.5, 0.3, 0.8) ;;;
  set_parent torso mannequin ;;;
  materials_append torso mat ;;;
  hips <~ new_object "Cube" MESH (0, 0, 2.35) ;;
  set_name hips (name ++ "_hips") ;;;
  set_scale hips (0.45, 0.3, 0.3) ;;;
  set_parent hips mannequin ;;;
  materials_append hips mat ;;;
  for_each [("left", (-1)%Z); ("right", 1%Z)]
    (fun '(side, sign) => create_arm name mannequin mat side sign) ;;;
  for_each [("left", (-1)%Z); ("right", 1%Z)]
    (fun '(side, sign) => create_leg name mannequin mat side sign) ;;;
  ret mannequin.

(** ** [pose_mannequin], block by block *)

(** Balance affects lean. *)
Definition pose_lean (mannequin : nat) (fighter_data : fighter_t) : cmd unit :=
  let lean := (1 - balance fighter_data) * 0.2 in
  set_rotation mannequin 1 lean.

(** Hip rotation. *)
Definition pose_hips (name : string) (fighter_data : fighter_t) : cmd unit :=
  hips <~ objects_get (name ++ "_hips") ;;
  match hips with
  | Some o =>
      a <~ lift (math_radians (hip_rot (biomech fighter_data))) ;;
      set_rotation o 2 a
  | None => ret tt
  end.

(** Torso rotation. *)
Definition pose_torso (name : string) (fighter_data : fighter_t) : cmd unit :=
  torso <~ objects_get (name ++ "_torso") ;;
  match torso with
  | Some o =>
      a <~ lift (math_radians (torso_rot (biomech fighter_data))) ;;
      set_rotation o 2 a
  | None => ret tt
  end.

(** Arm positions based on extended state. *)
Definition pose_arms (name : string) (fighter_data : fighter_t) : cmd unit :=
  let limbs := limbs fighter_data in
  l0 <~ lift (str_getitem limbs 0) ;;
  let left_extended := in_E_B l0 in
  left_upper <~ objects_get (name ++ "_left_upper_arm") ;;
  match left_upper with
  | Some o =>
      set_rotation o 1 (if left_extended then math_pi / 3 else math_pi / 6)
  | None => ret tt
  end ;;;
  l1 <~ lift (str_getitem limbs 1) ;;
  let right_extended := in_E_B l1 in
  right_upper <~ objects_get (name ++ "_right_upper_arm") ;;
  match right_upper with
  | Some o =>
      set_rotation o 1
        (if right_extended then (- math_pi) / 3 else (- math_pi) / 6)
  | None => ret tt
  end.

(** Adjust material based on damage: the body of the loop over
    [bpy.data.objects]. *)
Definition darken (name : string) (damage : float) (obj : object_t) : cmd unit :=
  if (startswith name (obj_name obj)
      && match obj_type obj with MESH => true | _ => false end)%bool
  then
    match obj_materials obj with
    | mat :: _ =>
        color <~ get_default_value mat ;;
        let '(c0, c1, c2, _) := color in
        let factor := 1 - (damage * 0.5) in
        set_default_value mat (c0 * factor, c1 * factor, c2 * factor, 1.0)
    | [] => ret tt
    end
  else ret tt.

Definition pose_damage (name : string) (fighter_data : fighter_t) : cmd unit :=
  let damage := damage fighter_data in
  all <~ (fun d => (d, Ok (objects d))) ;;
  for_each all (darken name damage).

Definition pose_mannequin (mannequin : nat) (fighter_data : fighter_t) : cmd unit :=
  name <~ get_name mannequin ;;
  pose_lean mannequin fighter_data ;;;
  pose_hips name fighter_data ;;;
  pose_torso name fighter_data ;;;
  pose_arms name fighter_data ;;;
  pose_damage name fighter_data.

(** ** [setup_scene] *)

Definition setup_scene (state : fight_state) : cmd (nat * nat) :=
  let data_a := fighter_a state in
  let data_b := fighter_b state in
  clear_scene ;;;
  let dist := dist_of (distance state) in
  fighter_a <~ create_simple_mannequin "FighterA" (1.0, 0.3, 0.3, 1.0) ;;
  fighter_b <~ create_simple_mannequin "FighterB" (0.3, 0.3, 1.0, 1.0) ;;
  set_location fighter_a (half (number_neg dist), 0, 0) ;;;
  set_location fighter_b (half dist, 0, 0) ;;;
  set_rotation fighter_a 2 (math_pi / 2) ;;;
  set_rotation fighter_b 2 ((- math_pi) / 2) ;;;
  pose_mannequin fighter_a data_a ;;;
  pose_mannequin fighter_b data_b ;;;
  ground <~ new_object "Plane" MESH (0, 0, 0) ;;
  set_name ground "Ground" ;;;
  ground_mat <~ materials_new "GroundMaterial" ;;
  set_default_value ground_mat (0.3, 0.3, 0.3, 1.0) ;;;
  materials_append ground ground_mat ;;;
  sun <~ new_object "Sun" LIGHT (5, -5, 10) ;;
  r45 <~ lift (math_radians 45) ;;
  set_rotation_euler sun (r45, 0, r45) ;;;
  fill_light <~ new_object "Area" LIGHT (-5, 5, 5) ;;
  camera <~ new_object "Camera" CAMERA (0, -10, 5) ;;
  r60 <~ lift (math_radians 60) ;;
  set_rotation_euler camera (r60, 0, 0) ;;;
  ret (fighter_a, fighter_b).

End Scene.

(** ** Concrete data for evaluation *)

(** Rounding of a binary64 value to the nearest binary32 value, the
    conversion a C cast from double to float performs. *)
Definition binary32 (x : float) : float :=
  match Prim2SF x with
  | S754_finite s m e => SF2Prim (binary_round 24 128 s m e)
  | _ => x
  end.

(** A store with nothing in it. *)
Definition empty_data : blend_data := {| objects := []; materials := [] |}.

Definition example_state : fight_state :=
  {| fighter_a :=
       {| stance := "o"; balance := 0.95; fatigue := 0.15; damage := 0.0;
          momentum := {| linear := 0.3; rotational := 5 |};
          biomech := {| hip_rot := 10; torso_rot := 15; weight := 0.55;
                        recovering := false; frames := 0 |};
          limbs := "----" |};
     fighter_b :=
       {| stance := "s"; balance := 0.90; fatigue := 0.20; damage := 0.05;
          momentum := {| linear := -0.1; rotational := 0 |};
          biomech := {| hip_rot := -5; torso_rot := -10; weight := 0.45;
                        recovering := false; frames := 0 |};
          limbs := "----" |};
     distance := "m";
     turn := "A";
     move_count := 5 |}.

Local Close Scope float_scope.

(** ** Vocabulary of the statements *)

(** The [i]-th piece of [s] cut at [sep]; empty when there is none. *)
Definition part (sep : ascii) (i : nat) (s : string) : string :=
  nth i (split sep s) EmptyString.

Definition momentum_token (i : nat) (fpn_fighter : string) : string :=
  part "," i (part "." 4 fpn_fighter).

Definition biomech_token (i : nat) (fpn_fighter : string) : string :=
  part "," i (part "." 5 fpn_fighter).

Fixpoint all_space (s : string) : bool :=
  match s with
  | EmptyString => true
  | String c r => (isspace c && all_space r)%bool
  end.

Fixpoint has_minus (s : string) : bool :=
  match s with
  | EmptyString => false
  | String c r => (Ascii.eqb c "-" || has_minus r)%bool
  end.

(** The characters [int()] can accept somewhere in its argument. *)
Definition int_char (c : ascii) : bool :=
  (is_digit c || Ascii.eqb c "_" || Ascii.eqb c "+" || Ascii.eqb c "-"
   || int_space c)%bool.

Fixpoint all_int_chars (s : string) : bool :=
  match s with
  | EmptyString => true
  | String c r => (int_char c && all_int_chars r)%bool
  end.

Fixpoint all_digits (s : string) : bool :=
  match s with
  | EmptyString => true
  | String c r => (is_digit c && all_digits r)%bool
  end.

(** The integer token in the words of the specification: an optional
    sign, then one or more decimal digits, and nothing else. *)
Definition spec_integer_token (s : string) : bool :=
  let body := snd (read_sign s) in
  (negb (String.eqb body EmptyString) && all_digits body)%bool.

(** The integer tokens [parse_fighter] hands to [int()]. *)
Definition fighter_int_tokens (fpn_fighter : string) : list string :=
  [part "." 1 fpn_fighter; part "." 2 fpn_fighter; part "." 3 fpn_fighter;
   momentum_token 0 fpn_fighter; momentum_token 1 fpn_fighter;
   biomech_token 0 fpn_fighter; biomech_token 1 fpn_fighter;
   biomech_token 2 fpn_fighter; biomech_token 4 fpn_fighter].

(** The integer tokens [parse_fpn] hands to [int()]. *)
Definition fpn_int_tokens (fpn_string : string) : list string :=
  let s := strip fpn_string in
  (fighter_int_tokens (part "/" 0 s) ++ fighter_int_tokens (part "/" 1 s)
   ++ [part "/" 4 s])%list.

(** An integer read of the decoder, in the order of the reads: whether
    the field is there to be read (its fighter has seven fields and the
    list it is taken from is long enough), the token handed to [int()],
    and the divisor when the integer is divided. *)
Definition int_read : Type := (bool * string * option float)%type.

(** The integer reads of [parse_fighter], in the order in which its
    dictionary display evaluates them. *)
Definition fighter_int_reads (fpn_fighter : string) : list int_read :=
  let seven := (List.length (split "." fpn_fighter) =? 7)%nat in
  let mom := List.length (split "," (part "." 4 fpn_fighter)) in
  let bio := List.length (split "," (part "." 5 fpn_fighter)) in
  [(seven, part "." 1 fpn_fighter, Some 100%float);
   (seven, part "." 2 fpn_fighter, Some 100%float);
   (seven, part "." 3 fpn_fighter, Some 100%float);
   (seven, momentum_token 0 fpn_fighter, Some 10%float);
   ((seven && (2 <=? mom)%nat)%bool, momentum_token 1 fpn_fighter, None);
   (seven, biomech_token 0 fpn_fighter, None);
   ((seven && (2 <=? bio)%nat)%bool, biomech_token 1 fpn_fighter, None);
   ((seven && (3 <=? bio)%nat)%bool, biomech_token 2 fpn_fighter,
    Some 100%float);
   ((seven && (5 <=? bio)%nat)%bool, biomech_token 4 fpn_fighter, None)].

(** The nineteen integer reads of [parse_fpn], in order: those of fighter
    A, those of fighter B, the move count. *)
Definition fpn_int_reads (fpn_string : string) : list int_read :=
  let s := strip fpn_string in
  (fighter_int_reads (part "/" 0 s) ++ fighter_int_reads (part "/" 1 s)
   ++ [(true, part "/" 4 s, None)])%list.

(** The read goes through: the field is there, [int()] accepts the token
    and the division, if any, does not overflow. *)
Definition read_fine (lim : Z) (r : int_read) : Prop :=
  let '(there, tok, d) := r in
  there = true
  /\ match d with
     | Some d => exists x, int_over lim tok d = Ok x
     | None => exists n, py_int lim tok = Ok n
     end.

(** [o.rotation_euler[axis]] in a store. *)
Definition rotation_of (d : blend_data) (o : nat) (axis : nat) : option float :=
  option_map (fun x => vec_get (rotation_euler x) axis) (nth_error (objects d) o).

(** The colour of material [m] in a store. *)
Definition color_of (d : blend_data) (m : nat) : option rgba :=
  option_map default_value (nth_error (materials d) m).

(** Whether the loop of [pose_mannequin] darkens material [m] at [obj]. *)
Definition uses (name : string) (m : nat) (obj : object_t) : bool :=
  (startswith name (obj_name obj)
   && match obj_type obj with MESH => true | _ => false end
   && match obj_materials obj with m' :: _ => Nat.eqb m' m | [] => false end)%bool.

(** How many objects of the list the loop darkens material [m] at. *)
Definition users (name : string) (m : nat) (l : list object_t) : nat :=
  List.length (filter (uses name m) l).

(** The arm angle, before the engine stores it. *)
Definition arm_angle (c : ascii) : float :=
  (if in_E_B c then math_pi / 3 else math_pi / 6)%float.

(** The fighter that [parse_fighter] returns, field by field. *)
Definition decodes_fighter (lim : Z) (s : string) (f : fighter_t) : Prop :=
  List.length (split "." s) = 7%nat
  /\ stance f = part "." 0 s
  /\ int_over lim (part "." 1 s) 100 = Ok (balance f)
  /\ int_over lim (part "." 2 s) 100 = Ok (fatigue f)
  /\ int_over lim (part "." 3 s) 100 = Ok (damage f)
  /\ int_over lim (momentum_token 0 s) 10 = Ok (linear (momentum f))
  /\ py_int lim (momentum_token 1 s) = Ok (rotational (momentum f))
  /\ py_int lim (biomech_token 0 s) = Ok (hip_rot (biomech f))
  /\ py_int lim (biomech_token 1 s) = Ok (torso_rot (biomech f))
  /\ int_over lim (biomech_token 2 s) 100 = Ok (weight (biomech f))
  /\ recovering (biomech f) = String.eqb (biomech_token 3 s) "1"
  /\ py_int lim (biomech_token 4 s) = Ok (frames (biomech f))
  /\ limbs f = part "." 6 s.

(** [x] is the integer that [int()] reads from [tok], divided by [d]. *)
Definition scaled (lim : Z) (tok : string) (d x : float) : Prop :=
  exists n, py_int lim tok = Ok n /\ x = (float_of_Z n / d)%float.

(** The scaled fields of a fighter against their tokens. *)
Definition scaled_fields (lim : Z) (raw : string) (f : fighter_t) : Prop :=
  scaled lim (part "." 1 raw) 100 (balance f)
  /\ scaled lim (part "." 2 raw) 100 (fatigue f)
  /\ scaled lim (part "." 3 raw) 100 (damage f)
  /\ scaled lim (biomech_token 2 raw) 100 (weight (biomech f))
  /\ scaled lim (momentum_token 0 raw) 10 (linear (momentum f)).

(** The token [tok] is read by [int()] as [z], which is negative only
    if the token has a minus sign. *)
Definition reads_as (lim : Z) (tok : string) (z : Z) : Prop :=
  py_int lim tok = Ok z /\ (has_minus tok = false -> 0 <= z).

Definition is_fpn_format (e : exn) : bool :=
  match e with
  | ValueError (Invalid_FPN_format _) => true
  | _ => false
  end.

Definition is_value_error (e : exn) : bool :=
  match e with
  | ValueError _ => true
  | _ => false
  end.

(** Notation strings used as inputs below. *)
Definition extra_fields_fpn : string :=
  "o.95.15.0.3,5,9.10,15,55,0,0,7.----/s.90.20.5.-1,0.-5,-10,45,0,0.----/m/A/5".

Definition short_momentum_fpn : string :=
  "o.95.15.0.3.10,15,55,0,0.----/s.90.20.5.-1,0.-5,-10,45,0,0.----/m/A/5".

Definition underscore_fpn : string :=
  "o.9_5.15.0.3,5.10,15,55,0,0.----/s.90.20.5.-1,0.-5,-10,45,0,0.----/m/A/5".

Definition bad_balance_fpn : string :=
  "o.9a.15.0.3,5.10,15,55,0,0.----/s.90.20.5.-1,0.-5,-10,45,0,0.----/m/A/5".

Definition negative_fpn : string :=
  "o.95.15.0.3,5.10,15,55,0,-3.----/s.90.20.5.-1,0.-5,-10,45,0,0.----/m/A/-5".

(** The example with the frames of fighter B not a number. *)
Definition bad_frames_fpn : string :=
  "o.95.15.0.3,5.10,15,55,0,0.----/s.90.20.5.-1,0.-5,-10,45,0,0x.----/m/A/5".

Definition short_limbs_fpn : string :=
  "o.95.15.0.3,5.10,15,55,0,0.E/s.90.20.5.-1,0.-5,-10,45,0,0.----/m/A/5".

(** One pass of the loop body of [pose_mannequin] over a colour: the three
    colour channels times the factor, alpha set to one, stored. *)
Definition darken_color (single : float -> float) (factor : float) (c : rgba)
  : rgba :=
  let '(c0, c1, c2, _) := c in
  (single (c0 * factor), single (c1 * factor), single (c2 * factor),
   single 1.0)%float.

(** [factor] of [pose_mannequin] *)
Definition tint_factor (damage : float) : float := (1 - damage * 0.5)%float.

(** A fighter of the example with other limbs. *)
Definition with_limbs (f : fighter_t) (l : string) : fighter_t :=
  {| stance := stance f; balance := balance f; fatigue := fatigue f;
     damage := damage f; momentum := momentum f; biomech := biomech f;
     limbs := l |}.

(** The store after [create_simple_mannequin] alone, from nothing. *)
Definition mannequin_scene : blend_data :=
  fst (create_simple_mannequin binary32 "FighterA" (1.0, 0.3, 0.3, 1.0)%float
         empty_data).

(** The store as [pose_mannequin] has it when it reaches the arm block. *)
Definition before_arms (single : float -> float) (m : nat) (f : fighter_t)
  (d : blend_data) : blend_data :=
  let name := name_of d m in
  fst (pose_torso single name f
         (fst (pose_hips single name f (fst (pose_lean single m f d))))).

(** *** Stores that differ by materials made earlier

    [embed ms d] is the store [d] as it would be had the materials [ms]
    been there before anything in [d] was made: the materials of [d] come
    after them, and the material slots of the objects point that much
    further. *)

Definition shift_object (n : nat) (x : object_t) : object_t :=
  {| obj_name := obj_name x; obj_type := obj_type x; location := location x;
     rotation_euler := rotation_euler x; scale := scale x;
     parent := parent x; obj_materials := map (Nat.add n) (obj_materials x) |}.

Definition embed (ms : list material_t) (d : blend_data) : blend_data :=
  {| objects := map (shift_object (List.length ms)) (objects d);
     materials := (ms ++ materials d)%list |}.

Definition result_rel {A : Type} (R : A -> A -> Prop) (r r' : result A) : Prop :=
  match r, r' with
  | Ok a, Ok a' => R a a'
  | Raise e, Raise e' => e = e'
  | _, _ => False
  end.

(** [c'] does on [embed ms d] what [c] does on [d]. *)
Definition sim {A : Type} (ms : list material_t) (R : A -> A -> Prop)
  (c c' : cmd A) : Prop :=
  forall d,
    fst (c' (embed ms d)) = embed ms (fst (c d))
    /\ result_rel R (snd (c d)) (snd (c' (embed ms d))).

(** A material made on [embed ms d] is [length ms] further than on [d]. *)
Definition shifted (ms : list material_t) (m m' : nat) : Prop :=
  m' = (List.length ms + m)%nat.

(** The integer converts to a float: it does not round to an infinity. *)
Definition in_float_range (z : Z) : Prop := is_infinity (float_of_Z z) = false.

(** *** Stores that differ by objects made earlier

    [embed_o os d] is the store [d] as it would be had the objects [os]
    been there before anything in [d] was made: the objects of [d] come
    after them, and their parents are that much further. *)

Definition shift_parent (n : nat) (x : object_t) : object_t :=
  {| obj_name := obj_name x; obj_type := obj_type x; location := location x;
     rotation_euler := rotation_euler x; scale := scale x;
     parent := option_map (Nat.add n) (parent x);
     obj_materials := obj_materials x |}.

Definition embed_o (os : list object_t) (d : blend_data) : blend_data :=
  {| objects := (os ++ map (shift_parent (List.length os)) (objects d))%list;
     materials := materials d |}.

Definition sim_o {A : Type} (os : list object_t) (R : A -> A -> Prop)
  (c c' : cmd A) : Prop :=
  forall d,
    fst (c' (embed_o os d)) = embed_o os (fst (c d))
    /\ result_rel R (snd (c d)) (snd (c' (embed_o os d))).

Definition shifted_o (os : list object_t) (o o' : nat) : Prop :=
  o' = (List.length os + o)%nat.

(** The names of the parts of a mannequin, after the mannequin's own. *)
Definition part_suffixes : list string :=
  ["_head"; "_torso"; "_hips";
   "_left_upper_arm"; "_left_lower_arm"; "_left_hand";
   "_right_upper_arm"; "_right_lower_arm"; "_right_hand";
   "_left_upper_leg"; "_left_lower_leg"; "_left_foot";
   "_right_upper_leg"; "_right_lower_leg"; "_right_foot"].

(** *** The phases of [setup_scene]

    [fighters_placed] is the store of [setup_scene], begun on an empty
    store, when it comes to posing: both mannequins made, placed and
    turned to face each other.  [finish_scene] is what [setup_scene] does
    after posing: ground, lights and camera.  [setup_scene_on_empty]
    proves that [setup_scene] is these around the two poses. *)

Definition fighters_placed (single : float -> float) (code : string)
  : blend_data :=
  let dist := dist_of code in
  let d1 := fst (create_simple_mannequin single "FighterA"
                   (1.0, 0.3, 0.3, 1.0)%float empty_data) in
  let d2 := fst (create_simple_mannequin single "FighterB"
                   (0.3, 0.3, 1.0, 1.0)%float d1) in
  let d3 := fst (set_location single 0 (half (number_neg dist), 0, 0)%float d2) in
  let d4 := fst (set_location single 16 (half dist, 0, 0)%float d3) in
  let d5 := fst (set_rotation single 0 2 (math_pi / 2)%float d4) in
  fst (set_rotation single 16 2 ((- math_pi) / 2)%float d5).

Definition finish_scene (single : float -> float) (fighter_a fighter_b : nat)
  : cmd (nat * nat) :=
  ground <~ new_object single "Plane" MESH (0, 0, 0)%float ;;
  set_name ground "Ground" ;;;
  ground_mat <~ materials_new "GroundMaterial" ;;
  set_default_value single ground_mat (0.3, 0.3, 0.3, 1.0)%float ;;;
  materials_append ground ground_mat ;;;
  sun <~ new_object single "Sun" LIGHT (5, -5, 10)%float ;;
  r45 <~ lift (math_radians 45) ;;
  set_rotation_euler single sun (r45, 0, r45)%float ;;;
  fill_light <~ new_object single "Area" LIGHT (-5, 5, 5)%float ;;
  camera <~ new_object single "Camera" CAMERA (0, -10, 5)%float ;;
  r60 <~ lift (math_radians 60) ;;
  set_rotation_euler single camera (r60, 0, 0)%float ;;;
  ret (fighter_a, fighter_b).

(** The fighter can be posed on a mannequin that has hips and torso: its
    hip and torso angles convert to floats and its limbs string has two
    characters. *)
Definition poseable (f : fighter_t) : bool :=
  (negb (is_infinity (float_of_Z (hip_rot (biomech f))))
   && negb (is_infinity (float_of_Z (torso_rot (biomech f))))
   && (2 <=? String.length (limbs f))%nat)%bool.

(** What posing a fighter that is not [poseable] raises. *)
Definition pose_failure (f : fighter_t) : exn :=
  if (is_infinity (float_of_Z (hip_rot (biomech f)))
      || is_infinity (float_of_Z (torso_rot (biomech f))))%bool
  then OverflowError else IndexError.

(** ** Vocabulary of further statements *)

(** How often the character [c] occurs in [s]. *)
Fixpoint count_char (c : ascii) (s : string) : nat :=
  match s with
  | EmptyString => O
  | String x r => ((if Ascii.eqb x c then 1 else 0) + count_char c r)%nat
  end.

(** [sep.join(l)] *)
Fixpoint join (sep : ascii) (l : list string) : string :=
  match l with
  | [] => EmptyString
  | [x] => x
  | x :: l' => x ++ String sep (join sep l')
  end.

(** The tokens of a fighter whose integers are divided after parsing. *)
Definition fighter_scaled_tokens (fpn_fighter : string) : list string :=
  [part "." 1 fpn_fighter; part "." 2 fpn_fighter; part "." 3 fpn_fighter;
   momentum_token 0 fpn_fighter; biomech_token 2 fpn_fighter].

(** The momentum or the biomech of the fighter has too few fields for the
    subscripts of [parse_fighter]. *)
Definition short_fields (fpn_fighter : string) : Prop :=
  (List.length (split "," (part "." 4 fpn_fighter)) < 2)%nat
  \/ (List.length (split "," (part "." 5 fpn_fighter)) < 5)%nat.

Definition is_fighter_format (e : exn) : bool :=
  match e with
  | ValueError (Invalid_fighter_format _) => true
  | _ => false
  end.

(** The example with recovering flags "1" and " 1". *)
Definition recovering_fpn : string :=
  "o.95.15.0.3,5.10,15,55,1,0.----/s.90.20.5.-1,0.-5,-10,45, 1,0.----/m/A/5".

Fixpoint zeros (n : nat) : string :=
  match n with
  | O => EmptyString
  | S n' => String "0" (zeros n')
  end.

(** The example with a balance of fighter A of 1 followed by 400 zeros. *)
Definition huge_balance_fpn : string :=
  "o.1" ++ zeros 400
  ++ ".15.0.3,5.10,15,55,0,0.----/s.90.20.5.-1,0.-5,-10,45,0,0.----/m/A/5".

(** What of an object a pose must not touch: all but its rotation. *)
Definition object_shape (x : object_t)
  : string * object_type * vec3 * vec3 * option nat * list nat :=
  (obj_name x, obj_type x, location x, scale x, parent x, obj_materials x).

(** The shape of a store: its objects without their rotations, and the
    names of its materials. *)
Definition shape (d : blend_data)
  : list (string * object_type * vec3 * vec3 * option nat * list nat)
    * list string :=
  (map object_shape (objects d), map mat_name (materials d)).

(** [lean] of [pose_mannequin] *)
Definition lean_of (f : fighter_t) : float :=
  ((1 - balance f) * 0.2)%float.

(** [math.radians(n)] once [n] is a float. *)
Definition radians_of (n : Z) : float :=
  (float_of_Z n * (math_pi / 180))%float.

(** ** [render_scene] and [main]

    The script as a process: besides the store it has the render settings
    of the scene, its standard output, and the stills it has asked the
    engine to render.  What the rendering engine does with a request is
    outside the script; [render_op] says whether the operator returned or
    raised its [RuntimeError].  A printed line is kept as the [message]
    it was formatted from, and printing is taken to succeed.  [sys.argv]
    is an argument of [main]. *)

Record render_settings : Type := {
  engine : string;
  samples : Z;
  resolution_x : Z;
  resolution_y : Z;
  filepath : string
}.

Inductive message : Type :=
| Usage_blender
    (* Usage: blender --background --python blender_render_fpn.py -- <FPN_string> <output.png> *)
| Example_heading     (* a newline, then Example: *)
| Example_command     (* the example command line *)
| Missing_arguments   (* Error: Missing arguments *)
| Usage_arguments     (* Usage: <FPN_string> <output.png> *)
| Parsing_FPN (fpn_string : string)     (* f"Parsing FPN: {fpn_string}" *)
| Setting_up_scene                      (* Setting up scene... *)
| Rendering_to (output_path : string)   (* f"Rendering to: {output_path}" *)
| Rendered (output_path : string)       (* f"... Rendered: {output_path}" *)
| Done.                                 (* Done! *)

Record process : Type := {
  data : blend_data;
  render : render_settings;
  stdout : list message;
  stills : list (render_settings * blend_data)
}.

(** How a run of statements ends when it does not run to its end. *)
Inductive stop : Type :=
| SystemExit (code : Z)    (* [sys.exit(code)] *)
| Uncaught (e : exn)       (* an exception of the script's own code *)
| RuntimeError.            (* raised by the render operator *)

Definition run (A : Type) : Type := process -> process * (A + stop).

Definition rret {A : Type} (a : A) : run A := fun p => (p, inl a).

Definition rbind {A B : Type} (c : run A) (k : A -> run B) : run B :=
  fun p =>
    match c p with
    | (p', inl a) => k a p'
    | (p', inr e) => (p', inr e)
    end.

Notation "x <-- c ;; k" := (rbind c (fun x => k))
  (at level 61, c at next level, right associativity).
Notation "c >>> k" := (rbind c (fun _ => k))
  (at level 61, right associativity).

(** [print(m)] *)
Definition print (m : message) : run unit :=
  fun p => ({| data := data p; render := render p;
               stdout := stdout p ++ [m]; stills := stills p |}, inl tt).

(** [sys.exit(code)] *)
Definition sys_exit {A : Type} (code : Z) : run A :=
  fun p => (p, inr (SystemExit code)).

(** An expression of the script that may raise. *)
Definition lift_result {A : Type} (r : result A) : run A :=
  fun p =>
    (p, match r with
        | Ok a => inl a
        | Raise e => inr (Uncaught e)
        end).

(** Statements over the store, run in the process. *)
Definition lift_cmd {A : Type} (c : cmd A) : run A :=
  fun p =>
    let '(d, r) := c (data p) in
    ({| data := d; render := render p;
        stdout := stdout p; stills := stills p |},
     match r with
     | Ok a => inl a
     | Raise e => inr (Uncaught e)
     end).

Definition update_render (f : render_settings -> render_settings) : run unit :=
  fun p => ({| data := data p; render := f (render p);
               stdout := stdout p; stills := stills p |}, inl tt).

Definition set_engine (v : string) : run unit :=
  update_render (fun s =>
    {| engine := v; samples := samples s; resolution_x := resolution_x s;
       resolution_y := resolution_y s; filepath := filepath s |}).

Definition set_samples (v : Z) : run unit :=
  update_render (fun s =>
    {| engine := engine s; samples := v; resolution_x := resolution_x s;
       resolution_y := resolution_y s; filepath := filepath s |}).

Definition set_resolution_x (v : Z) : run unit :=
  update_render (fun s =>
    {| engine := engine s; samples := samples s; resolution_x := v;
       resolution_y := resolution_y s; filepath := filepath s |}).

Definition set_resolution_y (v : Z) : run unit :=
  update_render (fun s =>
    {| engine := engine s; samples := samples s;
       resolution_x := resolution_x s; resolution_y := v;
       filepath := filepath s |}).

Definition set_filepath (v : string) : run unit :=
  update_render (fun s =>
    {| engine := engine s; samples := samples s;
       resolution_x := resolution_x s; resolution_y := resolution_y s;
       filepath := v |}).

(** [l.index(x)]; [None] stands for the [ValueError] it raises when [x]
    is not in the list, which [main] catches at once. *)
Fixpoint list_index (x : string) (l : list string) : option nat :=
  match l with
  | [] => None
  | y :: l' =>
      if String.eqb y x then Some O else option_map S (list_index x l')
  end.

Section Script.

Variable single : float -> float.
Variable max_str_digits : Z.

(** Whether [bpy.ops.render.render(write_still=True)] returns, given the
    settings and the store it finds. *)
Variable render_op : render_settings -> blend_data -> bool.

(** [bpy.ops.render.render(write_still=True)] *)
Definition ops_render : run unit :=
  fun p =>
    ({| data := data p; render := render p; stdout := stdout p;
        stills := stills p ++ [(render p, data p)] |},
     if render_op (render p) (data p) then inl tt else inr RuntimeError).

Definition render_scene (output_path : string) : run unit :=
  set_engine "CYCLES" >>>
  set_samples 128 >>>
  set_resolution_x 1920 >>>
  set_resolution_y 1080 >>>
  set_filepath output_path >>>
  ops_render >>>
  print (Rendered output_path).

Definition main (sys_argv : list string) : run unit :=
  argv <-- match list_index "--" sys_argv with
           | Some i => rret (skipn (i + 1) sys_argv)
           | None =>
               print Usage_blender >>>
               print Example_heading >>>
               print Example_command >>>
               sys_exit 1
           end ;;
  (if (List.length argv <? 2)%nat
   then print Missing_arguments >>> print Usage_arguments >>> sys_exit 1
   else rret tt) >>>
  fpn_string <-- lift_result (getitem argv 0) ;;
  output_path <-- lift_result (getitem argv 1) ;;
  print (Parsing_FPN fpn_string) >>>
  state <-- lift_result (parse_fpn max_str_digits fpn_string) ;;
  print Setting_up_scene >>>
  lift_cmd (setup_scene single state) >>>
  print (Rendering_to output_path) >>>
  render_scene output_path >>>
  print Done.

End Script.

(** *** Vocabulary of statements about [main] *)

(** The settings [render_scene] leaves. *)
Definition cycles_settings (output_path : string) : render_settings :=
  {| engine := "CYCLES"; samples := 128; resolution_x := 1920;
     resolution_y := 1080; filepath := output_path |}.

(** The process with a store and lines printed since. *)
Definition advanced (p : process) (d : blend_data) (out : list message)
  : process :=
  {| data := d; render := render p; stdout := stdout p ++ out;
     stills := stills p |}.

(** A command line that gives the script its two arguments: nothing
    before them but one "--", after arguments that are not "--". *)
Definition command_line (before : list string) (fpn_string output_path : string)
  (after : list string) : list string :=
  (before ++ "--" :: fpn_string :: output_path :: after)%list.

(** An engine whose render operator always returns. *)
Definition render_ok (s : render_settings) (d : blend_data) : bool := true.

Definition initial_process : process :=
  {| data := empty_data;
     render := {| engine := "BLENDER_EEVEE"; samples := 64;
                  resolution_x := 1920; resolution_y := 1080;
                  filepath := "/tmp/" |};
     stdout := []; stills := [] |}.

(** The command line does not give the script its two arguments. *)
Definition usage_error (sys_argv : list string) : Prop :=
  ~ In "--" sys_argv
  \/ exists before rest,
       sys_argv = (before ++ "--" :: rest)%list
       /\ ~ In "--" before /\ (List.length rest < 2)%nat.

(** A command line as the engine passes it on. *)
Definition blender_argv (fpn_string : string) : list string :=
  ["blender"; "--background"; "--python"; "blender_render_fpn.py"; "--";
   fpn_string; "out.png"; "--verbose"].

(** ** Results and strings *)

Lemma getitem_part (sep : ascii) (s : string) (i : nat) (x : string) :
  getitem (split sep s) i = Ok x -> x = part sep i s.
Proof.
  unfold getitem, part. intro H.
  destruct (nth_error (split sep s) i) as [y|] eqn:E; [|discriminate H].
  injection H as <-. symmetry. now apply nth_error_nth.
Qed.

Lemma getitem_in_range {A : Type} (l : list A) (i : nat) :
  (i < List.length l)%nat -> exists x, getitem l i = Ok x.
Proof.
  intro H. unfold getitem.
  destruct (nth_error l i) as [x|] eqn:E.
  - now exists x.
  - apply nth_error_None in E. lia.
Qed.

Lemma split_nonempty (sep : ascii) (s : string) : split sep s <> [].
Proof.
  destruct s as [|c r]; simpl; [discriminate|].
  destruct (Ascii.eqb c sep); [discriminate|].
  destruct (split sep r); discriminate.
Qed.

Lemma lstrip_all_space (w : string) : all_space w = true -> lstrip w = "".
Proof.
  induction w as [|c r IH]; simpl; [reflexivity|].
  intro H. apply andb_prop in H as [Hc Hr]. rewrite Hc. now apply IH.
Qed.

Lemma rstrip_all_space (w : string) : all_space w = true -> rstrip w = "".
Proof.
  induction w as [|c r IH]; simpl; [reflexivity|].
  intro H. apply andb_prop in H as [Hc Hr]. now rewrite (IH Hr), Hc.
Qed.

Lemma lstrip_app_space_l (w s : string) :
  all_space w = true -> lstrip (w ++ s) = lstrip s.
Proof.
  induction w as [|c r IH]; simpl; [reflexivity|].
  intro H. apply andb_prop in H as [Hc Hr]. rewrite Hc. now apply IH.
Qed.

Lemma rstrip_app_space_r (s w : string) :
  all_space w = true -> rstrip (s ++ w) = rstrip s.
Proof.
  intro H. induction s as [|c r IH]; simpl.
  - now apply rstrip_all_space.
  - now rewrite IH.
Qed.

Lemma lstrip_app_r (s w : string) :
  lstrip (s ++ w) = if all_space s then lstrip w else lstrip s ++ w.
Proof.
  induction s as [|c r IH]; simpl; [reflexivity|].
  destruct (isspace c); simpl; [exact IH | reflexivity].
Qed.

Lemma strip_pad (w1 s w2 : string) :
  all_space w1 = true -> all_space w2 = true ->
  strip (w1 ++ s ++ w2) = strip s.
Proof.
  intros H1 H2. unfold strip.
  rewrite (lstrip_app_space_l _ _ H1), lstrip_app_r.
  destruct (all_space s) eqn:Hs.
  - rewrite (lstrip_all_space _ H2), (lstrip_all_space _ Hs). reflexivity.
  - now apply rstrip_app_space_r.
Qed.

(** ** [int()] *)

Lemma digit_value_nonneg (c : ascii) : is_digit c = true -> 0 <= digit_value c.
Proof.
  unfold is_digit, in_range, digit_value. intro H.
  apply andb_prop in H as [H _]. apply N.leb_le in H. lia.
Qed.

Lemma scan_digits_nonneg (s : string) :
  forall p acc n v n' rest,
    scan_digits p acc n s = Some (v, n', rest) -> 0 <= acc -> 0 <= v.
Proof.
  induction s as [|c r IH]; cbn [scan_digits]; intros p acc n v n' rest H Hacc.
  - destruct p; [discriminate H|]. injection H as <- _ _. exact Hacc.
  - destruct (is_digit c) eqn:Hd.
    + apply IH in H; [exact H|]. pose proof (digit_value_nonneg c Hd). lia.
    + destruct (Ascii.eqb c "_").
      * destruct p; [discriminate H|]. now apply IH in H.
      * destruct p; [discriminate H|]. injection H as <- _ _. exact Hacc.
Qed.

Lemma skip_int_space_empty (s : string) :
  skip_int_space s = "" -> all_int_chars s = true.
Proof.
  induction s as [|c r IH]; simpl; [reflexivity|].
  destruct (int_space c) eqn:Hc; [|discriminate].
  intro H. unfold int_char. rewrite Hc, (IH H).
  now rewrite !orb_true_r.
Qed.

Lemma scan_digits_chars (s : string) :
  forall p acc n v n' rest,
    scan_digits p acc n s = Some (v, n', rest) ->
    all_int_chars rest = true -> all_int_chars s = true.
Proof.
  induction s as [|c r IH]; simpl; intros p acc n v n' rest H Hrest;
    [reflexivity|].
  unfold int_char.
  destruct (is_digit c) eqn:Hd; simpl.
  - now apply IH in H.
  - destruct (Ascii.eqb c "_") eqn:Hu; simpl.
    + destruct p; [discriminate H|]. now apply IH in H.
    + destruct p; [discriminate H|]. injection H as _ _ <-.
      simpl in Hrest. unfold int_char in Hrest.
      now rewrite Hd, Hu in Hrest.
Qed.

Lemma all_int_chars_skip (s : string) :
  all_int_chars (skip_int_space s) = true -> all_int_chars s = true.
Proof.
  induction s as [|c r IH]; simpl; [reflexivity|].
  destruct (int_space c) eqn:Hc; simpl.
  - intro H. unfold int_char. rewrite Hc, (IH H). now rewrite !orb_true_r.
  - trivial.
Qed.

Lemma all_int_chars_sign (s : string) :
  all_int_chars (snd (read_sign s)) = true -> all_int_chars s = true.
Proof.
  destruct s as [|c r]; cbn [read_sign all_int_chars]; [reflexivity|].
  unfold int_char.
  destruct (Ascii.eqb c "+") eqn:Hp; cbn [snd].
  - intros ->. now rewrite !orb_true_r.
  - destruct (Ascii.eqb c "-") eqn:Hm; cbn [snd all_int_chars].
    + intros ->. now rewrite !orb_true_r.
    + unfold int_char. rewrite Hp, Hm. trivial.
Qed.

Lemma has_minus_skip (s : string) :
  has_minus s = false -> has_minus (skip_int_space s) = false.
Proof.
  induction s as [|c r IH]; simpl; [reflexivity|].
  intro H. apply orb_false_elim in H as [Hc Hr].
  destruct (int_space c); simpl; [now apply IH | now rewrite Hc, Hr].
Qed.

Lemma read_sign_no_minus (s : string) :
  has_minus s = false -> fst (read_sign s) = false.
Proof.
  destruct s as [|c r]; simpl; [reflexivity|].
  intro H. apply orb_false_elim in H as [Hc _].
  destruct (Ascii.eqb c "+"); [reflexivity|]. now rewrite Hc.
Qed.

Section IntFacts.

Variable lim : Z.

(** What [int()] raises is a [ValueError] about its own argument. *)
Lemma py_int_raises (s : string) (e : exn) :
  py_int lim s = Raise e ->
  e = ValueError (invalid_literal s)
  \/ exists n, e = ValueError (exceeds_limit n).
Proof.
  unfold py_int.
  destruct (read_sign (skip_int_space s)) as [neg s2].
  destruct (starts_with_underscore s2); [intro H; injection H as <-; now left|].
  destruct (scan_digits false 0 0 s2) as [[[v n] rest]|];
    [|intro H; injection H as <-; now left].
  destruct (_ && _ && _)%bool; [intro H; injection H as <-; right; now exists n|].
  destruct (n =? 0); [intro H; injection H as <-; now left|].
  destruct (skip_int_space rest); [discriminate|].
  intro H; injection H as <-; now left.
Qed.

(** An accepted argument without a minus sign denotes no negative number. *)
Lemma py_int_nonneg (s : string) (z : Z) :
  py_int lim s = Ok z -> has_minus s = false -> 0 <= z.
Proof.
  unfold py_int. intros H Hm.
  pose proof (read_sign_no_minus _ (has_minus_skip _ Hm)) as Hs.
  destruct (read_sign (skip_int_space s)) as [neg s2]. simpl in Hs. subst neg.
  destruct (starts_with_underscore s2); [discriminate H|].
  destruct (scan_digits false 0 0 s2) as [[[v n] rest]|] eqn:E;
    [|discriminate H].
  destruct (_ && _ && _)%bool; [discriminate H|].
  destruct (n =? 0); [discriminate H|].
  destruct (skip_int_space rest); [|discriminate H].
  injection H as <-. apply scan_digits_nonneg in E; [exact E | lia].
Qed.

(** An accepted argument holds only digits, underscores, signs and the
    white space of [int()]. *)
Lemma py_int_chars (s : string) (z : Z) :
  py_int lim s = Ok z -> all_int_chars s = true.
Proof.
  unfold py_int. intro H.
  apply all_int_chars_skip, all_int_chars_sign.
  destruct (read_sign (skip_int_space s)) as [neg s2]. simpl.
  destruct (starts_with_underscore s2); [discriminate H|].
  destruct (scan_digits false 0 0 s2) as [[[v n] rest]|] eqn:E;
    [|discriminate H].
  destruct (_ && _ && _)%bool; [discriminate H|].
  destruct (n =? 0); [discriminate H|].
  destruct (skip_int_space rest) eqn:Er; [|discriminate H].
  eapply scan_digits_chars; [exact E|]. now apply skip_int_space_empty.
Qed.

End IntFacts.

(** ** What an accepted notation string decodes to *)

Ltac invert_binds H :=
  repeat match type of H with
  | bind ?r _ = Ok _ =>
      let a := fresh "a" in
      let E := fresh "E" in
      destruct r as [a|] eqn:E; cbn [bind] in H; [|discriminate H];
      try (apply getitem_part in E; subst a)
  end.

Section DecoderFacts.

Variable lim : Z.

Lemma int_over_ok (tok : string) (d x : float) :
  int_over lim tok d = Ok x ->
  exists n, py_int lim tok = Ok n /\ x = (float_of_Z n / d)%float.
Proof.
  unfold int_over, int_truediv_float, float_of_int. intro H.
  destruct (py_int lim tok) as [n|]; cbn [bind] in H; [|discriminate H].
  exists n. split; [reflexivity|].
  destruct (is_infinity (float_of_Z n)); cbn [bind] in H; [discriminate H|].
  now injection H as <-.
Qed.

Lemma parse_fighter_ok (s : string) (f : fighter_t) :
  parse_fighter lim s = Ok f -> decodes_fighter lim s f.
Proof.
  unfold parse_fighter, decodes_fighter, momentum_token, biomech_token.
  cbv zeta. intro H.
  destruct (List.length (split "." s) =? 7)%nat eqn:Hlen;
    cbn [negb] in H; [|discriminate H].
  apply Nat.eqb_eq in Hlen.
  invert_binds H. injection H as <-. cbn.
  repeat split; assumption.
Qed.

Lemma parse_fpn_ok (s : string) (st : fight_state) :
  parse_fpn lim s = Ok st ->
  List.length (split "/" (strip s)) = 5%nat
  /\ parse_fighter lim (part "/" 0 (strip s)) = Ok (fighter_a st)
  /\ parse_fighter lim (part "/" 1 (strip s)) = Ok (fighter_b st)
  /\ distance st = part "/" 2 (strip s)
  /\ turn st = part "/" 3 (strip s)
  /\ py_int lim (part "/" 4 (strip s)) = Ok (move_count st).
Proof.
  unfold parse_fpn. cbv zeta. intro H.
  destruct (List.length (split "/" (strip s)) =? 5)%nat eqn:Hlen;
    cbn [negb] in H; [|discriminate H].
  apply Nat.eqb_eq in Hlen.
  invert_binds H. injection H as <-. cbn.
  repeat split; assumption.
Qed.

(** The two count checks that the decoder makes. *)
Lemma parse_fpn_top_count (s : string) :
  List.length (split "/" (strip s)) <> 5%nat ->
  parse_fpn lim s = Raise (ValueError (Invalid_FPN_format s)).
Proof.
  intro H. unfold parse_fpn. cbv zeta.
  apply Nat.eqb_neq in H. now rewrite H.
Qed.

Lemma parse_fighter_count (s : string) :
  List.length (split "." s) <> 7%nat ->
  parse_fighter lim s = Raise (ValueError (Invalid_fighter_format s)).
Proof.
  intro H. unfold parse_fighter. cbv zeta.
  apply Nat.eqb_neq in H. now rewrite H.
Qed.

End DecoderFacts.

(** ** The decoder: claims *)

(** C4: decoding the literal example string of the notation succeeds and
    yields exactly the state the specification lists: fighter A with stance
    "o", balance 0.95, fatigue 0.15, damage 0.0, momentum (0.3, 5), biomech
    (10, 15, 0.55, false, 0) and limbs "----"; fighter B with its listed
    values; distance "m", turn "A" and move count 5. *)
Theorem decode_example :
  forall lim, parse_fpn lim example_fpn = Ok example_state.
Proof. intro lim. vm_compute. reflexivity. Qed.

(** C9: in every successfully decoded state, balance, fatigue, damage and
    biomech weight of each fighter are the integer read from the token
    divided by 100.0, and the linear momentum is its integer divided by
    10.0; the tokens "95", "0" and "100" give 0.95, 0.0 and 1.0. *)
Theorem percentage_scaling (lim : Z) (s : string) (st : fight_state) :
  parse_fpn lim s = Ok st ->
  scaled_fields lim (part "/" 0 (strip s)) (fighter_a st)
  /\ scaled_fields lim (part "/" 1 (strip s)) (fighter_b st)
  /\ int_over lim "95" 100 = Ok 0.95%float
  /\ int_over lim "0" 100 = Ok 0.0%float
  /\ int_over lim "100" 100 = Ok 1.0%float.
Proof.
  intro H. apply parse_fpn_ok in H as (_ & Ha & Hb & _).
  apply parse_fighter_ok in Ha. apply parse_fighter_ok in Hb.
  unfold decodes_fighter in Ha, Hb. unfold scaled_fields, scaled.
  destruct Ha as (_ & _ & A1 & A2 & A3 & A4 & _ & _ & _ & A5 & _).
  destruct Hb as (_ & _ & B1 & B2 & B3 & B4 & _ & _ & _ & B5 & _).
  repeat split; try (now apply int_over_ok); vm_compute; reflexivity.
Qed.

Lemma percentage_scaling_witness :
  parse_fpn 4300 example_fpn = Ok example_state
  /\ scaled_fields 4300 (part "/" 0 (strip example_fpn)) (fighter_a example_state)
  /\ scaled_fields 4300 (part "/" 1 (strip example_fpn)) (fighter_b example_state).
Proof.
  assert (H : parse_fpn 4300 example_fpn = Ok example_state)
    by (vm_compute; reflexivity).
  split; [exact H|].
  split; [exact (proj1 (percentage_scaling 4300 example_fpn example_state H))
         |exact (proj1 (proj2 (percentage_scaling 4300 example_fpn example_state H)))].
Defined.

(** C6, as amended: in every accepted string the move count and each
    fighter's biomech frames are the integers that [int()] reads from
    their tokens; they are non-negative whenever the token has no minus
    sign, and a token such as "-5" is accepted and gives a negative count. *)
Theorem counts_as_read (lim : Z) (s : string) (st : fight_state) :
  parse_fpn lim s = Ok st ->
  reads_as lim (part "/" 4 (strip s)) (move_count st)
  /\ reads_as lim (biomech_token 4 (part "/" 0 (strip s)))
       (frames (biomech (fighter_a st)))
  /\ reads_as lim (biomech_token 4 (part "/" 1 (strip s)))
       (frames (biomech (fighter_b st))).
Proof.
  intro H. apply parse_fpn_ok in H as (_ & Ha & Hb & _ & _ & Hm).
  apply parse_fighter_ok in Ha. apply parse_fighter_ok in Hb.
  destruct Ha as (_ & _ & _ & _ & _ & _ & _ & _ & _ & _ & _ & Fa & _).
  destruct Hb as (_ & _ & _ & _ & _ & _ & _ & _ & _ & _ & _ & Fb & _).
  unfold reads_as.
  repeat split; try assumption; now apply py_int_nonneg with (lim := lim).
Qed.

Lemma counts_as_read_witness :
  parse_fpn 4300 example_fpn = Ok example_state
  /\ reads_as 4300 (part "/" 4 (strip example_fpn)) (move_count example_state).
Proof.
  assert (H : parse_fpn 4300 example_fpn = Ok example_state)
    by (vm_compute; reflexivity).
  split; [exact H|].
  exact (proj1 (counts_as_read 4300 example_fpn example_state H)).
Defined.

(** C6, the claim as stated fails: a string with move count "-5" and
    frames "-3" is accepted, and both values come out negative. *)
Lemma negative_counts_accepted :
  exists st,
    parse_fpn 4300 negative_fpn = Ok st
    /\ move_count st = -5
    /\ frames (biomech (fighter_a st)) = -3.
Proof.
  eexists. split; [vm_compute; reflexivity|]. split; reflexivity.
Qed.

(** C2, the code at the failing input: a momentum of three fields and a
    biomech of six are accepted, the extra fields ignored; a momentum of
    one field is rejected by the index error of [mom[1]], not by a format
    error. *)
Theorem momentum_biomech_counts_unchecked :
  forall lim,
    List.length (split "," (part "." 4 (part "/" 0 (strip extra_fields_fpn)))) = 3%nat
    /\ List.length (split "," (part "." 5 (part "/" 0 (strip extra_fields_fpn)))) = 6%nat
    /\ parse_fpn lim extra_fields_fpn = Ok example_state
    /\ List.length (split "," (part "." 4 (part "/" 0 (strip short_momentum_fpn)))) = 1%nat
    /\ parse_fpn lim short_momentum_fpn = Raise IndexError.
Proof. intro lim. repeat split; vm_compute; reflexivity. Qed.

(** C5, the claim as stated fails: the balance token "9_5" is not a
    signed base-10 integer without extraneous characters, yet the string
    is accepted and the balance is 0.95. *)
Lemma underscore_token_accepted :
  part "." 1 (part "/" 0 (strip underscore_fpn)) = "9_5"
  /\ spec_integer_token "9_5" = false
  /\ parse_fpn 4300 underscore_fpn = Ok example_state.
Proof. repeat split; vm_compute; reflexivity. Qed.

Lemma getitem_split (sep : ascii) (s : string) (i : nat) :
  (i < List.length (split sep s))%nat ->
  getitem (split sep s) i = Ok (part sep i s).
Proof.
  intro H. destruct (getitem_in_range _ _ H) as [x Hx].
  rewrite Hx. f_equal. now apply getitem_part.
Qed.

Lemma int_over_accepts (lim : Z) (tok : string) (d x : float) :
  int_over lim tok d = Ok x -> exists n, py_int lim tok = Ok n.
Proof.
  intro H. apply int_over_ok in H as (n & Hn & _). now exists n.
Qed.

(** What [int()] makes of the integer tokens of an accepted fighter. *)
Lemma fighter_tokens_accepted (lim : Z) (s : string) (f : fighter_t) :
  parse_fighter lim s = Ok f ->
  Forall (fun tok => exists n, py_int lim tok = Ok n) (fighter_int_tokens s).
Proof.
  intro H. apply parse_fighter_ok in H.
  destruct H as (_ & _ & H1 & H2 & H3 & H4 & H5 & H6 & H7 & H8 & _ & H9 & _).
  unfold fighter_int_tokens.
  repeat (apply Forall_cons; [eauto using int_over_accepts|]).
  apply Forall_nil.
Qed.

(** What [int()] makes of the integer tokens of an accepted string. *)
Lemma fpn_tokens_accepted (lim : Z) (s : string) (st : fight_state) :
  parse_fpn lim s = Ok st ->
  Forall (fun tok => (exists n, py_int lim tok = Ok n)
                     /\ all_int_chars tok = true)
         (fpn_int_tokens s).
Proof.
  intro H. apply parse_fpn_ok in H as (_ & Ha & Hb & _ & _ & Hm).
  apply fighter_tokens_accepted in Ha, Hb.
  assert (Hall : Forall (fun tok => exists n, py_int lim tok = Ok n)
                        (fpn_int_tokens s)).
  { unfold fpn_int_tokens. cbv zeta.
    apply Forall_app; split; [exact Ha|].
    apply Forall_app; split; [exact Hb|].
    apply Forall_cons; [eauto | apply Forall_nil]. }
  eapply Forall_impl; [|exact Hall].
  intros tok [n Hn]. split; [now exists n|].
  now apply py_int_chars with (lim := lim) (z := n).
Qed.

Lemma split_length_pos (sep : ascii) (s : string) :
  (1 <= List.length (split sep s))%nat.
Proof.
  pose proof (split_nonempty sep s) as H.
  destruct (split sep s); [contradiction | cbn; lia].
Qed.

Lemma first_bad_app {A : Type} (l1 l2 : list A) :
  forall (pre post : list A) (x : A),
    (l1 ++ l2 = pre ++ x :: post)%list ->
    (exists post1, l1 = (pre ++ x :: post1)%list)
    \/ (exists pre2, pre = (l1 ++ pre2)%list /\ l2 = (pre2 ++ x :: post)%list).
Proof.
  induction l1 as [|a l1 IH]; intros pre post x H.
  - right. exists pre. split; [reflexivity | exact H].
  - destruct pre as [|p pre]; cbn [app] in H; injection H as -> H.
    + left. now exists l1.
    + destruct (IH pre post x H) as [[post1 ->]|(pre2 & -> & ->)].
      * left. now exists post1.
      * right. now exists pre2.
Qed.

(** Facts about field counts, as [lia] reads them. *)
Ltac reflect_counts :=
  repeat match goal with
  | H : (_ && _)%bool = true |- _ => apply andb_prop in H as [? ?]
  | H : (_ =? _)%nat = true |- _ => apply Nat.eqb_eq in H
  | H : (_ <=? _)%nat = true |- _ => apply Nat.leb_le in H
  | H : match List.length ?l with O => _ | S _ => _ end = true |- _ =>
      first [ change ((2 <=? List.length l)%nat = true) in H
            | change ((3 <=? List.length l)%nat = true) in H
            | change ((5 <=? List.length l)%nat = true) in H ];
      apply Nat.leb_le in H
  end.

(** Runs the decoder of a fighter along the reads known to go through. *)
Ltac run_reads :=
  repeat (cbn [bind];
          match goal with
          | |- bind (getitem (split ?sep ?s) ?i) _ = _ =>
              rewrite (getitem_split sep s i)
                by (pose proof (split_length_pos sep s); lia)
          | H : int_over ?l ?t ?d = Ok _ |- bind (int_over ?l ?t ?d) _ = _ =>
              rewrite H
          | H : py_int ?l ?t = Ok _ |- bind (py_int ?l ?t) _ = _ =>
              rewrite H
          end);
  cbn [bind].

Section ReadFacts.

Variable lim : Z.

(** The first read of a fighter that [int()] rejects, the reads before it
    having gone through, makes the fighter's decoder raise what [int()]
    raises. *)
Lemma parse_fighter_first_bad (f : string) (pre post : list int_read)
  (there : bool) (tok : string) (d : option float) (e : exn) :
  fighter_int_reads f = (pre ++ (there, tok, d) :: post)%list ->
  Forall (read_fine lim) pre ->
  there = true ->
  py_int lim tok = Raise e ->
  parse_fighter lim f = Raise e.
Proof.
  unfold fighter_int_reads, momentum_token, biomech_token. cbv zeta.
  intros Hr Hf Ht He.
  repeat (destruct pre as [|r pre]; cbn [app] in Hr;
          [ injection Hr as <- <- <- _
          | injection Hr as <- Hr;
            apply Forall_cons_iff in Hf as [[? [? ?]] Hf] ]);
    try (destruct pre; discriminate Hr);
    reflect_counts;
    unfold parse_fighter; cbv zeta;
    match goal with H : List.length _ = 7%nat |- _ => rewrite H end;
    cbn [Nat.eqb negb]; run_reads;
    unfold int_over; rewrite He; reflexivity.
Qed.

(** When all reads of a fighter go through, the fighter is decoded. *)
Lemma parse_fighter_all_fine (f : string) :
  Forall (read_fine lim) (fighter_int_reads f) ->
  exists x, parse_fighter lim f = Ok x.
Proof.
  unfold fighter_int_reads, momentum_token, biomech_token. cbv zeta.
  intro Hf.
  repeat match goal with
  | H : Forall _ (_ :: _) |- _ =>
      apply Forall_cons_iff in H as [[? [? ?]] H]
  end.
  reflect_counts.
  unfold parse_fighter. cbv zeta.
  match goal with H : List.length _ = 7%nat |- _ => rewrite H end.
  cbn [Nat.eqb negb].
  eexists. run_reads. reflexivity.
Qed.

End ReadFacts.

(** The first integer read that [int()] rejects decides how decoding
    fails. *)
Lemma first_rejected_read (lim : Z) (s : string) (pre post : list int_read)
  (there : bool) (tok : string) (d : option float) (e : exn) :
  List.length (split "/" (strip s)) = 5%nat ->
  fpn_int_reads s = (pre ++ (there, tok, d) :: post)%list ->
  Forall (read_fine lim) pre ->
  there = true ->
  py_int lim tok = Raise e ->
  parse_fpn lim s = Raise e /\ is_value_error e = true.
Proof.
  intros H5 Hr Hf Ht He.
  split; [|apply py_int_raises in He as [->|[n ->]]; reflexivity].
  unfold parse_fpn. cbv zeta. rewrite H5. cbn [Nat.eqb negb].
  rewrite !getitem_split by lia. cbn [bind].
  unfold fpn_int_reads in Hr. cbv zeta in Hr.
  apply first_bad_app in Hr as [[post1 Ha]|(pre2 & -> & Hr)].
  { now rewrite (parse_fighter_first_bad lim _ _ _ _ _ _ _ Ha Hf Ht He). }
  apply Forall_app in Hf as [Hfa Hf].
  destruct (parse_fighter_all_fine lim _ Hfa) as [fa ->]. cbn [bind].
  apply first_bad_app in Hr as [[post1 Hb]|(pre3 & -> & Hr)].
  { now rewrite (parse_fighter_first_bad lim _ _ _ _ _ _ _ Hb Hf Ht He). }
  apply Forall_app in Hf as [Hfb Hf].
  destruct (parse_fighter_all_fine lim _ Hfb) as [fb ->]. cbn [bind].
  destruct pre3 as [|r pre3]; cbn [app] in Hr.
  - injection Hr as _ <- _ _. now rewrite He.
  - injection Hr as _ Hr. destruct pre3; discriminate Hr.
Qed.

(** C5, as amended: every integer field of an accepted string is one that
    [int()] accepts, made only of digits, underscores, a sign and white
    space; an integer field that [int()] rejects makes decoding fail; and
    when the top-level count is right, the first of the nineteen integer
    fields, in the order the decoder reads them, that is there and that
    [int()] rejects, the reads before it having gone through, makes
    decoding fail with the [ValueError] that [int()] raises for that
    field.  The first read is the balance of fighter A: a balance that
    [int()] rejects, such as "9a", fails in this way whenever the
    top-level and fighter counts are right. *)
Theorem integer_fields_by_int (lim : Z) (s : string) :
  (forall st, parse_fpn lim s = Ok st ->
     Forall (fun tok => (exists n, py_int lim tok = Ok n)
                        /\ all_int_chars tok = true)
            (fpn_int_tokens s))
  /\ (forall tok e,
        In tok (fpn_int_tokens s) -> py_int lim tok = Raise e ->
        exists e', parse_fpn lim s = Raise e')
  /\ map (fun r : int_read => snd (fst r)) (fpn_int_reads s)
     = fpn_int_tokens s
  /\ (forall pre there tok d post e,
        List.length (split "/" (strip s)) = 5%nat ->
        fpn_int_reads s = (pre ++ (there, tok, d) :: post)%list ->
        Forall (read_fine lim) pre ->
        there = true ->
        py_int lim tok = Raise e ->
        parse_fpn lim s = Raise e /\ is_value_error e = true)
  /\ (forall e,
        List.length (split "/" (strip s)) = 5%nat ->
        List.length (split "." (part "/" 0 (strip s))) = 7%nat ->
        py_int lim (part "." 1 (part "/" 0 (strip s))) = Raise e ->
        parse_fpn lim s = Raise e /\ is_value_error e = true).
Proof.
  split; [|split; [|split; [|split]]].
  - intros st. apply fpn_tokens_accepted.
  - intros tok e Hin He.
    destruct (parse_fpn lim s) as [st|e'] eqn:P; [|now exists e'].
    apply fpn_tokens_accepted in P.
    rewrite Forall_forall in P. destruct (P tok Hin) as [[n Hn] _].
    congruence.
  - reflexivity.
  - intros pre there tok d post e. apply first_rejected_read.
  - intros e H5 H7 He.
    apply (first_rejected_read lim s []
             (tl (fpn_int_reads s))
             (List.length (split "." (part "/" 0 (strip s))) =? 7)%nat
             (part "." 1 (part "/" 0 (strip s))) (Some 100%float) e);
      [exact H5 | reflexivity | constructor | now apply Nat.eqb_eq
      | exact He].
Qed.

Lemma integer_fields_by_int_witness :
  Forall (fun tok => (exists n, py_int 4300 tok = Ok n)
                     /\ all_int_chars tok = true)
         (fpn_int_tokens example_fpn)
  /\ parse_fpn 4300 bad_balance_fpn = Raise (ValueError (invalid_literal "9a"))
  /\ parse_fpn 4300 bad_frames_fpn = Raise (ValueError (invalid_literal "0x")).
Proof.
  split; [|split].
  - apply (proj1 (integer_fields_by_int 4300 example_fpn) example_state).
    vm_compute. reflexivity.
  - apply (proj2 (proj2 (proj2 (proj2
             (integer_fields_by_int 4300 bad_balance_fpn))))
             (ValueError (invalid_literal "9a")));
      vm_compute; reflexivity.
  - apply (proj1 (proj2 (proj2 (proj2
             (integer_fields_by_int 4300 bad_frames_fpn))))
             (firstn 17 (fpn_int_reads bad_frames_fpn)) true "0x" None
             (skipn 18 (fpn_int_reads bad_frames_fpn))
             (ValueError (invalid_literal "0x")));
      [vm_compute; reflexivity | vm_compute; reflexivity |
      | reflexivity | vm_compute; reflexivity].
    repeat (apply Forall_cons;
            [split; [reflexivity | eexists; vm_compute; reflexivity]|]).
    apply Forall_nil.
Defined.

(** ** Which exceptions the stages below the top level raise *)

Lemma getitem_raises {A : Type} (l : list A) (i : nat) (e : exn) :
  getitem l i = Raise e -> is_fpn_format e = false.
Proof.
  unfold getitem. destruct (nth_error l i); [discriminate|].
  now intro H; injection H as <-.
Qed.

Lemma py_int_not_format (lim : Z) (s : string) (e : exn) :
  py_int lim s = Raise e -> is_fpn_format e = false.
Proof. intro H. apply py_int_raises in H as [->|[n ->]]; reflexivity. Qed.

Lemma int_over_not_format (lim : Z) (tok : string) (d : float) (e : exn) :
  int_over lim tok d = Raise e -> is_fpn_format e = false.
Proof.
  unfold int_over, int_truediv_float, float_of_int.
  destruct (py_int lim tok) as [n|e'] eqn:E; cbn [bind].
  - destruct (is_infinity (float_of_Z n)); cbn [bind]; [|discriminate].
    now intro H; injection H as <-.
  - intro H; injection H as <-. now apply py_int_not_format in E.
Qed.

Create HintDb raises.
#[local] Hint Resolve getitem_raises py_int_not_format int_over_not_format
  : raises.

Ltac raise_binds H :=
  repeat match type of H with
  | bind ?r _ = Raise _ =>
      let a := fresh "a" in
      let E := fresh "E" in
      destruct r as [a|] eqn:E; cbn [bind] in H;
      [|injection H as <-; solve [eauto with raises]]
  end.

Lemma parse_fighter_not_format (lim : Z) (s : string) (e : exn) :
  parse_fighter lim s = Raise e -> is_fpn_format e = false.
Proof.
  unfold parse_fighter. cbv zeta. intro H.
  destruct (negb _); [now injection H as <-|].
  raise_binds H. discriminate H.
Qed.

#[local] Hint Resolve parse_fighter_not_format : raises.

(** C10, as amended: white space around the whole input is removed before
    the top-level split and is never part of a field, so the padded input
    decodes to the same state, or fails with the same exception, as the
    input itself; only the message of the top-level format error differs,
    for it quotes the input as given. *)
Theorem surrounding_space_stripped (lim : Z) (w1 s w2 : string) :
  all_space w1 = true -> all_space w2 = true ->
  split "/" (strip (w1 ++ s ++ w2)) = split "/" (strip s)
  /\ parse_fpn lim (w1 ++ s ++ w2) =
     match parse_fpn lim s with
     | Raise (ValueError (Invalid_FPN_format _)) =>
         Raise (ValueError (Invalid_FPN_format (w1 ++ s ++ w2)))
     | r => r
     end.
Proof.
  intros H1 H2. split; [now rewrite strip_pad|].
  unfold parse_fpn. cbv zeta. rewrite (strip_pad _ _ _ H1 H2).
  destruct (negb _); [reflexivity|].
  match goal with |- ?b = _ => destruct b as [st|e] eqn:E end;
    [reflexivity|].
  assert (He : is_fpn_format e = false).
  { raise_binds E. discriminate E. }
  destruct e as [[]| |]; try reflexivity; discriminate He.
Qed.

Lemma surrounding_space_stripped_witness :
  all_space " " = true /\ all_space "  " = true
  /\ parse_fpn 4300 (" " ++ example_fpn ++ "  ") = Ok example_state.
Proof.
  split; [reflexivity|]. split; [reflexivity|].
  rewrite (proj2 (surrounding_space_stripped 4300 " " example_fpn "  "
                    eq_refl eq_refl)).
  vm_compute. reflexivity.
Defined.

(** C10, the claim as stated fails: with one blank in front, an input of
    the wrong top-level count fails with a different error message. *)
Lemma padded_error_differs :
  all_space " " = true
  /\ parse_fpn 4300 "a" = Raise (ValueError (Invalid_FPN_format "a"))
  /\ parse_fpn 4300 (" " ++ "a" ++ "") = Raise (ValueError (Invalid_FPN_format " a"))
  /\ parse_fpn 4300 (" " ++ "a" ++ "") <> parse_fpn 4300 "a".
Proof.
  repeat split; try (vm_compute; reflexivity).
  vm_compute. discriminate.
Qed.

(** ** The scene: placement *)

(** C7: the placement distance is the table c 1.5, s 2.5, m 4.0, l 6.0,
    v 8.0, and every code outside the table gets the default 4.0; so "m"
    gives 4.0, "x" gives 4.0 and "v" gives 8.0.  (The script writes 4, 6
    and 8 as integers; they stand for the same numbers, and the halves
    that place the fighters are the same floats.) *)
Theorem placement_table (code : string) :
  code <> "c" -> code <> "s" -> code <> "m" -> code <> "l" -> code <> "v" ->
  (as_float (dist_of code) = 4.0
   /\ half (number_neg (dist_of code)) = -2.0
   /\ half (dist_of code) = 2.0
   /\ as_float (dist_of "c") = 1.5
   /\ as_float (dist_of "s") = 2.5
   /\ as_float (dist_of "m") = 4.0
   /\ as_float (dist_of "l") = 6.0
   /\ as_float (dist_of "v") = 8.0
   /\ as_float (dist_of "x") = 4.0)%float.
Proof.
  intros Hc Hs Hm Hl Hv.
  assert (E : dist_of code = Int 4).
  { unfold dist_of, distance_map. cbn [dict_get].
    repeat match goal with
    | |- context [String.eqb ?k code] =>
        destruct (String.eqb_spec k code) as [E|_]; [now subst code|]
    end.
    reflexivity. }
  rewrite E. repeat split; vm_compute; reflexivity.
Qed.

Lemma placement_table_witness :
  (as_float (dist_of "x") = 4.0 /\ as_float (dist_of "mm") = 4.0)%float.
Proof.
  split.
  - apply (placement_table "x"); discriminate.
  - apply (placement_table "mm"); discriminate.
Defined.

(** ** The store *)

Lemma nth_error_list_update_eq {A : Type} (f : A -> A) (l : list A) :
  forall i, nth_error (list_update l i f) i = option_map f (nth_error l i).
Proof.
  induction l as [|x l IH]; intros [|i]; simpl; try reflexivity. apply IH.
Qed.

Lemma nth_error_list_update_neq {A : Type} (f : A -> A) (l : list A) :
  forall i j, i <> j -> nth_error (list_update l i f) j = nth_error l j.
Proof.
  induction l as [|x l IH]; intros [|i] [|j] H; simpl; try reflexivity.
  - contradiction.
  - apply IH. congruence.
Qed.

Lemma find_name_update (f : object_t -> object_t) (n : string) :
  (forall x, obj_name (f x) = obj_name x) ->
  forall l i, find_name n (list_update l i f) = find_name n l.
Proof.
  intros Hf. induction l as [|x l IH]; intros [|i]; simpl; try reflexivity.
  - now rewrite Hf.
  - now rewrite IH.
Qed.

Lemma find_name_some (n : string) (l : list object_t) :
  forall i, find_name n l = Some i ->
  exists x, nth_error l i = Some x /\ obj_name x = n.
Proof.
  induction l as [|y l IH]; simpl; intros i H; [discriminate H|].
  destruct (String.eqb_spec (obj_name y) n) as [E|_].
  - injection H as <-. now exists y.
  - destruct (find_name n l) as [j|]; [|discriminate H].
    injection H as <-. now apply IH.
Qed.

Lemma find_name_distinct (n1 n2 : string) (l : list object_t) (i j : nat) :
  n1 <> n2 -> find_name n1 l = Some i -> find_name n2 l = Some j -> i <> j.
Proof.
  intros Hn H1 H2 ->.
  apply find_name_some in H1 as (x & Hx & <-).
  apply find_name_some in H2 as (y & Hy & <-).
  congruence.
Qed.

Lemma append_inj_l (a b c : string) : (a ++ b = a ++ c)%string -> b = c.
Proof.
  induction a as [|x a IH]; simpl; [trivial|].
  intro H. injection H as H. now apply IH.
Qed.

Lemma vec_get_set (v : vec3) (axis : nat) (x : float) :
  vec_get (vec_set v axis x) axis = x.
Proof. destruct v as [[a b] c], axis as [|[|k]]; reflexivity. Qed.

Lemma get_in_range (s : string) :
  forall i, (i < String.length s)%nat -> exists c, String.get i s = Some c.
Proof.
  induction s as [|c r IH]; simpl; intros i H; [lia|].
  destruct i as [|i]; [now exists c|]. apply IH. lia.
Qed.

Lemma get_out_of_range (s : string) :
  forall i, (String.length s <= i)%nat -> String.get i s = None.
Proof.
  induction s as [|c r IH]; simpl; intros i H; [reflexivity|].
  destruct i as [|i]; [lia|]. apply IH. lia.
Qed.

Lemma opp_arm_angle (c : ascii) :
  (if in_E_B c then (- math_pi) / 3 else (- math_pi) / 6)%float
  = (- arm_angle c)%float.
Proof. unfold arm_angle. destruct (in_E_B c); reflexivity. Qed.

Section StoreFacts.

Variable single : float -> float.

Lemma rotation_set_same (d : blend_data) (o axis : nat) (a : float) (x : object_t) :
  nth_error (objects d) o = Some x ->
  rotation_of (fst (set_rotation single o axis a d)) o axis = Some (single a).
Proof.
  intro H. unfold rotation_of, set_rotation, update_object. cbn.
  rewrite nth_error_list_update_eq, H. cbn. now rewrite vec_get_set.
Qed.

Lemma rotation_set_other (d : blend_data) (o o' axis axis' : nat) (a : float) :
  o' <> o ->
  rotation_of (fst (set_rotation single o' axis' a d)) o axis
  = rotation_of d o axis.
Proof.
  intro H. unfold rotation_of, set_rotation, update_object. cbn.
  now rewrite nth_error_list_update_neq.
Qed.

Lemma find_name_set_rotation (d : blend_data) (o axis : nat) (a : float)
  (n : string) :
  find_name n (objects (fst (set_rotation single o axis a d)))
  = find_name n (objects d).
Proof.
  unfold set_rotation, update_object. cbn.
  now apply find_name_update.
Qed.

End StoreFacts.

(** ** The scene: arms *)

Section ArmFacts.

Variable single : float -> float.

Lemma set_rotation_run (d : blend_data) (o axis : nat) (a : float) :
  set_rotation single o axis a d
  = (fst (set_rotation single o axis a d), Ok tt).
Proof. reflexivity. Qed.

(** The arm block, statement by statement. *)
Lemma pose_arms_run (name : string) (f : fighter_t) (d : blend_data) :
  pose_arms single name f d =
  match str_getitem (limbs f) 0 with
  | Raise e => (d, Raise e)
  | Ok c0 =>
      let d1 :=
        match find_name (name ++ "_left_upper_arm") (objects d) with
        | Some o => fst (set_rotation single o 1 (arm_angle c0) d)
        | None => d
        end in
      match str_getitem (limbs f) 1 with
      | Raise e => (d1, Raise e)
      | Ok c1 =>
          (match find_name (name ++ "_right_upper_arm") (objects d1) with
           | Some o => fst (set_rotation single o 1 (- arm_angle c1) d1)
           | None => d1
           end, Ok tt)
      end
  end.
Proof.
  unfold pose_arms. cbv zeta. unfold cbind, lift, objects_get, ret.
  destruct (str_getitem (limbs f) 0) as [c0|e0]; [|reflexivity].
  fold (arm_angle c0).
  destruct (find_name (name ++ "_left_upper_arm") (objects d)) as [o|].
  - rewrite set_rotation_run.
    destruct (str_getitem (limbs f) 1) as [c1|e1]; [|reflexivity].
    rewrite opp_arm_angle.
    destruct (find_name _ _) as [o'|]; reflexivity.
  - destruct (str_getitem (limbs f) 1) as [c1|e1]; [|reflexivity].
    rewrite opp_arm_angle.
    destruct (find_name _ _) as [o'|]; reflexivity.
Qed.

Lemma right_left_names (name : string) :
  (name ++ "_right_upper_arm" <> name ++ "_left_upper_arm")%string.
Proof. intro E. apply append_inj_l in E. discriminate E. Qed.

(** The left arm keeps its angle even when the right index is missing. *)
Lemma pose_arms_left (name : string) (f : fighter_t) (d : blend_data)
  (c : ascii) (o : nat) :
  str_getitem (limbs f) 0 = Ok c ->
  find_name (name ++ "_left_upper_arm") (objects d) = Some o ->
  rotation_of (fst (pose_arms single name f d)) o 1
  = Some (single (arm_angle c)).
Proof.
  intros Hc Hf. rewrite pose_arms_run, Hc, Hf. cbv zeta.
  destruct (find_name_some _ _ _ Hf) as (x & Hx & _).
  destruct (str_getitem (limbs f) 1) as [c1|e1]; cbn [fst].
  - destruct (find_name (name ++ "_right_upper_arm") _) as [o'|] eqn:Hr.
    + rewrite find_name_set_rotation in Hr.
      rewrite rotation_set_other
        by (eapply find_name_distinct;
            [apply right_left_names | exact Hr | exact Hf]).
      now apply rotation_set_same with (x := x).
    + now apply rotation_set_same with (x := x).
  - now apply rotation_set_same with (x := x).
Qed.

Lemma pose_arms_right (name : string) (f : fighter_t) (d : blend_data)
  (c : ascii) (o : nat) :
  str_getitem (limbs f) 1 = Ok c ->
  find_name (name ++ "_right_upper_arm") (objects d) = Some o ->
  rotation_of (fst (pose_arms single name f d)) o 1
  = Some (single (- arm_angle c)%float).
Proof.
  intros Hc Hf. rewrite pose_arms_run.
  assert (H0 : exists c0, str_getitem (limbs f) 0 = Ok c0).
  { unfold str_getitem in *. destruct (limbs f) as [|c0 r]; [discriminate Hc|].
    now exists c0. }
  destruct H0 as [c0 H0]. rewrite H0, Hc. cbv zeta. cbn [fst].
  assert (Hf' : forall d1,
             find_name (name ++ "_right_upper_arm") (objects d1) = Some o ->
             rotation_of (fst (set_rotation single o 1 (- arm_angle c) d1)) o 1
             = Some (single (- arm_angle c)%float)).
  { intros d1 H1. destruct (find_name_some _ _ _ H1) as (x & Hx & _).
    now apply rotation_set_same with (x := x). }
  destruct (find_name (name ++ "_left_upper_arm") (objects d)) as [ol|].
  - rewrite find_name_set_rotation, Hf. apply Hf'.
    now rewrite find_name_set_rotation.
  - rewrite Hf. now apply Hf'.
Qed.

End ArmFacts.

Lemma snd_cbind {A B : Type} (c : cmd A) (k : A -> cmd B) (d : blend_data) :
  snd (cbind c k d) =
  match snd (c d) with
  | Ok a => snd (k a (fst (c d)))
  | Raise e => Raise e
  end.
Proof. unfold cbind. destruct (c d) as [d' [a|e]]; reflexivity. Qed.

Lemma fst_cbind {A B : Type} (c : cmd A) (k : A -> cmd B) (d : blend_data) :
  fst (cbind c k d) =
  match snd (c d) with
  | Ok a => fst (k a (fst (c d)))
  | Raise e => fst (c d)
  end.
Proof. unfold cbind. destruct (c d) as [d' [a|e]]; reflexivity. Qed.

Lemma math_radians_in_range (z : Z) :
  in_float_range z ->
  math_radians z = Ok (float_of_Z z * (math_pi / 180))%float.
Proof.
  unfold in_float_range, math_radians, float_of_int. now intros ->.
Qed.

Section PoseFacts.

Variable single : float -> float.

Lemma pose_lean_ok (m : nat) (f : fighter_t) (d : blend_data) :
  snd (pose_lean single m f d) = Ok tt.
Proof. reflexivity. Qed.

Lemma pose_hips_ok (name : string) (f : fighter_t) (d : blend_data) :
  in_float_range (hip_rot (biomech f)) ->
  snd (pose_hips single name f d) = Ok tt.
Proof.
  intro H. unfold pose_hips, cbind, objects_get, lift, ret.
  rewrite (math_radians_in_range _ H).
  destruct (find_name _ _); reflexivity.
Qed.

Lemma pose_torso_ok (name : string) (f : fighter_t) (d : blend_data) :
  in_float_range (torso_rot (biomech f)) ->
  snd (pose_torso single name f d) = Ok tt.
Proof.
  intro H. unfold pose_torso, cbind, objects_get, lift, ret.
  rewrite (math_radians_in_range _ H).
  destruct (find_name _ _); reflexivity.
Qed.

Lemma darken_ok (name : string) (damage : float) (obj : object_t)
  (d : blend_data) :
  snd (darken single name damage obj d) = Ok tt.
Proof.
  unfold darken. destruct (_ && _)%bool; [|reflexivity].
  destruct (obj_materials obj) as [|mat l]; [reflexivity|].
  unfold cbind, get_default_value.
  destruct (nth_error (materials d) mat) as [x|].
  - destruct (default_value x) as [[[c0 c1] c2] a]. reflexivity.
  - reflexivity.
Qed.

Lemma for_each_ok {A : Type} (body : A -> cmd unit) (l : list A) :
  (forall x d, snd (body x d) = Ok tt) ->
  forall d, snd (for_each l body d) = Ok tt.
Proof.
  intro H. induction l as [|x l IH]; intro d; cbn [for_each]; [reflexivity|].
  rewrite snd_cbind, H. apply IH.
Qed.

Lemma pose_damage_ok (name : string) (f : fighter_t) (d : blend_data) :
  snd (pose_damage single name f d) = Ok tt.
Proof.
  unfold pose_damage. cbv zeta. rewrite snd_cbind. cbn [snd fst].
  apply for_each_ok. intros x d'. apply darken_ok.
Qed.

Lemma pose_arms_result (name : string) (f : fighter_t) (d : blend_data) :
  snd (pose_arms single name f d) =
  if (2 <=? String.length (limbs f))%nat then Ok tt else Raise IndexError.
Proof.
  rewrite pose_arms_run. unfold str_getitem.
  destruct (2 <=? String.length (limbs f))%nat eqn:L.
  - apply Nat.leb_le in L.
    destruct (get_in_range (limbs f) 0) as [c0 ->]; [lia|].
    destruct (get_in_range (limbs f) 1) as [c1 ->]; [lia|].
    reflexivity.
  - apply Nat.leb_gt in L.
    destruct (String.get 0 (limbs f)) as [c0|]; [|reflexivity].
    rewrite (get_out_of_range (limbs f) 1) by lia. reflexivity.
Qed.

Lemma cbind_run {A B : Type} (c : cmd A) (k : A -> cmd B) (d : blend_data)
  (a : A) :
  snd (c d) = Ok a -> cbind c k d = k a (fst (c d)).
Proof. unfold cbind. destruct (c d) as [d' r]. cbn. now intros ->. Qed.

(** Up to the arm block. *)
Lemma pose_mannequin_run (m : nat) (f : fighter_t) (d : blend_data) :
  in_float_range (hip_rot (biomech f)) ->
  in_float_range (torso_rot (biomech f)) ->
  pose_mannequin single m f d =
  cbind (pose_arms single (name_of d m) f)
    (fun _ => pose_damage single (name_of d m) f) (before_arms single m f d).
Proof.
  intros Hh Ht. unfold pose_mannequin, before_arms. cbv zeta.
  rewrite (cbind_run (get_name m) _ d (name_of d m) eq_refl).
  cbn [get_name fst].
  rewrite (cbind_run (pose_lean single m f) _ d tt (pose_lean_ok _ _ _)).
  rewrite (cbind_run (pose_hips single _ f) _ _ tt (pose_hips_ok _ _ _ Hh)).
  rewrite (cbind_run (pose_torso single _ f) _ _ tt (pose_torso_ok _ _ _ Ht)).
  reflexivity.
Qed.

Lemma find_name_pose_hips (name n : string) (f : fighter_t) (d : blend_data) :
  find_name n (objects (fst (pose_hips single name f d)))
  = find_name n (objects d).
Proof.
  unfold pose_hips, cbind, objects_get, lift, ret.
  destruct (find_name (name ++ "_hips") (objects d)) as [o|]; [|reflexivity].
  destruct (math_radians _) as [a|e]; [|reflexivity].
  apply find_name_set_rotation.
Qed.

Lemma find_name_pose_torso (name n : string) (f : fighter_t) (d : blend_data) :
  find_name n (objects (fst (pose_torso single name f d)))
  = find_name n (objects d).
Proof.
  unfold pose_torso, cbind, objects_get, lift, ret.
  destruct (find_name (name ++ "_torso") (objects d)) as [o|]; [|reflexivity].
  destruct (math_radians _) as [a|e]; [|reflexivity].
  apply find_name_set_rotation.
Qed.

Lemma find_name_before_arms (m : nat) (n : string) (f : fighter_t)
  (d : blend_data) :
  find_name n (objects (before_arms single m f d)) = find_name n (objects d).
Proof.
  unfold before_arms. cbv zeta.
  rewrite find_name_pose_torso, find_name_pose_hips.
  apply find_name_set_rotation.
Qed.

Lemma darken_objects (name : string) (damage : float) (obj : object_t)
  (d : blend_data) :
  objects (fst (darken single name damage obj d)) = objects d.
Proof.
  unfold darken. destruct (_ && _)%bool; [|reflexivity].
  destruct (obj_materials obj) as [|mat l]; [reflexivity|].
  unfold cbind, get_default_value.
  destruct (nth_error (materials d) mat) as [x|].
  - destruct (default_value x) as [[[c0 c1] c2] a]. reflexivity.
  - reflexivity.
Qed.

Lemma for_each_objects {A : Type} (body : A -> cmd unit) (l : list A) :
  (forall x d, objects (fst (body x d)) = objects d) ->
  forall d, objects (fst (for_each l body d)) = objects d.
Proof.
  intro H. induction l as [|x l IH]; intro d; cbn [for_each]; [reflexivity|].
  rewrite fst_cbind. destruct (snd (body x d)); [|apply H].
  now rewrite IH, H.
Qed.

Lemma pose_damage_objects (name : string) (f : fighter_t) (d : blend_data) :
  objects (fst (pose_damage single name f d)) = objects d.
Proof.
  unfold pose_damage. cbv zeta. rewrite fst_cbind. cbn [snd fst].
  apply for_each_objects. intros x d'. apply darken_objects.
Qed.

(** What the arm block writes is what [pose_mannequin] leaves. *)
Lemma pose_mannequin_keeps_arm (m : nat) (f : fighter_t) (d : blend_data)
  (n : string) (o : nat) (a : float) :
  in_float_range (hip_rot (biomech f)) ->
  in_float_range (torso_rot (biomech f)) ->
  find_name n (objects d) = Some o ->
  (forall d', find_name n (objects d') = Some o ->
     rotation_of (fst (pose_arms single (name_of d m) f d')) o 1 = Some a) ->
  rotation_of (fst (pose_mannequin single m f d)) o 1 = Some a.
Proof.
  intros Hh Ht Hf Harm.
  rewrite (pose_mannequin_run m f d Hh Ht), fst_cbind.
  rewrite <- (find_name_before_arms m n f d) in Hf.
  specialize (Harm _ Hf).
  destruct (snd (pose_arms single (name_of d m) f (before_arms single m f d)));
    [|exact Harm].
  unfold rotation_of in *. now rewrite pose_damage_objects.
Qed.

End PoseFacts.

(** C1, as amended: for every fighter whose hip and torso angles convert
    to floats, the pose mapping succeeds when the limbs string has at least
    two characters; a limb index out of the range of the limbs string is
    not treated as "not extended": with a limbs string of length 0 or 1 the
    mapping raises [IndexError]. *)
Theorem pose_mannequin_result (single : float -> float) (m : nat)
  (f : fighter_t) (d : blend_data) :
  in_float_range (hip_rot (biomech f)) ->
  in_float_range (torso_rot (biomech f)) ->
  snd (pose_mannequin single m f d) =
  if (2 <=? String.length (limbs f))%nat then Ok tt else Raise IndexError.
Proof.
  intros Hh Ht. unfold pose_mannequin.
  rewrite snd_cbind. cbn [get_name snd fst].
  rewrite snd_cbind, pose_lean_ok.
  rewrite snd_cbind, (pose_hips_ok _ _ _ _ Hh).
  rewrite snd_cbind, (pose_torso_ok _ _ _ _ Ht).
  rewrite snd_cbind, pose_arms_result.
  destruct (2 <=? String.length (limbs f))%nat; [|reflexivity].
  apply pose_damage_ok.
Qed.

Lemma pose_mannequin_result_witness :
  in_float_range 10 /\ in_float_range 15
  /\ snd (pose_mannequin binary32 0 (fighter_a example_state) mannequin_scene)
     = Ok tt.
Proof.
  split; [vm_compute; reflexivity|]. split; [vm_compute; reflexivity|].
  apply (pose_mannequin_result binary32 0 (fighter_a example_state)
           mannequin_scene); vm_compute; reflexivity.
Defined.

(** C1, the claim as stated fails: the string with limbs "E" for fighter A
    is accepted, and posing that fighter raises [IndexError], as does the
    whole scene set-up; so does posing a fighter with empty limbs. *)
Lemma short_limbs_raise :
  exists st,
    parse_fpn 4300 short_limbs_fpn = Ok st
    /\ limbs (fighter_a st) = "E"
    /\ snd (pose_mannequin binary32 0 (fighter_a st) mannequin_scene)
       = Raise IndexError
    /\ snd (setup_scene binary32 st empty_data) = Raise IndexError
    /\ snd (pose_mannequin binary32 0 (with_limbs (fighter_a st) "")
              mannequin_scene) = Raise IndexError.
Proof.
  eexists. split; [vm_compute; reflexivity|].
  repeat split; vm_compute; reflexivity.
Qed.

(** C8: when the side's index is in the range of the limbs string, the
    upper arm's angle is pi/3 if the character there is 'E' or 'B' and pi/6
    for any other character, with the opposite sign for the right arm; it
    depends on no other field of the fighter.  This holds of the arm block
    alone and, when the hip and torso angles convert to floats so that
    the block is reached, of [pose_mannequin] as a whole. *)
Theorem arm_angles (single : float -> float) (name : string) (m : nat)
  (f : fighter_t) (d : blend_data) :
  (forall c o,
     str_getitem (limbs f) 0 = Ok c ->
     find_name (name ++ "_left_upper_arm") (objects d) = Some o ->
     rotation_of (fst (pose_arms single name f d)) o 1
     = Some (single (arm_angle c)))
  /\ (forall c o,
        str_getitem (limbs f) 1 = Ok c ->
        find_name (name ++ "_right_upper_arm") (objects d) = Some o ->
        rotation_of (fst (pose_arms single name f d)) o 1
        = Some (single (- arm_angle c)%float))
  /\ (forall f', limbs f' = limbs f ->
        pose_arms single name f' d = pose_arms single name f d)
  /\ (forall c o,
        in_float_range (hip_rot (biomech f)) ->
        in_float_range (torso_rot (biomech f)) ->
        str_getitem (limbs f) 0 = Ok c ->
        find_name (name_of d m ++ "_left_upper_arm") (objects d) = Some o ->
        rotation_of (fst (pose_mannequin single m f d)) o 1
        = Some (single (arm_angle c)))
  /\ (forall c o,
        in_float_range (hip_rot (biomech f)) ->
        in_float_range (torso_rot (biomech f)) ->
        str_getitem (limbs f) 1 = Ok c ->
        find_name (name_of d m ++ "_right_upper_arm") (objects d) = Some o ->
        rotation_of (fst (pose_mannequin single m f d)) o 1
        = Some (single (- arm_angle c)%float))
  /\ arm_angle "E" = (math_pi / 3)%float
  /\ arm_angle "B" = (math_pi / 3)%float
  /\ (forall c, c <> "E"%char -> c <> "B"%char ->
        arm_angle c = (math_pi / 6)%float).
Proof.
  repeat apply conj.
  - intros c o. apply pose_arms_left.
  - intros c o. apply pose_arms_right.
  - intros f' E. rewrite !pose_arms_run, E. reflexivity.
  - intros c o Hh Ht Hc Hf.
    apply pose_mannequin_keeps_arm with (n := (name_of d m ++ "_left_upper_arm")%string);
      try assumption.
    intros d' Hd'. now apply pose_arms_left.
  - intros c o Hh Ht Hc Hf.
    apply pose_mannequin_keeps_arm with (n := (name_of d m ++ "_right_upper_arm")%string);
      try assumption.
    intros d' Hd'. now apply pose_arms_right.
  - reflexivity.
  - reflexivity.
  - intros c HE HB. unfold arm_angle, in_E_B.
    destruct (Ascii.eqb_spec c "E"); [contradiction|].
    destruct (Ascii.eqb_spec c "B"); [contradiction|]. reflexivity.
Qed.

Lemma arm_angles_witness :
  rotation_of
    (fst (pose_arms binary32 "FighterA"
            (with_limbs (fighter_a example_state) "E") mannequin_scene)) 4 1
  = Some (binary32 (math_pi / 3)%float)
  /\ rotation_of
       (fst (pose_mannequin binary32 0
               (with_limbs (fighter_a example_state) "-B") mannequin_scene)) 7 1
     = Some (binary32 (- (math_pi / 3))%float).
Proof.
  split.
  - apply (proj1 (arm_angles binary32 "FighterA" 0
                    (with_limbs (fighter_a example_state) "E") mannequin_scene)
             "E"%char 4%nat); vm_compute; reflexivity.
  - apply (proj1 (proj2 (proj2 (proj2 (proj2
             (arm_angles binary32 "FighterA" 0
                (with_limbs (fighter_a example_state) "-B") mannequin_scene)))))
             "B"%char 7%nat); vm_compute; reflexivity.
Defined.

(** ** The scene: damage tint *)

Section TintFacts.

Variable single : float -> float.

(** One pass of the loop body over the colour of a material. *)
Lemma darken_color_of (name : string) (damage : float) (obj : object_t)
  (d : blend_data) (m : nat) :
  color_of (fst (darken single name damage obj d)) m =
  if uses name m obj
  then option_map (darken_color single (tint_factor damage)) (color_of d m)
  else color_of d m.
Proof.
  unfold darken, uses.
  destruct (startswith name (obj_name obj)
            && match obj_type obj with MESH => true | _ => false end)%bool;
    cbn [andb]; [|reflexivity].
  destruct (obj_materials obj) as [|mat l]; [reflexivity|].
  unfold cbind, get_default_value, color_of.
  destruct (nth_error (materials d) mat) as [x|] eqn:Hx.
  - destruct (default_value x) as [[[c0 c1] c2] a] eqn:Hc.
    unfold set_default_value, update_material. cbn [fst materials].
    destruct (Nat.eqb_spec mat m) as [<-|Hm].
    + rewrite nth_error_list_update_eq, Hx. cbn. now rewrite Hc.
    + now rewrite nth_error_list_update_neq.
  - unfold set_default_value, update_material. cbn [fst materials].
    destruct (Nat.eqb_spec mat m) as [<-|Hm].
    + rewrite nth_error_list_update_eq, Hx. reflexivity.
    + now rewrite nth_error_list_update_neq.
Qed.

(** The loop multiplies the factor into a material once for every object
    that carries it, not once for the fighter. *)
Lemma for_each_darken (name : string) (damage : float) (l : list object_t) :
  forall d m,
    color_of (fst (for_each l (darken single name damage) d)) m =
    option_map
      (Nat.iter (users name m l) (darken_color single (tint_factor damage)))
      (color_of d m).
Proof.
  induction l as [|x l IH]; intros d m; cbn [for_each].
  - cbn. now destruct (color_of d m).
  - rewrite fst_cbind, darken_ok, IH, darken_color_of.
    unfold users. cbn [filter].
    destruct (uses name m x); cbn [List.length]; [|reflexivity].
    destruct (color_of d m) as [c|]; cbn [option_map]; [|reflexivity].
    now rewrite Nat.iter_succ_r.
Qed.

Lemma pose_damage_color (name : string) (f : fighter_t) (d : blend_data)
  (m : nat) :
  color_of (fst (pose_damage single name f d)) m =
  option_map
    (Nat.iter (users name m (objects d))
       (darken_color single (tint_factor (damage f))))
    (color_of d m).
Proof.
  unfold pose_damage. cbv zeta. rewrite fst_cbind. cbn [snd fst].
  apply for_each_darken.
Qed.

End TintFacts.

(** ** The scene on a store that already has materials *)

Lemma list_update_map {A B : Type} (g : A -> B) (f : A -> A) (f' : B -> B)
  (l : list A) :
  (forall x, g (f x) = f' (g x)) ->
  forall i, map g (list_update l i f) = list_update (map g l) i f'.
Proof.
  intro H. induction l as [|x l IH]; intros [|i]; cbn; try reflexivity.
  - now rewrite H.
  - now rewrite IH.
Qed.

Lemma list_update_app_r {A : Type} (f : A -> A) (l1 l2 : list A) (i : nat) :
  list_update (l1 ++ l2) (List.length l1 + i) f = (l1 ++ list_update l2 i f)%list.
Proof. induction l1 as [|x l1 IH]; cbn; [reflexivity | now rewrite IH]. Qed.

Lemma nth_error_app_r {A : Type} (l1 l2 : list A) (i : nat) :
  nth_error (l1 ++ l2) (List.length l1 + i) = nth_error l2 i.
Proof. induction l1 as [|x l1 IH]; cbn; [reflexivity | exact IH]. Qed.

Lemma find_name_shift (n : nat) (nm : string) (l : list object_t) :
  find_name nm (map (shift_object n) l) = find_name nm l.
Proof.
  induction l as [|x l IH]; cbn; [reflexivity|]. now rewrite IH.
Qed.

Section Frame.

Variable single : float -> float.
Variable ms : list material_t.

Lemma result_rel_refl {A : Type} (r : result A) : result_rel eq r r.
Proof. destruct r; reflexivity. Qed.

Lemma sim_ret {A : Type} (R : A -> A -> Prop) (a a' : A) :
  R a a' -> sim ms R (ret a) (ret a').
Proof. intros H d. split; [reflexivity | exact H]. Qed.

Lemma sim_lift {A : Type} (r : result A) : sim ms eq (lift r) (lift r).
Proof. intro d. split; [reflexivity | apply result_rel_refl]. Qed.

Lemma sim_bind {A B : Type} (R : A -> A -> Prop) (R' : B -> B -> Prop)
  (c c' : cmd A) (k k' : A -> cmd B) :
  sim ms R c c' ->
  (forall a a', R a a' -> sim ms R' (k a) (k' a')) ->
  sim ms R' (cbind c k) (cbind c' k').
Proof.
  intros Hc Hk d. unfold cbind. destruct (Hc d) as [Hd Hr].
  destruct (c d) as [d1 r], (c' (embed ms d)) as [d1' r'].
  cbn [fst snd] in Hd, Hr. subst d1'.
  destruct r as [a|e], r' as [a'|e']; cbn in Hr; try contradiction.
  - now apply Hk.
  - subst e'. split; reflexivity.
Qed.

Lemma sim_update_object (o : nat) (f f' : object_t -> object_t) :
  (forall x, shift_object (List.length ms) (f x)
             = f' (shift_object (List.length ms) x)) ->
  sim ms eq (update_object o f) (update_object o f').
Proof.
  intros H d. split; [|reflexivity].
  unfold update_object, embed. cbn. now rewrite (list_update_map _ f f').
Qed.

Lemma sim_new_object (nm : string) (t : object_type) (loc : vec3) :
  sim ms eq (new_object single nm t loc) (new_object single nm t loc).
Proof.
  intro d. unfold new_object, embed. cbn. rewrite map_app, length_map.
  split; reflexivity.
Qed.

Lemma sim_objects_new (nm : string) :
  sim ms eq (objects_new nm) (objects_new nm).
Proof.
  intro d. unfold objects_new, embed. cbn. rewrite map_app, length_map.
  split; reflexivity.
Qed.

Lemma sim_materials_new (nm : string) :
  sim ms (shifted ms) (materials_new nm) (materials_new nm).
Proof.
  intro d. unfold materials_new, embed, shifted. cbn.
  rewrite length_app, app_assoc. split; reflexivity.
Qed.

Lemma sim_objects_get (nm : string) :
  sim ms eq (objects_get nm) (objects_get nm).
Proof.
  intro d. unfold objects_get, embed. cbn. rewrite find_name_shift.
  split; reflexivity.
Qed.

Lemma sim_get_name (o : nat) : sim ms eq (get_name o) (get_name o).
Proof.
  intro d. unfold get_name, name_of, embed. cbn. rewrite nth_error_map.
  split; [reflexivity|]. cbn. now destruct (nth_error (objects d) o).
Qed.

Lemma sim_get_default_value (m : nat) :
  sim ms eq (get_default_value m) (get_default_value (List.length ms + m)).
Proof.
  intro d. unfold get_default_value, embed. cbn. rewrite nth_error_app_r.
  split; reflexivity.
Qed.

Lemma sim_set_default_value (m : nat) (c : rgba) :
  sim ms eq (set_default_value single m c)
    (set_default_value single (List.length ms + m) c).
Proof.
  intro d. unfold set_default_value, update_material, embed. cbn.
  rewrite list_update_app_r. split; reflexivity.
Qed.

Lemma sim_materials_append (o m : nat) :
  sim ms eq (materials_append o m) (materials_append o (List.length ms + m)).
Proof.
  apply sim_update_object. intro x. unfold shift_object. cbn.
  now rewrite map_app.
Qed.

Lemma sim_set_name (o : nat) (nm : string) :
  sim ms eq (set_name o nm) (set_name o nm).
Proof. now apply sim_update_object. Qed.

Lemma sim_set_parent (o p : nat) : sim ms eq (set_parent o p) (set_parent o p).
Proof. now apply sim_update_object. Qed.

Lemma sim_set_scale (o : nat) (v : vec3) :
  sim ms eq (set_scale single o v) (set_scale single o v).
Proof. now apply sim_update_object. Qed.

Lemma sim_set_location (o : nat) (v : vec3) :
  sim ms eq (set_location single o v) (set_location single o v).
Proof. now apply sim_update_object. Qed.

Lemma sim_set_rotation (o axis : nat) (a : float) :
  sim ms eq (set_rotation single o axis a) (set_rotation single o axis a).
Proof. now apply sim_update_object. Qed.

Lemma sim_set_rotation_euler (o : nat) (v : vec3) :
  sim ms eq (set_rotation_euler single o v) (set_rotation_euler single o v).
Proof. now apply sim_update_object. Qed.

Lemma sim_ret_eq {A : Type} (a : A) : sim ms eq (ret a) (ret a).
Proof. now apply sim_ret. Qed.

Create HintDb sim.
#[local] Hint Resolve sim_ret_eq sim_lift sim_new_object sim_objects_new
  sim_materials_new sim_objects_get sim_get_name sim_get_default_value
  sim_set_default_value sim_materials_append sim_set_name sim_set_parent
  sim_set_scale sim_set_location sim_set_rotation sim_set_rotation_euler
  : sim.

Ltac sim_step :=
  first
    [ solve [eauto with sim]
    | eapply sim_bind;
      [solve [eauto with sim] | intros ? ? ?; unfold shifted in *; subst]
    | match goal with
      | |- sim _ _ (match ?x with _ => _ end) _ => destruct x
      end ].

Ltac sim_auto := repeat sim_step.

Lemma sim_for_each_map {A B : Type} (g : A -> B) (body : A -> cmd unit)
  (body' : B -> cmd unit) (l : list A) :
  (forall x, sim ms eq (body x) (body' (g x))) ->
  sim ms eq (for_each l body) (for_each (map g l) body').
Proof.
  intro H. induction l as [|x l IH]; cbn [for_each map].
  - apply sim_ret_eq.
  - eapply sim_bind; [apply H | intros _ _ _; exact IH].
Qed.

Lemma sim_for_each {A : Type} (body body' : A -> cmd unit) (l : list A) :
  (forall x, sim ms eq (body x) (body' x)) ->
  sim ms eq (for_each l body) (for_each l body').
Proof.
  intro H. rewrite <- (map_id l) at 2. now apply sim_for_each_map.
Qed.

Lemma sim_create_arm (name : string) (mannequin mat : nat) (side : string)
  (sign : Z) :
  sim ms eq (create_arm single name mannequin mat side sign)
    (create_arm single name mannequin (List.length ms + mat) side sign).
Proof. unfold create_arm. cbv zeta. sim_auto. Qed.

Lemma sim_create_leg (name : string) (mannequin mat : nat) (side : string)
  (sign : Z) :
  sim ms eq (create_leg single name mannequin mat side sign)
    (create_leg single name mannequin (List.length ms + mat) side sign).
Proof. unfold create_leg. cbv zeta. sim_auto. Qed.

#[local] Hint Resolve sim_create_arm sim_create_leg : sim.

Lemma sim_create_simple_mannequin (name : string) (color : rgba) :
  sim ms eq (create_simple_mannequin single name color)
    (create_simple_mannequin single name color).
Proof.
  unfold create_simple_mannequin. sim_auto.
  eapply sim_bind;
    [apply sim_for_each; intros [side sign]; apply sim_create_arm|].
  intros _ _ _.
  eapply sim_bind;
    [apply sim_for_each; intros [side sign]; apply sim_create_leg|].
  intros _ _ _. apply sim_ret_eq.
Qed.

Lemma sim_pose_lean (m : nat) (f : fighter_t) :
  sim ms eq (pose_lean single m f) (pose_lean single m f).
Proof. unfold pose_lean. cbv zeta. sim_auto. Qed.

Lemma sim_pose_hips (name : string) (f : fighter_t) :
  sim ms eq (pose_hips single name f) (pose_hips single name f).
Proof. unfold pose_hips. sim_auto. Qed.

Lemma sim_pose_torso (name : string) (f : fighter_t) :
  sim ms eq (pose_torso single name f) (pose_torso single name f).
Proof. unfold pose_torso. sim_auto. Qed.

Lemma sim_pose_arms (name : string) (f : fighter_t) :
  sim ms eq (pose_arms single name f) (pose_arms single name f).
Proof.
  unfold pose_arms. cbv zeta. sim_auto.
  eapply sim_bind; [sim_auto|]. intros _ _ _. sim_auto.
Qed.

Lemma sim_darken (name : string) (damage : float) (obj : object_t) :
  sim ms eq (darken single name damage obj)
    (darken single name damage (shift_object (List.length ms) obj)).
Proof.
  unfold darken. cbn [shift_object obj_name obj_type obj_materials].
  destruct (_ && _)%bool; [|apply sim_ret_eq].
  destruct (obj_materials obj) as [|mat l]; cbn [map]; [apply sim_ret_eq|].
  eapply sim_bind; [apply sim_get_default_value|].
  intros [[[c0 c1] c2] a] ? <-. apply sim_set_default_value.
Qed.

Lemma sim_pose_damage (name : string) (f : fighter_t) :
  sim ms eq (pose_damage single name f) (pose_damage single name f).
Proof.
  unfold pose_damage. cbv zeta.
  eapply sim_bind with
    (R := fun l l' => l' = map (shift_object (List.length ms)) l).
  - intro d. split; reflexivity.
  - intros l l' ->. apply sim_for_each_map. intro x. apply sim_darken.
Qed.

#[local] Hint Resolve sim_create_simple_mannequin sim_pose_lean sim_pose_hips
  sim_pose_torso sim_pose_arms sim_pose_damage : sim.

Lemma sim_pose_mannequin (m : nat) (f : fighter_t) :
  sim ms eq (pose_mannequin single m f) (pose_mannequin single m f).
Proof. unfold pose_mannequin. sim_auto. Qed.

#[local] Hint Resolve sim_pose_mannequin : sim.

Lemma embed_empty : embed ms empty_data = {| objects := []; materials := ms |}.
Proof. unfold embed, empty_data. cbn. now rewrite app_nil_r. Qed.

(** The whole set-up: the store it leaves and the value it returns are
    those it leaves and returns from the empty store, with the materials
    that were there before in front. *)
Lemma setup_scene_frame (state : fight_state) (os : list object_t) :
  fst (setup_scene single state {| objects := os; materials := ms |})
  = embed ms (fst (setup_scene single state empty_data))
  /\ snd (setup_scene single state {| objects := os; materials := ms |})
     = snd (setup_scene single state empty_data).
Proof.
  unfold setup_scene. cbv zeta.
  rewrite !(cbind_run clear_scene _ _ tt eq_refl).
  cbn [clear_scene fst materials]. rewrite <- embed_empty.
  fold empty_data.
  match goal with
  | |- fst (?B _) = _ /\ _ => assert (H : sim ms eq B B) by sim_auto
  end.
  destruct (H empty_data) as [H1 H2]. split; [exact H1|].
  destruct (snd _) as [a|e], (snd _) as [a'|e']; cbn in H2;
    try contradiction; now subst.
Qed.

Lemma color_of_embed (d : blend_data) (m : nat) :
  color_of (embed ms d) (List.length ms + m) = color_of d m.
Proof. unfold color_of, embed. cbn. now rewrite nth_error_app_r. Qed.

Lemma users_embed (name : string) (d : blend_data) (m : nat) :
  users name (List.length ms + m) (objects (embed ms d))
  = users name m (objects d).
Proof.
  unfold users, embed. cbn [objects].
  induction (objects d) as [|x l IH]; cbn [map filter]; [reflexivity|].
  assert (E : uses name (List.length ms + m) (shift_object (List.length ms) x)
              = uses name m x).
  { unfold uses. cbn [shift_object obj_name obj_type obj_materials].
    destruct (obj_materials x) as [|m' l']; cbn [map]; [reflexivity|].
    f_equal. destruct (Nat.eqb_spec m' m) as [->|Hne].
    - apply Nat.eqb_refl.
    - apply Nat.eqb_neq. lia. }
  rewrite E. destruct (uses name m x); cbn [List.length]; now rewrite IH.
Qed.

End Frame.

(** C3, the code at the failing input: for the example string the factor
    of fighter B is 1 - 0.05 * 0.5 = 0.975 and that of fighter A is 1.0,
    but the scene set-up, whatever store it starts from, multiplies the
    factor into fighter B's one shared material once for each of its
    fifteen body parts, not once. *)
Theorem damage_tint_compounds :
  (forall (single : float -> float) (d0 : blend_data),
     let d := fst (setup_scene single example_state d0) in
     let fighter_b_material := (List.length (materials d0) + 1)%nat in
     tint_factor (damage (fighter_b example_state)) = 0.975%float
     /\ tint_factor (damage (fighter_a example_state)) = 1.0%float
     /\ users "FighterB" fighter_b_material (objects d) = 15%nat
     /\ color_of d fighter_b_material =
        Some (Nat.iter 15 (darken_color single 0.975%float)
                (single 0.3, single 0.3, single 1.0, single 1.0)%float))
  /\ color_of (fst (setup_scene binary32 example_state empty_data)) 1 <>
     Some (darken_color binary32 0.975%float
             (binary32 0.3, binary32 0.3, binary32 1.0, binary32 1.0)%float).
Proof.
  split.
  - intros single [os ms]. cbv zeta. cbn [materials].
    destruct (setup_scene_frame single ms example_state os) as [E _].
    rewrite E, users_embed, color_of_embed.
    repeat split; vm_compute; reflexivity.
  - vm_compute. discriminate.
Qed.

(** * Further properties of the decoder *)

Lemma length_split (sep : ascii) (s : string) :
  List.length (split sep s) = S (count_char sep s).
Proof.
  induction s as [|c r IH]; cbn [split count_char]; [reflexivity|].
  destruct (Ascii.eqb c sep); cbn [List.length Nat.add].
  - now rewrite IH.
  - destruct (split sep r) as [|h t]; [discriminate IH|exact IH].
Qed.

Lemma join_split (sep : ascii) (s : string) : join sep (split sep s) = s.
Proof.
  induction s as [|c r IH]; cbn [split]; [reflexivity|].
  destruct (Ascii.eqb_spec c sep) as [->|Hne].
  - pose proof (split_nonempty sep r) as Hn.
    destruct (split sep r) as [|h t]; [contradiction|].
    cbn [join append]. cbn [join] in IH. now rewrite IH.
  - pose proof (split_nonempty sep r) as Hn.
    destruct (split sep r) as [|h t]; [contradiction|].
    destruct t as [|h' t']; cbn [join append] in *; now rewrite IH.
Qed.

Lemma split_pieces_clean (sep : ascii) (s : string) :
  Forall (fun p => count_char sep p = O) (split sep s).
Proof.
  induction s as [|c r IH]; cbn [split].
  - now constructor.
  - destruct (Ascii.eqb c sep) eqn:E.
    + now constructor.
    + destruct (split sep r) as [|h t]; constructor.
      * cbn [count_char]. now rewrite E.
      * constructor.
      * cbn [count_char]. rewrite E. now inversion IH.
      * now inversion IH.
Qed.

Lemma part_clean (sep : ascii) (i : nat) (s : string) :
  count_char sep (part sep i s) = O.
Proof.
  unfold part. pose proof (split_pieces_clean sep s) as H.
  rewrite Forall_forall in H.
  destruct (nth_in_or_default i (split sep s) EmptyString) as [Hin|E];
    [now apply H | now rewrite E].
Qed.

Lemma count_char_app (c : ascii) (a b : string) :
  count_char c (a ++ b) = (count_char c a + count_char c b)%nat.
Proof.
  induction a as [|x a IH]; cbn [append count_char]; [reflexivity|].
  rewrite IH. lia.
Qed.

Lemma getitem_raise_length {A : Type} (l : list A) (i : nat) (e : exn) :
  getitem l i = Raise e -> e = IndexError /\ (List.length l <= i)%nat.
Proof.
  unfold getitem. destruct (nth_error l i) eqn:E; [discriminate|].
  intro H. injection H as <-. split; [reflexivity|].
  now apply nth_error_None.
Qed.

Lemma py_int_not_index (lim : Z) (s : string) : py_int lim s <> Raise IndexError.
Proof. intro H. apply py_int_raises in H as [H|[n H]]; discriminate H. Qed.

Lemma py_int_not_overflow (lim : Z) (s : string) :
  py_int lim s <> Raise OverflowError.
Proof. intro H. apply py_int_raises in H as [H|[n H]]; discriminate H. Qed.

Lemma py_int_not_fighter_format (lim : Z) (s : string) (e : exn) :
  py_int lim s = Raise e -> is_fighter_format e = false.
Proof. intro H. apply py_int_raises in H as [->|[n ->]]; reflexivity. Qed.

(** What the division of a parsed integer raises. *)
Lemma int_over_raises (lim : Z) (tok : string) (d : float) (e : exn) :
  int_over lim tok d = Raise e ->
  py_int lim tok = Raise e
  \/ (e = OverflowError
      /\ exists n, py_int lim tok = Ok n /\ ~ in_float_range n).
Proof.
  unfold int_over, int_truediv_float, float_of_int, in_float_range.
  destruct (py_int lim tok) as [n|e'] eqn:E; cbn [bind].
  - destruct (is_infinity (float_of_Z n)) eqn:I; cbn [bind]; [|discriminate].
    intro H. injection H as <-. right. split; [reflexivity|].
    exists n. split; [reflexivity|]. congruence.
  - intro H. injection H as <-. now left.
Qed.

Lemma int_over_not_index (lim : Z) (tok : string) (d : float) :
  int_over lim tok d <> Raise IndexError.
Proof.
  intro H. apply int_over_raises in H as [H|[H _]]; [|discriminate H].
  now apply py_int_not_index in H.
Qed.

Lemma int_over_not_fighter_format (lim : Z) (tok : string) (d : float) (e : exn) :
  int_over lim tok d = Raise e -> is_fighter_format e = false.
Proof.
  intro H. apply int_over_raises in H as [H|[-> _]]; [|reflexivity].
  now apply py_int_not_fighter_format in H.
Qed.

Lemma getitem_not_fighter_format {A : Type} (l : list A) (i : nat) (e : exn) :
  getitem l i = Raise e -> is_fighter_format e = false.
Proof. intro H. now apply getitem_raise_length in H as [-> _]. Qed.

Create HintDb fighter_raises.
#[local] Hint Resolve getitem_not_fighter_format py_int_not_fighter_format
  int_over_not_fighter_format : fighter_raises.

Ltac raise_binds_with db H :=
  repeat match type of H with
  | bind ?r _ = Raise _ =>
      let a := fresh "a" in
      let E := fresh "E" in
      destruct r as [a|] eqn:E; cbn [bind] in H;
      [|injection H as <-; solve [eauto with db]]
  end.

(** With seven fields the fighter decoder raises no format error. *)
Lemma parse_fighter_seven (lim : Z) (s : string) (e : exn) :
  count_char "." s = 6%nat ->
  parse_fighter lim s = Raise e -> is_fighter_format e = false.
Proof.
  intros Hc. unfold parse_fighter. cbv zeta. rewrite length_split, Hc.
  cbn [Nat.eqb negb]. intro H.
  raise_binds_with fighter_raises H. discriminate H.
Qed.

(** X1: [parse_fpn] raises its format error, quoting the input as given,
    exactly for the inputs whose stripped text does not hold four slashes;
    with four slashes whatever it raises is another error. *)
Theorem top_level_count (lim : Z) (s : string) :
  (count_char "/" (strip s) <> 4%nat ->
   parse_fpn lim s = Raise (ValueError (Invalid_FPN_format s)))
  /\ (count_char "/" (strip s) = 4%nat ->
      forall e, parse_fpn lim s = Raise e -> is_fpn_format e = false).
Proof.
  split.
  - intro H. apply parse_fpn_top_count. rewrite length_split. lia.
  - intros H e. unfold parse_fpn. cbv zeta. rewrite length_split, H.
    cbn [Nat.eqb negb]. intro E. raise_binds E. discriminate E.
Qed.

Lemma top_level_count_witness :
  parse_fpn 4300 "o/s/m/A" = Raise (ValueError (Invalid_FPN_format "o/s/m/A"))
  /\ is_fpn_format (ValueError (invalid_literal "9a")) = false.
Proof.
  split.
  - apply (proj1 (top_level_count 4300 "o/s/m/A")). vm_compute. discriminate.
  - apply (proj2 (top_level_count 4300 bad_balance_fpn));
      vm_compute; reflexivity.
Defined.

(** X2: with four slashes, a first fighter that does not hold six dots
    makes [parse_fpn] raise the fighter format error quoting that fighter;
    so does a second fighter without six dots once the first is decoded;
    and when both hold six dots no fighter format error is raised. *)
Theorem fighter_count (lim : Z) (s : string) :
  count_char "/" (strip s) = 4%nat ->
  (count_char "." (part "/" 0 (strip s)) <> 6%nat ->
   parse_fpn lim s
   = Raise (ValueError (Invalid_fighter_format (part "/" 0 (strip s)))))
  /\ (forall fa,
        parse_fighter lim (part "/" 0 (strip s)) = Ok fa ->
        count_char "." (part "/" 1 (strip s)) <> 6%nat ->
        parse_fpn lim s
        = Raise (ValueError (Invalid_fighter_format (part "/" 1 (strip s)))))
  /\ (count_char "." (part "/" 0 (strip s)) = 6%nat ->
      count_char "." (part "/" 1 (strip s)) = 6%nat ->
      forall e, parse_fpn lim s = Raise e -> is_fighter_format e = false).
Proof.
  intro H4.
  assert (L : List.length (split "/" (strip s)) = 5%nat)
    by (rewrite length_split; lia).
  assert (P : parse_fpn lim s =
              (fa <- parse_fighter lim (part "/" 0 (strip s)) ;;
               fb <- parse_fighter lim (part "/" 1 (strip s)) ;;
               mc <- py_int lim (part "/" 4 (strip s)) ;;
               Ok {| fighter_a := fa; fighter_b := fb;
                     distance := part "/" 2 (strip s);
                     turn := part "/" 3 (strip s);
                     move_count := mc |})).
  { unfold parse_fpn. cbv zeta. rewrite L. cbn [Nat.eqb negb].
    rewrite !getitem_split by lia. reflexivity. }
  rewrite P. split; [|split].
  - intro Ha. rewrite parse_fighter_count by (rewrite length_split; lia).
    reflexivity.
  - intros fa Hfa Hb. rewrite Hfa. cbn [bind].
    rewrite parse_fighter_count by (rewrite length_split; lia).
    reflexivity.
  - intros Ha Hb e E.
    destruct (parse_fighter lim (part "/" 0 (strip s))) as [fa|ea] eqn:Ea;
      cbn [bind] in E;
      [|injection E as <-; now apply parse_fighter_seven in Ea].
    destruct (parse_fighter lim (part "/" 1 (strip s))) as [fb|eb] eqn:Eb;
      cbn [bind] in E;
      [|injection E as <-; now apply parse_fighter_seven in Eb].
    destruct (py_int lim (part "/" 4 (strip s))) as [mc|em] eqn:Em;
      cbn [bind] in E; [discriminate E|].
    injection E as <-. now apply py_int_not_fighter_format in Em.
Qed.

Lemma fighter_count_witness :
  parse_fpn 4300 "o.95/s/m/A/5" = Raise (ValueError (Invalid_fighter_format "o.95")).
Proof.
  apply (proj1 (fighter_count 4300 "o.95/s/m/A/5" eq_refl)).
  vm_compute. discriminate.
Defined.

Lemma parse_fighter_index_error (lim : Z) (s : string) :
  parse_fighter lim s = Raise IndexError -> short_fields s.
Proof.
  unfold parse_fighter, short_fields. cbv zeta.
  destruct (Nat.eqb_spec (List.length (split "." s)) 7) as [L|_];
    cbn [negb]; [|discriminate].
  rewrite !getitem_split by lia. cbn [bind]. intro H.
  repeat match type of H with
  | bind (getitem ?l ?i) _ = Raise _ =>
      let a := fresh "a" in
      let E := fresh "E" in
      destruct (getitem l i) as [a|] eqn:E; cbn [bind] in H;
      [|injection H as ->; apply getitem_raise_length in E as [_ E];
        solve [left; lia | right; lia]]
  | bind (int_over ?l ?t ?d) _ = Raise _ =>
      let a := fresh "a" in
      let E := fresh "E" in
      destruct (int_over l t d) as [a|] eqn:E; cbn [bind] in H;
      [|injection H as ->; now apply int_over_not_index in E]
  | bind (py_int ?l ?t) _ = Raise _ =>
      let a := fresh "a" in
      let E := fresh "E" in
      destruct (py_int l t) as [a|] eqn:E; cbn [bind] in H;
      [|injection H as ->; now apply py_int_not_index in E]
  end.
  discriminate H.
Qed.

Lemma parse_fighter_overflow (lim : Z) (s : string) :
  parse_fighter lim s = Raise OverflowError ->
  exists tok n,
    In tok (fighter_scaled_tokens s)
    /\ py_int lim tok = Ok n /\ ~ in_float_range n.
Proof.
  unfold parse_fighter, fighter_scaled_tokens, momentum_token, biomech_token.
  cbv zeta.
  destruct (Nat.eqb_spec (List.length (split "." s)) 7) as [L|_];
    cbn [negb]; [|discriminate].
  rewrite !getitem_split by lia. cbn [bind]. intro H.
  repeat match type of H with
  | bind (getitem ?l ?i) _ = Raise _ =>
      let a := fresh "a" in
      let E := fresh "E" in
      destruct (getitem l i) as [a|] eqn:E; cbn [bind] in H;
      [apply getitem_part in E; subst a
      |injection H as ->; apply getitem_raise_length in E as [E _];
       discriminate E]
  | bind (int_over ?l ?t ?d) _ = Raise _ =>
      let a := fresh "a" in
      let E := fresh "E" in
      destruct (int_over l t d) as [a|] eqn:E; cbn [bind] in H;
      [|injection H as ->;
        apply int_over_raises in E as [E|[_ (n & ? & ?)]];
        [now apply py_int_not_overflow in E
        |exists t, n; split; [unfold In; auto 10 | split; assumption]]]
  | bind (py_int ?l ?t) _ = Raise _ =>
      let a := fresh "a" in
      let E := fresh "E" in
      destruct (py_int l t) as [a|] eqn:E; cbn [bind] in H;
      [|injection H as ->; now apply py_int_not_overflow in E]
  end.
  discriminate H.
Qed.

(** The decoder after its count check, for an input with four slashes. *)
Lemma parse_fpn_five (lim : Z) (s : string) :
  count_char "/" (strip s) = 4%nat ->
  parse_fpn lim s =
  (fa <- parse_fighter lim (part "/" 0 (strip s)) ;;
   fb <- parse_fighter lim (part "/" 1 (strip s)) ;;
   mc <- py_int lim (part "/" 4 (strip s)) ;;
   Ok {| fighter_a := fa; fighter_b := fb;
         distance := part "/" 2 (strip s);
         turn := part "/" 3 (strip s);
         move_count := mc |}).
Proof.
  intro H4.
  assert (L : List.length (split "/" (strip s)) = 5%nat)
    by (rewrite length_split; lia).
  unfold parse_fpn. cbv zeta. rewrite L. cbn [Nat.eqb negb].
  rewrite !getitem_split by lia. reflexivity.
Qed.

(** X3: [parse_fpn] lets an [IndexError] escape only when the momentum of
    one of the fighters has fewer than two fields or its biomech fewer
    than five. *)
Theorem index_error_only_from_short_fields (lim : Z) (s : string) :
  parse_fpn lim s = Raise IndexError ->
  short_fields (part "/" 0 (strip s)) \/ short_fields (part "/" 1 (strip s)).
Proof.
  intro H.
  destruct (Nat.eq_dec (count_char "/" (strip s)) 4) as [H4|H4];
    [|rewrite parse_fpn_top_count in H by (rewrite length_split; lia);
      discriminate H].
  rewrite (parse_fpn_five lim s H4) in H.
  destruct (parse_fighter lim (part "/" 0 (strip s))) as [fa|ea] eqn:Ea;
    cbn [bind] in H;
    [|injection H as ->; left; now apply parse_fighter_index_error in Ea].
  destruct (parse_fighter lim (part "/" 1 (strip s))) as [fb|eb] eqn:Eb;
    cbn [bind] in H;
    [|injection H as ->; right; now apply parse_fighter_index_error in Eb].
  destruct (py_int lim (part "/" 4 (strip s))) as [mc|em] eqn:Em;
    cbn [bind] in H; [discriminate H|].
  injection H as ->. now apply py_int_not_index in Em.
Qed.

Lemma index_error_only_from_short_fields_witness :
  parse_fpn 4300 short_momentum_fpn = Raise IndexError
  /\ (short_fields (part "/" 0 (strip short_momentum_fpn))
      \/ short_fields (part "/" 1 (strip short_momentum_fpn))).
Proof.
  assert (H : parse_fpn 4300 short_momentum_fpn = Raise IndexError)
    by (vm_compute; reflexivity).
  split; [exact H|].
  exact (index_error_only_from_short_fields 4300 short_momentum_fpn H).
Defined.

(** X4: [parse_fpn] lets an [OverflowError] escape only when the integer of
    one of the divided fields (balance, fatigue, damage, linear momentum,
    biomech weight) is too large to convert to a float; the integers that
    are kept as they are never overflow. *)
Theorem overflow_only_from_scaled_fields (lim : Z) (s : string) :
  parse_fpn lim s = Raise OverflowError ->
  exists tok n,
    In tok (fighter_scaled_tokens (part "/" 0 (strip s))
            ++ fighter_scaled_tokens (part "/" 1 (strip s)))%list
    /\ py_int lim tok = Ok n /\ ~ in_float_range n.
Proof.
  intro H.
  destruct (Nat.eq_dec (count_char "/" (strip s)) 4) as [H4|H4];
    [|rewrite parse_fpn_top_count in H by (rewrite length_split; lia);
      discriminate H].
  rewrite (parse_fpn_five lim s H4) in H.
  destruct (parse_fighter lim (part "/" 0 (strip s))) as [fa|ea] eqn:Ea;
    cbn [bind] in H.
  2:{ injection H as ->.
      apply parse_fighter_overflow in Ea as (tok & n & Hin & Hn).
      exists tok, n. split; [apply in_or_app; now left | exact Hn]. }
  destruct (parse_fighter lim (part "/" 1 (strip s))) as [fb|eb] eqn:Eb;
    cbn [bind] in H.
  2:{ injection H as ->.
      apply parse_fighter_overflow in Eb as (tok & n & Hin & Hn).
      exists tok, n. split; [apply in_or_app; now right | exact Hn]. }
  destruct (py_int lim (part "/" 4 (strip s))) as [mc|em] eqn:Em;
    cbn [bind] in H; [discriminate H|].
  injection H as ->. now apply py_int_not_overflow in Em.
Qed.

Lemma overflow_only_from_scaled_fields_witness :
  parse_fpn 4300 huge_balance_fpn = Raise OverflowError
  /\ exists tok n,
       In tok (fighter_scaled_tokens (part "/" 0 (strip huge_balance_fpn))
               ++ fighter_scaled_tokens (part "/" 1 (strip huge_balance_fpn)))%list
       /\ py_int 4300 tok = Ok n /\ ~ in_float_range n.
Proof.
  assert (H : parse_fpn 4300 huge_balance_fpn = Raise OverflowError)
    by (vm_compute; reflexivity).
  split; [exact H|].
  exact (overflow_only_from_scaled_fields 4300 huge_balance_fpn H).
Defined.

Lemma getitem_firstn {A : Type} (k : nat) (l : list A) (i : nat) :
  (i < k)%nat -> getitem (firstn k l) i = getitem l i.
Proof.
  intro H. unfold getitem. now rewrite nth_error_firstn, (proj2 (Nat.ltb_lt i k) H).
Qed.

(** X5: [parse_fighter] reads the first two fields of the momentum and the
    first five of the biomech and nothing after them: two fighter strings
    of seven fields that agree on those and on the other five fields
    decode alike, to the same fighter or the same exception. *)
Theorem extra_fields_ignored (lim : Z) (s s' : string)
  (p0 p1 p2 p3 p4 p5 p6 p4' p5' : string) :
  split "." s = [p0; p1; p2; p3; p4; p5; p6] ->
  split "." s' = [p0; p1; p2; p3; p4'; p5'; p6] ->
  firstn 2 (split "," p4) = firstn 2 (split "," p4') ->
  firstn 5 (split "," p5) = firstn 5 (split "," p5') ->
  parse_fighter lim s = parse_fighter lim s'.
Proof.
  intros Hs Hs' H4 H5. unfold parse_fighter. cbv zeta. rewrite Hs, Hs'.
  cbn [List.length Nat.eqb negb getitem nth_error bind].
  rewrite <- (getitem_firstn 2 (split "," p4) 0),
          <- (getitem_firstn 2 (split "," p4) 1),
          <- (getitem_firstn 2 (split "," p4') 0),
          <- (getitem_firstn 2 (split "," p4') 1) by lia.
  rewrite <- (getitem_firstn 5 (split "," p5) 0),
          <- (getitem_firstn 5 (split "," p5) 1),
          <- (getitem_firstn 5 (split "," p5) 2),
          <- (getitem_firstn 5 (split "," p5) 3),
          <- (getitem_firstn 5 (split "," p5) 4),
          <- (getitem_firstn 5 (split "," p5') 0),
          <- (getitem_firstn 5 (split "," p5') 1),
          <- (getitem_firstn 5 (split "," p5') 2),
          <- (getitem_firstn 5 (split "," p5') 3),
          <- (getitem_firstn 5 (split "," p5') 4) by lia.
  now rewrite H4, H5.
Qed.

Lemma extra_fields_ignored_witness :
  parse_fighter 4300 "o.95.15.0.3,5.10,15,55,0,0.----"
  = parse_fighter 4300 "o.95.15.0.3,5,x.10,15,55,0,0,,9a.----".
Proof.
  apply (extra_fields_ignored 4300 _ _
           "o" "95" "15" "0" "3,5" "10,15,55,0,0" "----"
           "3,5,x" "10,15,55,0,0,,9a"); reflexivity.
Defined.

(** X6: in a decoded state a fighter is recovering exactly when the fourth
    field of its biomech is the one-character string "1"; any other token,
    also one that [int()] would read as 1, gives false. *)
Theorem recovering_iff_one (lim : Z) (s : string) (st : fight_state) :
  parse_fpn lim s = Ok st ->
  (recovering (biomech (fighter_a st)) = true
   <-> biomech_token 3 (part "/" 0 (strip s)) = "1")
  /\ (recovering (biomech (fighter_b st)) = true
      <-> biomech_token 3 (part "/" 1 (strip s)) = "1").
Proof.
  intro H. apply parse_fpn_ok in H as (_ & Ha & Hb & _).
  apply parse_fighter_ok in Ha, Hb.
  destruct Ha as (_ & _ & _ & _ & _ & _ & _ & _ & _ & _ & Ra & _).
  destruct Hb as (_ & _ & _ & _ & _ & _ & _ & _ & _ & _ & Rb & _).
  rewrite Ra, Rb. split; apply String.eqb_eq.
Qed.

Lemma recovering_iff_one_witness :
  exists st,
    parse_fpn 4300 recovering_fpn = Ok st
    /\ recovering (biomech (fighter_a st)) = true
    /\ recovering (biomech (fighter_b st)) = false.
Proof.
  eexists. split; [vm_compute; reflexivity|].
  split.
  - apply (proj1 (recovering_iff_one 4300 recovering_fpn _ eq_refl)).
    reflexivity.
  - reflexivity.
Defined.

Lemma count_char_join_ge (c sep : ascii) (x : string) (l : list string) :
  In x l -> (count_char c x <= count_char c (join sep l))%nat.
Proof.
  induction l as [|y l IH]; [contradiction|].
  intros [->|Hin].
  - destruct l as [|z l]; cbn [join]; [lia|].
    rewrite count_char_app. lia.
  - destruct l as [|z l]; [contradiction|].
    specialize (IH Hin). cbn [join] in *.
    rewrite count_char_app. cbn [count_char]. lia.
Qed.

Lemma count_char_part (c sep : ascii) (i : nat) (s : string) :
  (count_char c (part sep i s) <= count_char c s)%nat.
Proof.
  unfold part.
  destruct (nth_in_or_default i (split sep s) EmptyString) as [Hin|E].
  - rewrite <- (join_split sep s) at 2. now apply count_char_join_ge.
  - rewrite E. cbn. lia.
Qed.

Lemma five_parts (sep : ascii) (s : string) :
  List.length (split sep s) = 5%nat ->
  split sep s = [part sep 0 s; part sep 1 s; part sep 2 s; part sep 3 s;
                 part sep 4 s].
Proof.
  unfold part. destruct (split sep s) as [|a [|b [|c [|d [|e [|f l]]]]]];
    try discriminate. reflexivity.
Qed.

Lemma seven_parts (sep : ascii) (s : string) :
  List.length (split sep s) = 7%nat ->
  split sep s = [part sep 0 s; part sep 1 s; part sep 2 s; part sep 3 s;
                 part sep 4 s; part sep 5 s; part sep 6 s].
Proof.
  unfold part.
  destruct (split sep s) as [|a [|b [|c [|d [|e [|f [|g [|h l]]]]]]]];
    try discriminate. reflexivity.
Qed.

(** X7: the text fields of a decoded state are pieces of the input kept
    as they are: joining the two fighter texts, the distance, the turn and
    the move count text with slashes gives the stripped input back, and
    joining stance, the five middle fields and limbs with dots gives each
    fighter text back; distance and turn hold no slash, stance and limbs
    neither a dot nor a slash. *)
Theorem text_fields_verbatim (lim : Z) (s : string) (st : fight_state) :
  parse_fpn lim s = Ok st ->
  let a := part "/" 0 (strip s) in
  let b := part "/" 1 (strip s) in
  strip s = join "/" [a; b; distance st; turn st; part "/" 4 (strip s)]
  /\ a = join "." [stance (fighter_a st); part "." 1 a; part "." 2 a;
                   part "." 3 a; part "." 4 a; part "." 5 a;
                   limbs (fighter_a st)]
  /\ b = join "." [stance (fighter_b st); part "." 1 b; part "." 2 b;
                   part "." 3 b; part "." 4 b; part "." 5 b;
                   limbs (fighter_b st)]
  /\ Forall (fun x => count_char "/" x = O)
       [distance st; turn st; stance (fighter_a st); limbs (fighter_a st);
        stance (fighter_b st); limbs (fighter_b st)]
  /\ Forall (fun x => count_char "." x = O)
       [stance (fighter_a st); limbs (fighter_a st);
        stance (fighter_b st); limbs (fighter_b st)].
Proof.
  intro H. cbv zeta.
  apply parse_fpn_ok in H as (L5 & Ha & Hb & -> & -> & _).
  apply parse_fighter_ok in Ha, Hb.
  destruct Ha as (La & -> & _ & _ & _ & _ & _ & _ & _ & _ & _ & _ & ->).
  destruct Hb as (Lb & -> & _ & _ & _ & _ & _ & _ & _ & _ & _ & _ & ->).
  assert (Z : forall i j, count_char "/" (part "." i (part "/" j (strip s))) = O).
  { intros i j. pose proof (count_char_part "/" "." i (part "/" j (strip s))).
    pose proof (part_clean "/" j (strip s)). lia. }
  repeat apply conj.
  - rewrite <- (five_parts "/" (strip s) L5). symmetry. apply join_split.
  - rewrite <- (seven_parts "." _ La). symmetry. apply join_split.
  - rewrite <- (seven_parts "." _ Lb). symmetry. apply join_split.
  - repeat constructor; auto using part_clean.
  - repeat constructor; apply part_clean.
Qed.

Lemma text_fields_verbatim_witness :
  strip example_fpn
  = join "/" ["o.95.15.0.3,5.10,15,55,0,0.----";
              "s.90.20.5.-1,0.-5,-10,45,0,0.----"; "m"; "A"; "5"].
Proof.
  exact (proj1 (text_fields_verbatim 4300 example_fpn example_state eq_refl)).
Defined.

(** * Further properties of the scene code *)

Lemma map_list_update_same {A B : Type} (g : A -> B) (f : A -> A) (l : list A) :
  (forall x, g (f x) = g x) ->
  forall i, map g (list_update l i f) = map g l.
Proof.
  intro H. induction l as [|x l IH]; intros [|i]; cbn; try reflexivity.
  - now rewrite H.
  - now rewrite IH.
Qed.

Lemma append_empty_r (s : string) : (s ++ "")%string = s.
Proof. induction s as [|c r IH]; cbn; [reflexivity | now rewrite IH]. Qed.

Lemma append_not_self (name suffix : string) :
  suffix <> EmptyString -> (name ++ suffix)%string <> name.
Proof.
  intros Hs E. rewrite <- (append_empty_r name) in E at 2.
  now apply append_inj_l in E.
Qed.

Section ShapeFacts.

Variable single : float -> float.

Lemma shape_cbind {A B : Type} (c : cmd A) (k : A -> cmd B) :
  (forall d, shape (fst (c d)) = shape d) ->
  (forall a d, shape (fst (k a d)) = shape d) ->
  forall d, shape (fst (cbind c k d)) = shape d.
Proof.
  intros Hc Hk d. rewrite fst_cbind.
  destruct (snd (c d)); [|apply Hc]. now rewrite Hk, Hc.
Qed.

Lemma shape_set_rotation (o axis : nat) (a : float) (d : blend_data) :
  shape (fst (set_rotation single o axis a d)) = shape d.
Proof.
  unfold shape, set_rotation, update_object. cbn [fst objects materials].
  now rewrite map_list_update_same.
Qed.

Lemma shape_set_default_value (m : nat) (c : rgba) (d : blend_data) :
  shape (fst (set_default_value single m c d)) = shape d.
Proof.
  unfold shape, set_default_value, update_material. cbn [fst objects materials].
  now rewrite map_list_update_same.
Qed.

Lemma shape_for_each {A : Type} (body : A -> cmd unit) (l : list A) :
  (forall x d, shape (fst (body x d)) = shape d) ->
  forall d, shape (fst (for_each l body d)) = shape d.
Proof.
  intro H. induction l as [|x l IH]; intro d; cbn [for_each]; [reflexivity|].
  apply shape_cbind; [apply H | intros _; exact IH].
Qed.

Lemma shape_pose_part (n : string) (r : result float) (d : blend_data) :
  shape (fst ((o <~ objects_get n ;;
               match o with
               | Some o' => a <~ lift r ;; set_rotation single o' 2 a
               | None => ret tt
               end) d)) = shape d.
Proof.
  apply shape_cbind; [reflexivity|]. intros [o|] d'; [|reflexivity].
  apply shape_cbind; [reflexivity|]. intros a d''. apply shape_set_rotation.
Qed.

Lemma shape_pose_arms (name : string) (f : fighter_t) (d : blend_data) :
  shape (fst (pose_arms single name f d)) = shape d.
Proof.
  rewrite pose_arms_run.
  destruct (str_getitem (limbs f) 0) as [c0|e0]; [|reflexivity]. cbv zeta.
  assert (H1 : shape
            match find_name (name ++ "_left_upper_arm") (objects d) with
            | Some o => fst (set_rotation single o 1 (arm_angle c0) d)
            | None => d
            end = shape d).
  { destruct (find_name _ _); [apply shape_set_rotation | reflexivity]. }
  destruct (str_getitem (limbs f) 1) as [c1|e1]; cbn [fst]; [|exact H1].
  destruct (find_name (name ++ "_right_upper_arm") _);
    [now rewrite shape_set_rotation | exact H1].
Qed.

Lemma shape_darken (name : string) (damage : float) (obj : object_t)
  (d : blend_data) :
  shape (fst (darken single name damage obj d)) = shape d.
Proof.
  unfold darken. destruct (_ && _)%bool; [|reflexivity].
  destruct (obj_materials obj) as [|mat l]; [reflexivity|].
  apply shape_cbind; [reflexivity|].
  intros [[[c0 c1] c2] a] d'. apply shape_set_default_value.
Qed.

Lemma shape_pose_damage (name : string) (f : fighter_t) (d : blend_data) :
  shape (fst (pose_damage single name f d)) = shape d.
Proof.
  unfold pose_damage. cbv zeta. apply shape_cbind; [reflexivity|].
  intros l d'. apply shape_for_each. intros x d''. apply shape_darken.
Qed.

Lemma shape_pose_mannequin (m : nat) (f : fighter_t) (d : blend_data) :
  shape (fst (pose_mannequin single m f d)) = shape d.
Proof.
  unfold pose_mannequin.
  apply shape_cbind; [reflexivity|]. intros name d1.
  apply shape_cbind; [apply shape_set_rotation|]. intros _ d2.
  apply shape_cbind; [apply shape_pose_part|]. intros _ d3.
  apply shape_cbind; [apply shape_pose_part|]. intros _ d4.
  apply shape_cbind; [apply shape_pose_arms|]. intros _ d5.
  apply shape_pose_damage.
Qed.

End ShapeFacts.

(** X8: [pose_mannequin] changes rotations and colours and nothing else:
    whether it returns or raises, it leaves as many objects and materials
    as it found, each object with its name, type, location, scale, parent
    and material slots, and each material with its name. *)
Theorem pose_keeps_shape (single : float -> float) (m : nat)
  (f : fighter_t) (d : blend_data) :
  map object_shape (objects (fst (pose_mannequin single m f d)))
  = map object_shape (objects d)
  /\ map mat_name (materials (fst (pose_mannequin single m f d)))
     = map mat_name (materials d)
  /\ List.length (objects (fst (pose_mannequin single m f d)))
     = List.length (objects d)
  /\ List.length (materials (fst (pose_mannequin single m f d)))
     = List.length (materials d).
Proof.
  pose proof (shape_pose_mannequin single m f d) as H.
  unfold shape in H. injection H as Ho Hm.
  repeat split; try assumption.
  - now rewrite <- (length_map object_shape), Ho, length_map.
  - now rewrite <- (length_map mat_name), Hm, length_map.
Qed.

Section KeepFacts.

Variable single : float -> float.

(** A rotation written to an object found under another name leaves the
    object alone. *)
Lemma keep_named (d : blend_data) (o o' axis : nat) (a : float)
  (y : object_t) (n' : string) :
  nth_error (objects d) o = Some y ->
  find_name n' (objects d) = Some o' ->
  obj_name y <> n' ->
  nth_error (objects (fst (set_rotation single o' axis a d))) o = Some y.
Proof.
  intros Hy Hf Hn. unfold set_rotation, update_object. cbn [fst objects].
  rewrite nth_error_list_update_neq; [exact Hy|].
  intros ->. apply find_name_some in Hf as (x & Hx & Hname). congruence.
Qed.

Lemma keep_pose_hips (name : string) (f : fighter_t) (d : blend_data)
  (o : nat) (y : object_t) :
  nth_error (objects d) o = Some y ->
  obj_name y <> (name ++ "_hips")%string ->
  nth_error (objects (fst (pose_hips single name f d))) o = Some y.
Proof.
  intros Hy Hn. unfold pose_hips, cbind, objects_get, lift, ret.
  destruct (find_name (name ++ "_hips") (objects d)) as [o'|] eqn:Hf;
    [|exact Hy].
  destruct (math_radians _) as [a|e]; [|exact Hy].
  now apply keep_named with (n' := (name ++ "_hips")%string).
Qed.

Lemma keep_pose_torso (name : string) (f : fighter_t) (d : blend_data)
  (o : nat) (y : object_t) :
  nth_error (objects d) o = Some y ->
  obj_name y <> (name ++ "_torso")%string ->
  nth_error (objects (fst (pose_torso single name f d))) o = Some y.
Proof.
  intros Hy Hn. unfold pose_torso, cbind, objects_get, lift, ret.
  destruct (find_name (name ++ "_torso") (objects d)) as [o'|] eqn:Hf;
    [|exact Hy].
  destruct (math_radians _) as [a|e]; [|exact Hy].
  now apply keep_named with (n' := (name ++ "_torso")%string).
Qed.

Lemma keep_pose_arms (name : string) (f : fighter_t) (d : blend_data)
  (o : nat) (y : object_t) :
  nth_error (objects d) o = Some y ->
  obj_name y <> (name ++ "_left_upper_arm")%string ->
  obj_name y <> (name ++ "_right_upper_arm")%string ->
  nth_error (objects (fst (pose_arms single name f d))) o = Some y.
Proof.
  intros Hy Hl Hr. rewrite pose_arms_run.
  destruct (str_getitem (limbs f) 0) as [c0|e0]; [|exact Hy]. cbv zeta.
  assert (H1 : nth_error
            (objects
               match find_name (name ++ "_left_upper_arm") (objects d) with
               | Some o' => fst (set_rotation single o' 1 (arm_angle c0) d)
               | None => d
               end) o = Some y).
  { destruct (find_name (name ++ "_left_upper_arm") (objects d)) eqn:Hf;
      [|exact Hy].
    now apply keep_named with (n' := (name ++ "_left_upper_arm")%string). }
  destruct (str_getitem (limbs f) 1) as [c1|e1]; cbn [fst]; [|exact H1].
  destruct (find_name (name ++ "_right_upper_arm") _) eqn:Hf; [|exact H1].
  now apply keep_named with (n' := (name ++ "_right_upper_arm")%string).
Qed.

Lemma keep_pose_damage (name : string) (f : fighter_t) (d : blend_data)
  (o : nat) (y : object_t) :
  nth_error (objects d) o = Some y ->
  nth_error (objects (fst (pose_damage single name f d))) o = Some y.
Proof. intro H. now rewrite pose_damage_objects. Qed.

(** The store [pose_mannequin] leaves, whether it returns or raises, is
    one of these. *)
Lemma pose_mannequin_stages (P : blend_data -> Prop) (m : nat)
  (f : fighter_t) (d : blend_data) :
  let name := name_of d m in
  let d1 := fst (pose_lean single m f d) in
  P d1 ->
  (forall d', P d' -> P (fst (pose_hips single name f d'))) ->
  (forall d', P d' -> P (fst (pose_torso single name f d'))) ->
  (forall d', P d' -> P (fst (pose_arms single name f d'))) ->
  (forall d', P d' -> P (fst (pose_damage single name f d'))) ->
  P (fst (pose_mannequin single m f d)).
Proof.
  cbv zeta. intros H1 Hh Ht Ha Hd. unfold pose_mannequin.
  rewrite (cbind_run (get_name m) _ d (name_of d m) eq_refl).
  cbn [get_name fst].
  rewrite (cbind_run (pose_lean single m f) _ d tt (pose_lean_ok _ _ _ _)).
  set (d1 := fst (pose_lean single m f d)) in *.
  rewrite fst_cbind. destruct (snd (pose_hips _ _ _ d1)); [|now apply Hh].
  rewrite fst_cbind.
  destruct (snd (pose_torso _ _ _ _)); [|now apply Ht, Hh].
  rewrite fst_cbind.
  destruct (snd (pose_arms _ _ _ _)); [|now apply Ha, Ht, Hh].
  now apply Hd, Ha, Ht, Hh.
Qed.

End KeepFacts.

(** Objects that the pose does not name stay as they are. *)
Lemma pose_mannequin_frame (single : float -> float) (m : nat)
  (f : fighter_t) (d : blend_data) (o : nat) (y : object_t) :
  nth_error (objects d) o = Some y ->
  o <> m ->
  obj_name y <> (name_of d m ++ "_hips")%string ->
  obj_name y <> (name_of d m ++ "_torso")%string ->
  obj_name y <> (name_of d m ++ "_left_upper_arm")%string ->
  obj_name y <> (name_of d m ++ "_right_upper_arm")%string ->
  nth_error (objects (fst (pose_mannequin single m f d))) o = Some y.
Proof.
  intros Hy Hm Hh Ht Hl Hr.
  apply (pose_mannequin_stages single
           (fun d' => nth_error (objects d') o = Some y)).
  - unfold pose_lean, set_rotation, update_object. cbn [fst objects].
    now rewrite nth_error_list_update_neq by congruence.
  - intros d' H. now apply keep_pose_hips.
  - intros d' H. now apply keep_pose_torso.
  - intros d' H. now apply keep_pose_arms.
  - intros d' H. now apply keep_pose_damage.
Qed.

(** X9: [pose_mannequin] touches only the mannequin and its parts named
    hips, torso, left upper arm and right upper arm: whether it returns or
    raises, every other object of the store is afterwards exactly as it
    was, rotation included. *)
Theorem pose_touches_named_parts (single : float -> float) (m : nat)
  (f : fighter_t) (d : blend_data) (o : nat) (y : object_t) :
  nth_error (objects d) o = Some y ->
  o <> m ->
  obj_name y <> (name_of d m ++ "_hips")%string ->
  obj_name y <> (name_of d m ++ "_torso")%string ->
  obj_name y <> (name_of d m ++ "_left_upper_arm")%string ->
  obj_name y <> (name_of d m ++ "_right_upper_arm")%string ->
  nth_error (objects (fst (pose_mannequin single m f d))) o = Some y.
Proof. apply pose_mannequin_frame. Qed.

Lemma pose_touches_named_parts_witness :
  nth_error
    (objects (fst (pose_mannequin binary32 0 (fighter_a example_state)
                     mannequin_scene))) 1
  = nth_error (objects mannequin_scene) 1.
Proof.
  destruct (nth_error (objects mannequin_scene) 1) as [y|] eqn:E;
    [|vm_compute in E; discriminate E].
  apply (pose_touches_named_parts binary32 0 (fighter_a example_state)
           mannequin_scene 1 y E);
    vm_compute in E; injection E as <-; vm_compute; discriminate.
Defined.

Lemma suffix_names_differ (name a b : string) :
  a <> b -> (name ++ a)%string <> (name ++ b)%string.
Proof. intros H E. now apply append_inj_l in E. Qed.

(** The mannequin's own rotation after the pose. *)
Lemma pose_mannequin_own_rotation (single : float -> float) (m : nat)
  (f : fighter_t) (d : blend_data) (x : object_t) :
  nth_error (objects d) m = Some x ->
  option_map rotation_euler
    (nth_error (objects (fst (pose_mannequin single m f d))) m)
  = Some (vec_set (rotation_euler x) 1 (single (lean_of f))).
Proof.
  intro Hx.
  assert (Hname : name_of d m = obj_name x) by (unfold name_of; now rewrite Hx).
  set (y := {| obj_name := obj_name x; obj_type := obj_type x;
               location := location x;
               rotation_euler := vec_set (rotation_euler x) 1 (single (lean_of f));
               scale := scale x; parent := parent x;
               obj_materials := obj_materials x |}).
  assert (Hy : forall s, s <> EmptyString ->
                         obj_name y <> (name_of d m ++ s)%string).
  { intros s Hs E. cbn in E. rewrite Hname in E. symmetry in E.
    now apply append_not_self in E. }
  enough (H : nth_error (objects (fst (pose_mannequin single m f d))) m = Some y)
    by now rewrite H.
  apply (pose_mannequin_stages single
           (fun d' => nth_error (objects d') m = Some y)).
  - unfold pose_lean, set_rotation, update_object. cbn [fst objects].
    now rewrite nth_error_list_update_eq, Hx.
  - intros d' H. apply keep_pose_hips; [exact H | now apply Hy].
  - intros d' H. apply keep_pose_torso; [exact H | now apply Hy].
  - intros d' H. apply keep_pose_arms; [exact H | now apply Hy | now apply Hy].
  - intros d' H. now apply keep_pose_damage.
Qed.

(** X10: whether [pose_mannequin] returns or raises, the mannequin itself
    ends with its rotation about the second axis set to the lean
    (1 - balance) * 0.2, as the engine stores it, and its rotation about
    the other two axes as it was. *)
Theorem mannequin_lean (single : float -> float) (m : nat)
  (f : fighter_t) (d : blend_data) (x : object_t) :
  nth_error (objects d) m = Some x ->
  option_map rotation_euler
    (nth_error (objects (fst (pose_mannequin single m f d))) m)
  = Some (vec_set (rotation_euler x) 1 (single (lean_of f))).
Proof. apply pose_mannequin_own_rotation. Qed.

Lemma mannequin_lean_witness :
  option_map rotation_euler
    (nth_error
       (objects (fst (pose_mannequin binary32 0 (fighter_b example_state)
                        mannequin_scene))) 0)
  = Some (0, binary32 ((1 - 0.9) * 0.2), 0)%float.
Proof.
  destruct (nth_error (objects mannequin_scene) 0) as [x|] eqn:E;
    [|vm_compute in E; discriminate E].
  rewrite (mannequin_lean binary32 0 (fighter_b example_state)
             mannequin_scene x E).
  vm_compute in E. injection E as <-. reflexivity.
Defined.

Section AngleFacts.

Variable single : float -> float.

Lemma keep_tail (P : blend_data -> Prop) (name : string) (f : fighter_t) :
  (forall d', P d' -> P (fst (pose_arms single name f d'))) ->
  (forall d', P d' -> P (fst (pose_damage single name f d'))) ->
  forall d', P d' ->
    P (fst (cbind (pose_arms single name f)
              (fun _ => pose_damage single name f) d')).
Proof.
  intros Ha Hd d' H. rewrite fst_cbind.
  destruct (snd (pose_arms single name f d')); [|now apply Ha].
  now apply Hd, Ha.
Qed.

(** What a part's rotation about the third axis is once it has been set
    and the rest of the pose has run over a store that keeps the part. *)
Lemma part_angle_set (d : blend_data) (o : nat) (a : float) (n : string) :
  find_name n (objects d) = Some o ->
  exists y,
    nth_error (objects (fst (set_rotation single o 2 a d))) o = Some y
    /\ obj_name y = n
    /\ vec_get (rotation_euler y) 2 = single a.
Proof.
  intro Hf. apply find_name_some in Hf as (x & Hx & Hn).
  unfold set_rotation, update_object. cbn [fst objects].
  rewrite nth_error_list_update_eq, Hx. cbn [option_map].
  eexists. split; [reflexivity|]. cbn. split; [exact Hn|].
  apply vec_get_set.
Qed.

Lemma pose_hips_run (name : string) (f : fighter_t) (d : blend_data) (o : nat) :
  in_float_range (hip_rot (biomech f)) ->
  find_name (name ++ "_hips") (objects d) = Some o ->
  fst (pose_hips single name f d)
  = fst (set_rotation single o 2 (radians_of (hip_rot (biomech f))) d).
Proof.
  intros Hr Hf. unfold pose_hips, cbind, objects_get, lift.
  now rewrite Hf, (math_radians_in_range _ Hr).
Qed.

Lemma pose_torso_run (name : string) (f : fighter_t) (d : blend_data) (o : nat) :
  in_float_range (torso_rot (biomech f)) ->
  find_name (name ++ "_torso") (objects d) = Some o ->
  fst (pose_torso single name f d)
  = fst (set_rotation single o 2 (radians_of (torso_rot (biomech f))) d).
Proof.
  intros Hr Hf. unfold pose_torso, cbind, objects_get, lift.
  now rewrite Hf, (math_radians_in_range _ Hr).
Qed.

End AngleFacts.

(** X11: when the hip angle converts to a float, [pose_mannequin] leaves
    the part named hips, if there is one, turned about the third axis by
    the hip angle in radians, whether or not it raises later; when the
    torso angle converts as well, it leaves the part named torso turned by
    the torso angle in radians. *)
Theorem hip_torso_angles (single : float -> float) (m : nat)
  (f : fighter_t) (d : blend_data) :
  (forall o,
     in_float_range (hip_rot (biomech f)) ->
     find_name (name_of d m ++ "_hips") (objects d) = Some o ->
     rotation_of (fst (pose_mannequin single m f d)) o 2
     = Some (single (radians_of (hip_rot (biomech f)))))
  /\ (forall o,
        in_float_range (hip_rot (biomech f)) ->
        in_float_range (torso_rot (biomech f)) ->
        find_name (name_of d m ++ "_torso") (objects d) = Some o ->
        rotation_of (fst (pose_mannequin single m f d)) o 2
        = Some (single (radians_of (torso_rot (biomech f))))).
Proof.
  assert (R : forall (d' : blend_data) o y a,
             nth_error (objects d') o = Some y ->
             vec_get (rotation_euler y) 2 = single a ->
             rotation_of d' o 2 = Some (single a)).
  { intros d' o y a Hy Hv. unfold rotation_of. now rewrite Hy, <- Hv. }
  split.
  - intros o Hr Hf.
    set (name := name_of d m) in *.
    set (d1 := fst (pose_lean single m f d)).
    assert (Hf1 : find_name (name ++ "_hips") (objects d1) = Some o)
      by (unfold d1, pose_lean; now rewrite find_name_set_rotation).
    destruct (part_angle_set single d1 o (radians_of (hip_rot (biomech f)))
                _ Hf1) as (y & Hy & Hn & Hv).
    rewrite <- (pose_hips_run single name f d1 o Hr Hf1) in Hy.
    enough (H : nth_error (objects (fst (pose_mannequin single m f d))) o
                = Some y) by (eapply R; eassumption).
    unfold pose_mannequin.
    rewrite (cbind_run (get_name m) _ d name eq_refl). cbn [get_name fst].
    rewrite (cbind_run (pose_lean single m f) _ d tt (pose_lean_ok _ _ _ _)).
    rewrite (cbind_run (pose_hips single name f) _ _ tt
               (pose_hips_ok _ _ _ _ Hr)).
    fold d1. rewrite fst_cbind.
    assert (Ht : nth_error
               (objects (fst (pose_torso single name f
                                (fst (pose_hips single name f d1))))) o
                 = Some y).
    { apply keep_pose_torso; [exact Hy|]. rewrite Hn.
      apply suffix_names_differ. discriminate. }
    destruct (snd (pose_torso _ _ _ _)); [|exact Ht].
    apply (keep_tail single (fun d' => nth_error (objects d') o = Some y));
      [| |exact Ht].
    + intros d' H. apply keep_pose_arms; [exact H| |]; rewrite Hn;
        apply suffix_names_differ; discriminate.
    + intros d' H. now apply keep_pose_damage.
  - intros o Hr Ht Hf.
    set (name := name_of d m) in *.
    rewrite (pose_mannequin_run single m f d Hr Ht). fold name.
    set (d2 := fst (pose_hips single name f (fst (pose_lean single m f d)))).
    assert (Hf2 : find_name (name ++ "_torso") (objects d2) = Some o).
    { unfold d2, pose_lean.
      now rewrite find_name_pose_hips, find_name_set_rotation. }
    destruct (part_angle_set single d2 o (radians_of (torso_rot (biomech f)))
                _ Hf2) as (y & Hy & Hn & Hv).
    rewrite <- (pose_torso_run single name f d2 o Ht Hf2) in Hy.
    enough (H : nth_error
                  (objects
                     (fst (cbind (pose_arms single name f)
                             (fun _ => pose_damage single name f)
                             (before_arms single m f d)))) o = Some y)
      by (eapply R; eassumption).
    apply (keep_tail single (fun d' => nth_error (objects d') o = Some y)).
    + intros d' H. apply keep_pose_arms; [exact H| |]; rewrite Hn;
        apply suffix_names_differ; discriminate.
    + intros d' H. now apply keep_pose_damage.
    + exact Hy.
Qed.

Lemma hip_torso_angles_witness :
  rotation_of (fst (pose_mannequin binary32 0 (fighter_a example_state)
                      mannequin_scene)) 3 2
  = Some (binary32 (radians_of 10))
  /\ rotation_of (fst (pose_mannequin binary32 0 (fighter_a example_state)
                         mannequin_scene)) 2 2
     = Some (binary32 (radians_of 15)).
Proof.
  split.
  - apply (proj1 (hip_torso_angles binary32 0 (fighter_a example_state)
                    mannequin_scene) 3%nat); vm_compute; reflexivity.
  - apply (proj2 (hip_torso_angles binary32 0 (fighter_a example_state)
                    mannequin_scene) 2%nat); vm_compute; reflexivity.
Defined.

Lemma users_shape (name : string) (k : nat) (l : list object_t) :
  forall l', map object_shape l = map object_shape l' ->
             users name k l = users name k l'.
Proof.
  unfold users.
  induction l as [|x l IH]; intros [|x' l'] H; try discriminate H;
    [reflexivity|].
  cbn [map] in H. injection H as Hn Ht _ _ _ Hm Hl. cbn [filter].
  assert (E : uses name k x = uses name k x')
    by (unfold uses; now rewrite Hn, Ht, Hm).
  rewrite E. destruct (uses name k x'); cbn [List.length];
    now rewrite (IH l' Hl).
Qed.

Section TintLaw.

Variable single : float -> float.

Lemma cbind_cases {A B : Type} (c : cmd A) (k : A -> cmd B) (d : blend_data) :
  cbind c k d =
  match snd (c d) with
  | Ok a => k a (fst (c d))
  | Raise e => (fst (c d), Raise e)
  end.
Proof. unfold cbind. destruct (c d) as [d' [a|e]]; reflexivity. Qed.

Lemma materials_pose_hips (name : string) (f : fighter_t) (d : blend_data) :
  materials (fst (pose_hips single name f d)) = materials d.
Proof.
  unfold pose_hips, cbind, objects_get, lift, ret.
  destruct (find_name _ _); [|reflexivity].
  destruct (math_radians _); reflexivity.
Qed.

Lemma materials_pose_torso (name : string) (f : fighter_t) (d : blend_data) :
  materials (fst (pose_torso single name f d)) = materials d.
Proof.
  unfold pose_torso, cbind, objects_get, lift, ret.
  destruct (find_name _ _); [|reflexivity].
  destruct (math_radians _); reflexivity.
Qed.

Lemma materials_pose_arms (name : string) (f : fighter_t) (d : blend_data) :
  materials (fst (pose_arms single name f d)) = materials d.
Proof.
  rewrite pose_arms_run.
  destruct (str_getitem (limbs f) 0) as [c0|e0]; [|reflexivity]. cbv zeta.
  destruct (find_name (name ++ "_left_upper_arm") (objects d));
    destruct (str_getitem (limbs f) 1) as [c1|e1]; cbn [fst];
    try reflexivity;
    destruct (find_name (name ++ "_right_upper_arm") _); reflexivity.
Qed.

(** The store on which the damage loop of [pose_mannequin] runs has the
    materials and the shape of the store the pose started from. *)
Lemma before_damage (m : nat) (f : fighter_t) (d : blend_data) :
  let d4 := fst (pose_arms single (name_of d m) f (before_arms single m f d)) in
  materials d4 = materials d
  /\ map object_shape (objects d4) = map object_shape (objects d).
Proof.
  cbv zeta. unfold before_arms. cbv zeta. split.
  - now rewrite materials_pose_arms, materials_pose_torso, materials_pose_hips.
  - pose proof (shape_pose_arms single (name_of d m) f
                  (before_arms single m f d)) as H1.
    unfold before_arms in H1. cbv zeta in H1.
    assert (H2 : shape (fst (pose_torso single (name_of d m) f
                         (fst (pose_hips single (name_of d m) f
                                 (fst (pose_lean single m f d))))))
                 = shape d).
    { unfold pose_torso, pose_hips. rewrite !shape_pose_part.
      apply shape_set_rotation. }
    rewrite H2 in H1. unfold shape in H1. now injection H1.
Qed.

Lemma pose_mannequin_cases (m : nat) (f : fighter_t) (d : blend_data) :
  let name := name_of d m in
  let d3 := before_arms single m f d in
  (snd (pose_mannequin single m f d) = Ok tt
   /\ fst (pose_mannequin single m f d)
      = fst (pose_damage single name f (fst (pose_arms single name f d3))))
  \/ (exists e,
        snd (pose_mannequin single m f d) = Raise e
        /\ materials (fst (pose_mannequin single m f d)) = materials d).
Proof.
  cbv zeta. unfold before_arms. cbv zeta. unfold pose_mannequin.
  rewrite (cbind_run (get_name m) _ d (name_of d m) eq_refl).
  cbn [get_name fst].
  rewrite (cbind_run (pose_lean single m f) _ d tt (pose_lean_ok _ _ _ _)).
  set (name := name_of d m).
  set (d1 := fst (pose_lean single m f d)).
  assert (M1 : materials d1 = materials d) by reflexivity.
  rewrite cbind_cases.
  destruct (snd (pose_hips single name f d1)) as [[]|e] eqn:Eh.
  2:{ right. exists e. cbn [fst snd]. split; [reflexivity|].
      now rewrite materials_pose_hips. }
  rewrite cbind_cases.
  destruct (snd (pose_torso single name f _)) as [[]|e] eqn:Et.
  2:{ right. exists e. cbn [fst snd]. split; [reflexivity|].
      now rewrite materials_pose_torso, materials_pose_hips. }
  rewrite cbind_cases.
  destruct (snd (pose_arms single name f _)) as [[]|e] eqn:Ea.
  2:{ right. exists e. cbn [fst snd]. split; [reflexivity|].
      now rewrite materials_pose_arms, materials_pose_torso,
        materials_pose_hips. }
  left. split; [apply pose_damage_ok | reflexivity].
Qed.

End TintLaw.

(** The colours after the pose. *)
Lemma pose_mannequin_colors (single : float -> float) (m : nat)
  (f : fighter_t) (d : blend_data) :
  (snd (pose_mannequin single m f d) = Ok tt ->
   forall k,
     color_of (fst (pose_mannequin single m f d)) k
     = option_map
         (Nat.iter (users (name_of d m) k (objects d))
            (darken_color single (tint_factor (damage f))))
         (color_of d k))
  /\ (forall e,
        snd (pose_mannequin single m f d) = Raise e ->
        materials (fst (pose_mannequin single m f d)) = materials d).
Proof.
  destruct (pose_mannequin_cases single m f d) as [[Hs Hf]|(e & Hs & Hm)].
  - split; [|intros e He; congruence].
    intros _ k. rewrite Hf, pose_damage_color.
    destruct (before_damage single m f d) as [Hmat Hshape].
    rewrite (users_shape _ _ _ _ Hshape).
    unfold color_of. now rewrite Hmat.
  - split; [intro H; congruence|]. intros e' _. exact Hm.
Qed.

(** X12: when [pose_mannequin] returns, every material's colour has been
    put through the darkening step once for each mesh object, named with
    the mannequin's name as prefix, that carries it in its first slot: a
    material on no such object keeps its colour, one shared by several is
    darkened as many times.  When [pose_mannequin] raises, no material
    has been changed. *)
Theorem pose_tint_law (single : float -> float) (m : nat)
  (f : fighter_t) (d : blend_data) :
  (snd (pose_mannequin single m f d) = Ok tt ->
   forall k,
     color_of (fst (pose_mannequin single m f d)) k
     = option_map
         (Nat.iter (users (name_of d m) k (objects d))
            (darken_color single (tint_factor (damage f))))
         (color_of d k))
  /\ (forall e,
        snd (pose_mannequin single m f d) = Raise e ->
        materials (fst (pose_mannequin single m f d)) = materials d).
Proof. apply pose_mannequin_colors. Qed.

Lemma pose_tint_law_witness :
  color_of (fst (pose_mannequin binary32 0 (fighter_b example_state)
                   mannequin_scene)) 0
  = Some (Nat.iter 15 (darken_color binary32 0.975%float)
            (1, binary32 0.3, binary32 0.3, 1)%float)
  /\ materials (fst (pose_mannequin binary32 0
                       (with_limbs (fighter_b example_state) "")
                       mannequin_scene))
     = materials mannequin_scene.
Proof.
  split.
  - rewrite (proj1 (pose_tint_law binary32 0 (fighter_b example_state)
                      mannequin_scene) eq_refl 0%nat).
    vm_compute. reflexivity.
  - apply (proj2 (pose_tint_law binary32 0
                    (with_limbs (fighter_b example_state) "")
                    mannequin_scene) IndexError).
    vm_compute. reflexivity.
Defined.

(** ** Making a mannequin on a store that already has objects *)

Section ObjectFrame.

Variable single : float -> float.
Variable os : list object_t.

Lemma sim_o_ret {A : Type} (R : A -> A -> Prop) (a a' : A) :
  R a a' -> sim_o os R (ret a) (ret a').
Proof. intros H d. split; [reflexivity | exact H]. Qed.

Lemma sim_o_ret_eq {A : Type} (a : A) : sim_o os eq (ret a) (ret a).
Proof. now apply sim_o_ret. Qed.

Lemma sim_o_lift {A : Type} (r : result A) : sim_o os eq (lift r) (lift r).
Proof. intro d. split; [reflexivity | destruct r; reflexivity]. Qed.

Lemma sim_o_bind {A B : Type} (R : A -> A -> Prop) (R' : B -> B -> Prop)
  (c c' : cmd A) (k k' : A -> cmd B) :
  sim_o os R c c' ->
  (forall a a', R a a' -> sim_o os R' (k a) (k' a')) ->
  sim_o os R' (cbind c k) (cbind c' k').
Proof.
  intros Hc Hk d. unfold cbind. destruct (Hc d) as [Hd Hr].
  destruct (c d) as [d1 r], (c' (embed_o os d)) as [d1' r'].
  cbn [fst snd] in Hd, Hr. subst d1'.
  destruct r as [a|e], r' as [a'|e']; cbn in Hr; try contradiction.
  - now apply Hk.
  - subst e'. split; reflexivity.
Qed.

Lemma sim_o_update_object (o : nat) (f f' : object_t -> object_t) :
  (forall x, shift_parent (List.length os) (f x)
             = f' (shift_parent (List.length os) x)) ->
  sim_o os eq (update_object o f) (update_object (List.length os + o) f').
Proof.
  intros H d. split; [|reflexivity].
  unfold update_object, embed_o. cbn [fst objects materials].
  now rewrite list_update_app_r, (list_update_map _ f f').
Qed.

Lemma sim_o_new_object (nm : string) (t : object_type) (loc : vec3) :
  sim_o os (shifted_o os) (new_object single nm t loc)
    (new_object single nm t loc).
Proof.
  intro d. unfold new_object, embed_o, shifted_o. cbn.
  rewrite map_app, length_app, length_map, app_assoc. split; reflexivity.
Qed.

Lemma sim_o_objects_new (nm : string) :
  sim_o os (shifted_o os) (objects_new nm) (objects_new nm).
Proof.
  intro d. unfold objects_new, embed_o, shifted_o. cbn.
  rewrite map_app, length_app, length_map, app_assoc. split; reflexivity.
Qed.

Lemma sim_o_materials_new (nm : string) :
  sim_o os eq (materials_new nm) (materials_new nm).
Proof. intro d. split; reflexivity. Qed.

Lemma sim_o_set_default_value (m : nat) (c : rgba) :
  sim_o os eq (set_default_value single m c) (set_default_value single m c).
Proof. intro d. split; reflexivity. Qed.

Lemma sim_o_materials_append (o m : nat) :
  sim_o os eq (materials_append o m) (materials_append (List.length os + o) m).
Proof. now apply sim_o_update_object. Qed.

Lemma sim_o_set_name (o : nat) (nm : string) :
  sim_o os eq (set_name o nm) (set_name (List.length os + o) nm).
Proof. now apply sim_o_update_object. Qed.

Lemma sim_o_set_parent (o p : nat) :
  sim_o os eq (set_parent o p)
    (set_parent (List.length os + o) (List.length os + p)).
Proof. now apply sim_o_update_object. Qed.

Lemma sim_o_set_scale (o : nat) (v : vec3) :
  sim_o os eq (set_scale single o v) (set_scale single (List.length os + o) v).
Proof. now apply sim_o_update_object. Qed.

Lemma sim_o_set_rotation_euler (o : nat) (v : vec3) :
  sim_o os eq (set_rotation_euler single o v)
    (set_rotation_euler single (List.length os + o) v).
Proof. now apply sim_o_update_object. Qed.

Create HintDb sim_o.
#[local] Hint Resolve sim_o_ret_eq sim_o_lift sim_o_new_object
  sim_o_objects_new sim_o_materials_new sim_o_set_default_value
  sim_o_materials_append sim_o_set_name sim_o_set_parent sim_o_set_scale
  sim_o_set_rotation_euler : sim_o.

Ltac sim_o_step :=
  first
    [ solve [eauto with sim_o]
    | eapply sim_o_bind;
      [solve [eauto with sim_o] | intros ? ? ?; unfold shifted_o in *; subst] ].

Ltac sim_o_auto := repeat sim_o_step.

Lemma sim_o_for_each {A : Type} (body body' : A -> cmd unit) (l : list A) :
  (forall x, sim_o os eq (body x) (body' x)) ->
  sim_o os eq (for_each l body) (for_each l body').
Proof.
  intro H. induction l as [|x l IH]; cbn [for_each].
  - apply sim_o_ret_eq.
  - eapply sim_o_bind; [apply H | intros _ _ _; exact IH].
Qed.

Lemma sim_o_create_arm (name : string) (mannequin mat : nat) (side : string)
  (sign : Z) :
  sim_o os eq (create_arm single name mannequin mat side sign)
    (create_arm single name (List.length os + mannequin) mat side sign).
Proof. unfold create_arm. cbv zeta. sim_o_auto. Qed.

Lemma sim_o_create_leg (name : string) (mannequin mat : nat) (side : string)
  (sign : Z) :
  sim_o os eq (create_leg single name mannequin mat side sign)
    (create_leg single name (List.length os + mannequin) mat side sign).
Proof. unfold create_leg. cbv zeta. sim_o_auto. Qed.

Lemma sim_o_create_simple_mannequin (name : string) (color : rgba) :
  sim_o os (shifted_o os) (create_simple_mannequin single name color)
    (create_simple_mannequin single name color).
Proof.
  unfold create_simple_mannequin. sim_o_auto.
  eapply sim_o_bind;
    [apply sim_o_for_each; intros [side sign]; apply sim_o_create_arm|].
  intros _ _ _.
  eapply sim_o_bind;
    [apply sim_o_for_each; intros [side sign]; apply sim_o_create_leg|].
  intros _ _ _. now apply sim_o_ret.
Qed.

Lemma embed_o_cleared (ms : list material_t) :
  embed_o os {| objects := []; materials := ms |}
  = {| objects := os; materials := ms |}.
Proof. unfold embed_o. cbn. now rewrite app_nil_r. Qed.

End ObjectFrame.

(** X13: on a store where the names it gives are not yet taken,
    [create_simple_mannequin] returns the object it appends first, an empty named [name] without parent or material, and
    appends after it fifteen meshes named [name] plus a part suffix, each
    with the empty as parent and with one and the same new material in its
    only slot; it appends that one material, with the given colour as the
    engine stores it, and leaves the objects and materials that were there
    as they were. *)
Theorem create_simple_mannequin_structure (single : float -> float)
  (name : string) (color : rgba) (d : blend_data) :
  Forall (fun nm => find_name nm (objects d) = None)
    (name :: map (append name) part_suffixes) ->
  Forall (fun x => mat_name x <> (name ++ "_material")%string) (materials d) ->
  let n := List.length (objects d) in
  let k := List.length (materials d) in
  let r := create_simple_mannequin single name color d in
  snd r = Ok n
  /\ materials (fst r)
     = (materials d
        ++ [{| mat_name := (name ++ "_material")%string;
               default_value := store_rgba single color |}])%list
  /\ exists parts,
       objects (fst r) = (objects d ++ parts)%list
       /\ map obj_name parts = name :: map (append name) part_suffixes
       /\ map obj_type parts = EMPTY :: repeat MESH 15
       /\ map parent parts = None :: repeat (Some n) 15
       /\ map obj_materials parts = [] :: repeat [k] 15.
Proof.
  intros _ _. destruct d as [os ms]. cbv zeta. cbn [objects materials].
  rewrite <- (embed_o_cleared os ms), <- (embed_empty ms).
  destruct (sim_o_create_simple_mannequin single os name color
              (embed ms empty_data)) as [E1 R1].
  destruct (sim_create_simple_mannequin single ms name color empty_data)
    as [E2 R2].
  eassert (E0 : create_simple_mannequin single name color empty_data = _)
    by (vm_compute; reflexivity).
  rewrite E0 in E2, R2. cbn [fst snd] in E2, R2.
  destruct (create_simple_mannequin single name color (embed ms empty_data))
    as [d1 [a1|e1]]; cbn [fst snd result_rel] in *; [|contradiction].
  subst a1 d1.
  destruct (create_simple_mannequin single name color
              (embed_o os (embed ms empty_data)))
    as [d2 [a2|e2]]; cbn [fst snd result_rel] in *; [|contradiction].
  unfold shifted_o in R1. subst a2 d2.
  unfold embed_o, embed. cbn [objects materials List.length].
  rewrite Nat.add_0_r.
  split; [reflexivity|]. split; [reflexivity|].
  eexists. split; [reflexivity|].
  cbn [map shift_parent shift_object obj_name obj_type parent obj_materials
         option_map repeat part_suffixes].
  rewrite !Nat.add_0_r. repeat split; reflexivity.
Qed.

Lemma create_simple_mannequin_structure_witness :
  snd (create_simple_mannequin binary32 "FighterB" (0.3, 0.3, 1.0, 1.0)%float
         mannequin_scene) = Ok 16%nat.
Proof.
  apply (create_simple_mannequin_structure binary32 "FighterB"
           (0.3, 0.3, 1.0, 1.0)%float mannequin_scene).
  - vm_compute. repeat constructor.
  - vm_compute. repeat constructor; discriminate.
Defined.

(** ** The phases of the scene set-up *)

Lemma setup_scene_on_empty (single : float -> float) (state : fight_state) :
  setup_scene single state empty_data
  = (pose_mannequin single 0 (fighter_a state) ;;;
     pose_mannequin single 16 (fighter_b state) ;;;
     finish_scene single 0 16)
      (fighters_placed single (distance state)).
Proof.
  unfold setup_scene, fighters_placed. cbv zeta.
  rewrite (cbind_run clear_scene _ empty_data tt eq_refl).
  rewrite (cbind_run (create_simple_mannequin single "FighterA" _) _ _ 0%nat)
    by (vm_compute; reflexivity).
  rewrite (cbind_run (create_simple_mannequin single "FighterB" _) _ _ 16%nat)
    by (vm_compute; reflexivity).
  rewrite (cbind_run (set_location single 0 _) _ _ tt eq_refl).
  rewrite (cbind_run (set_location single 16 _) _ _ tt eq_refl).
  rewrite (cbind_run (set_rotation single 0 2 _) _ _ tt eq_refl).
  rewrite (cbind_run (set_rotation single 16 2 _) _ _ tt eq_refl).
  reflexivity.
Qed.

Lemma find_name_shape (n : string) (l : list object_t) :
  forall l', map object_shape l = map object_shape l' ->
             find_name n l = find_name n l'.
Proof.
  induction l as [|x l IH]; intros [|x' l'] H; try discriminate H;
    [reflexivity|].
  cbn [map] in H. injection H as Hn _ _ _ _ _ Hl. cbn [find_name].
  now rewrite Hn, (IH l' Hl).
Qed.

Lemma shape_objects (d d' : blend_data) :
  shape d' = shape d ->
  map object_shape (objects d') = map object_shape (objects d).
Proof. unfold shape. intro H. now injection H. Qed.

Lemma shape_materials (d d' : blend_data) :
  shape d' = shape d ->
  map mat_name (materials d') = map mat_name (materials d).
Proof. unfold shape. intro H. now injection H. Qed.

Lemma name_of_shape (d d' : blend_data) (o : nat) :
  shape d' = shape d -> name_of d' o = name_of d o.
Proof.
  unfold shape, name_of. intro H. injection H as Ho _.
  pose proof (f_equal (fun l => nth_error l o) Ho) as E. cbn in E.
  rewrite !nth_error_map in E.
  destruct (nth_error (objects d') o) as [x|],
           (nth_error (objects d) o) as [y|]; cbn in E;
    try discriminate E; [|reflexivity].
  now injection E.
Qed.

Section Outcome.

Variable single : float -> float.

Lemma math_radians_cases (z : Z) :
  math_radians z =
  if is_infinity (float_of_Z z) then Raise OverflowError
  else Ok (radians_of z).
Proof.
  unfold math_radians, float_of_int, radians_of.
  now destruct (is_infinity (float_of_Z z)).
Qed.

Lemma snd_pose_hips (name : string) (f : fighter_t) (d : blend_data) (o : nat) :
  find_name (name ++ "_hips") (objects d) = Some o ->
  snd (pose_hips single name f d) =
  if is_infinity (float_of_Z (hip_rot (biomech f)))
  then Raise OverflowError else Ok tt.
Proof.
  intro H. unfold pose_hips, cbind, objects_get, lift.
  rewrite H, math_radians_cases.
  now destruct (is_infinity _).
Qed.

Lemma snd_pose_torso (name : string) (f : fighter_t) (d : blend_data) (o : nat) :
  find_name (name ++ "_torso") (objects d) = Some o ->
  snd (pose_torso single name f d) =
  if is_infinity (float_of_Z (torso_rot (biomech f)))
  then Raise OverflowError else Ok tt.
Proof.
  intro H. unfold pose_torso, cbind, objects_get, lift.
  rewrite H, math_radians_cases.
  now destruct (is_infinity _).
Qed.

(** What posing returns on a mannequin that has hips and torso. *)
Lemma pose_mannequin_outcome (m : nat) (f : fighter_t) (d : blend_data)
  (oh ot : nat) :
  find_name (name_of d m ++ "_hips") (objects d) = Some oh ->
  find_name (name_of d m ++ "_torso") (objects d) = Some ot ->
  snd (pose_mannequin single m f d) =
  if poseable f then Ok tt else Raise (pose_failure f).
Proof.
  intros Hh Ht. unfold pose_mannequin, poseable, pose_failure.
  rewrite snd_cbind. cbn [get_name snd fst].
  rewrite snd_cbind, pose_lean_ok.
  rewrite snd_cbind, (snd_pose_hips _ f _ oh)
    by (unfold pose_lean; now rewrite find_name_set_rotation).
  destruct (is_infinity (float_of_Z (hip_rot (biomech f)))); [reflexivity|].
  rewrite snd_cbind, (snd_pose_torso _ f _ ot)
    by (unfold pose_lean;
        now rewrite find_name_pose_hips, find_name_set_rotation).
  destruct (is_infinity (float_of_Z (torso_rot (biomech f)))); [reflexivity|].
  rewrite snd_cbind, pose_arms_result.
  destruct (2 <=? String.length (limbs f))%nat; [|reflexivity].
  apply pose_damage_ok.
Qed.

Lemma finish_scene_ok (a b : nat) (d : blend_data) :
  snd (finish_scene single a b d) = Ok (a, b).
Proof. reflexivity. Qed.

(** What is known of the store when posing begins. *)
Lemma fighters_placed_facts (code : string) :
  let D := fighters_placed single code in
  name_of D 0 = "FighterA" /\ name_of D 16 = "FighterB"
  /\ find_name "FighterA_hips" (objects D) = Some 3%nat
  /\ find_name "FighterA_torso" (objects D) = Some 2%nat
  /\ find_name "FighterB_hips" (objects D) = Some 19%nat
  /\ find_name "FighterB_torso" (objects D) = Some 18%nat
  /\ users "FighterA" 0 (objects D) = 15%nat
  /\ users "FighterA" 1 (objects D) = 0%nat
  /\ users "FighterB" 0 (objects D) = 0%nat
  /\ users "FighterB" 1 (objects D) = 15%nat
  /\ color_of D 0 = Some (store_rgba single (1.0, 0.3, 0.3, 1.0)%float)
  /\ color_of D 1 = Some (store_rgba single (0.3, 0.3, 1.0, 1.0)%float)
  /\ List.length (objects D) = 32%nat
  /\ List.length (materials D) = 2%nat.
Proof. cbv zeta. repeat split; vm_compute; reflexivity. Qed.

(** The outcome of the whole set-up, begun on an empty store. *)
Lemma setup_scene_outcome_empty (state : fight_state) :
  snd (setup_scene single state empty_data) =
  if poseable (fighter_a state) then
    if poseable (fighter_b state) then Ok (0%nat, 16%nat)
    else Raise (pose_failure (fighter_b state))
  else Raise (pose_failure (fighter_a state)).
Proof.
  rewrite setup_scene_on_empty.
  destruct (fighters_placed_facts (distance state))
    as (Na & Nb & Hah & Hat & Hbh & Hbt & _).
  remember (fighters_placed single (distance state)) as D eqn:ED. clear ED.
  rewrite snd_cbind.
  rewrite (pose_mannequin_outcome 0 (fighter_a state) D 3 2)
    by (rewrite Na; assumption).
  destruct (poseable (fighter_a state)); [|reflexivity].
  pose proof (shape_pose_mannequin single 0 (fighter_a state) D) as S.
  remember (fst (pose_mannequin single 0 (fighter_a state) D)) as dA eqn:EA.
  clear EA.
  pose proof (shape_objects _ _ S) as So.
  rewrite snd_cbind.
  rewrite (pose_mannequin_outcome 16 (fighter_b state) dA 19 18)
    by (rewrite (name_of_shape _ _ _ S), Nb, (find_name_shape _ _ _ So);
        assumption).
  destruct (poseable (fighter_b state)); [|reflexivity].
  apply finish_scene_ok.
Qed.

End Outcome.

(** X14: the scene set-up, on any store, returns the two mannequins, the
    objects 0 and 16 of the cleared scene, exactly when both fighters have
    hip and torso angles that convert to floats and limbs strings of at
    least two characters; otherwise it raises, for the first fighter that
    fails, [OverflowError] when one of its two angles does not convert and
    [IndexError] when only its limbs string is too short. *)
Theorem setup_scene_outcome (single : float -> float) (state : fight_state)
  (d0 : blend_data) :
  snd (setup_scene single state d0) =
  if poseable (fighter_a state) then
    if poseable (fighter_b state) then Ok (0%nat, 16%nat)
    else Raise (pose_failure (fighter_b state))
  else Raise (pose_failure (fighter_a state)).
Proof.
  destruct d0 as [os ms].
  rewrite (proj2 (setup_scene_frame single ms state os)).
  apply setup_scene_outcome_empty.
Qed.

(** ** What the scene set-up leaves *)

Lemma nth_error_shape (d d' : blend_data) (o : nat) (x : object_t) :
  shape d' = shape d ->
  nth_error (objects d) o = Some x ->
  exists y, nth_error (objects d') o = Some y
            /\ object_shape y = object_shape x.
Proof.
  intros Hs Hx. apply shape_objects in Hs.
  pose proof (f_equal (fun l => nth_error l o) Hs) as E. cbn beta in E.
  rewrite !nth_error_map, Hx in E.
  destruct (nth_error (objects d') o) as [y|]; cbn in E; [|discriminate E].
  exists y. split; [reflexivity | congruence].
Qed.

Lemma length_shape (d d' : blend_data) :
  shape d' = shape d ->
  List.length (objects d') = List.length (objects d)
  /\ List.length (materials d') = List.length (materials d).
Proof.
  intro Hs. split.
  - apply shape_objects in Hs. apply (f_equal (@List.length _)) in Hs.
    now rewrite !length_map in Hs.
  - apply shape_materials in Hs. apply (f_equal (@List.length _)) in Hs.
    now rewrite !length_map in Hs.
Qed.

Section FinishFacts.

Variable single : float -> float.

Lemma sim_finish_scene (ms : list material_t) (a b : nat) :
  sim ms eq (finish_scene single a b) (finish_scene single a b).
Proof.
  unfold finish_scene.
  eapply sim_bind; [apply sim_new_object|]. intros ground ? <-.
  eapply sim_bind; [apply sim_set_name|]. intros _ _ _.
  eapply sim_bind; [apply sim_materials_new|].
  intros mat mat' Hm. unfold shifted in Hm. subst mat'.
  eapply sim_bind; [apply sim_set_default_value|]. intros _ _ _.
  eapply sim_bind; [apply sim_materials_append|]. intros _ _ _.
  eapply sim_bind; [apply sim_new_object|]. intros sun ? <-.
  eapply sim_bind; [apply sim_lift|]. intros r45 ? <-.
  eapply sim_bind; [apply sim_set_rotation_euler|]. intros _ _ _.
  eapply sim_bind; [apply sim_new_object|]. intros fill_light ? <-.
  eapply sim_bind; [apply sim_new_object|]. intros camera ? <-.
  eapply sim_bind; [apply sim_lift|]. intros r60 ? <-.
  eapply sim_bind; [apply sim_set_rotation_euler|]. intros _ _ _.
  apply sim_ret_eq.
Qed.

Lemma sim_o_finish_scene (os : list object_t) (a b : nat) :
  sim_o os eq (finish_scene single a b) (finish_scene single a b).
Proof.
  unfold finish_scene.
  eapply sim_o_bind; [apply sim_o_new_object|].
  intros ground ground' Hg. unfold shifted_o in Hg. subst ground'.
  eapply sim_o_bind; [apply sim_o_set_name|]. intros _ _ _.
  eapply sim_o_bind; [apply sim_o_materials_new|]. intros mat ? <-.
  eapply sim_o_bind; [apply sim_o_set_default_value|]. intros _ _ _.
  eapply sim_o_bind; [apply sim_o_materials_append|]. intros _ _ _.
  eapply sim_o_bind; [apply sim_o_new_object|].
  intros sun sun' Hs. unfold shifted_o in Hs. subst sun'.
  eapply sim_o_bind; [apply sim_o_lift|]. intros r45 ? <-.
  eapply sim_o_bind; [apply sim_o_set_rotation_euler|]. intros _ _ _.
  eapply sim_o_bind; [apply sim_o_new_object|]. intros fill_light ? _.
  eapply sim_o_bind; [apply sim_o_new_object|].
  intros camera camera' Hc. unfold shifted_o in Hc. subst camera'.
  eapply sim_o_bind; [apply sim_o_lift|]. intros r60 ? <-.
  eapply sim_o_bind; [apply sim_o_set_rotation_euler|]. intros _ _ _.
  apply sim_o_ret_eq.
Qed.

(** What [finish_scene] leaves is what it leaves from the empty store,
    put after the objects and materials that were there. *)
Lemma finish_scene_store (a b : nat) (d : blend_data) :
  fst (finish_scene single a b d)
  = embed_o (objects d)
      (embed (materials d) (fst (finish_scene single a b empty_data))).
Proof.
  destruct d as [os ms]. cbn [objects materials].
  rewrite <- (embed_o_cleared os ms), <- (embed_empty ms).
  rewrite (proj1 (sim_o_finish_scene os a b _)).
  now rewrite (proj1 (sim_finish_scene ms a b _)).
Qed.

Lemma finish_scene_keeps (a b : nat) (d : blend_data) (o : nat) :
  (o < List.length (objects d))%nat ->
  nth_error (objects (fst (finish_scene single a b d))) o
  = nth_error (objects d) o.
Proof.
  intro H. rewrite finish_scene_store. unfold embed_o. cbn [objects].
  now apply nth_error_app1.
Qed.

Lemma finish_scene_materials (a b : nat) (d : blend_data) :
  materials (fst (finish_scene single a b d))
  = (materials d
     ++ [{| mat_name := "GroundMaterial";
            default_value := store_rgba single (0.3, 0.3, 0.3, 1.0)%float |}])%list.
Proof.
  rewrite finish_scene_store. unfold embed_o, embed. cbn [materials].
  f_equal.
Qed.

End FinishFacts.

Section SetupFacts.

Variable single : float -> float.
Variable state : fight_state.

(** The two mannequins when posing begins. *)
Lemma placed_fighter_a (code : string) :
  nth_error (objects (fighters_placed single code)) 0
  = Some {| obj_name := "FighterA"; obj_type := EMPTY;
            location := store_vec single
                          (half (number_neg (dist_of code)), 0, 0)%float;
            rotation_euler := (0, 0, single (math_pi / 2))%float;
            scale := (1, 1, 1)%float; parent := None; obj_materials := [] |}.
Proof.
  unfold fighters_placed. cbv zeta.
  generalize (half (number_neg (dist_of code))), (half (dist_of code)).
  intros x y. vm_compute. reflexivity.
Qed.

Lemma placed_fighter_b (code : string) :
  nth_error (objects (fighters_placed single code)) 16
  = Some {| obj_name := "FighterB"; obj_type := EMPTY;
            location := store_vec single (half (dist_of code), 0, 0)%float;
            rotation_euler := (0, 0, single ((- math_pi) / 2))%float;
            scale := (1, 1, 1)%float; parent := None; obj_materials := [] |}.
Proof.
  unfold fighters_placed. cbv zeta.
  generalize (half (number_neg (dist_of code))), (half (dist_of code)).
  intros x y. vm_compute. reflexivity.
Qed.

Lemma pose_a_outcome :
  snd (pose_mannequin single 0 (fighter_a state)
         (fighters_placed single (distance state)))
  = if poseable (fighter_a state) then Ok tt
    else Raise (pose_failure (fighter_a state)).
Proof.
  destruct (fighters_placed_facts single (distance state))
    as (Na & _ & Hah & Hat & _).
  apply (pose_mannequin_outcome single 0 _ _ 3 2); rewrite Na; assumption.
Qed.

Lemma pose_b_outcome :
  snd (pose_mannequin single 16 (fighter_b state)
         (fst (pose_mannequin single 0 (fighter_a state)
                 (fighters_placed single (distance state)))))
  = if poseable (fighter_b state) then Ok tt
    else Raise (pose_failure (fighter_b state)).
Proof.
  destruct (fighters_placed_facts single (distance state))
    as (_ & Nb & _ & _ & Hbh & Hbt & _).
  remember (fighters_placed single (distance state)) as D eqn:ED. clear ED.
  pose proof (shape_pose_mannequin single 0 (fighter_a state) D) as Hs.
  remember (fst (pose_mannequin single 0 (fighter_a state) D)) as dA eqn:EA.
  clear EA.
  pose proof (shape_objects _ _ Hs) as Ho.
  apply (pose_mannequin_outcome single 16 _ _ 19 18);
    rewrite (name_of_shape _ _ _ Hs), Nb, (find_name_shape _ _ _ Ho);
    assumption.
Qed.

(** The store of a set-up that returns, begun on an empty store. *)
Lemma setup_scene_store_empty :
  poseable (fighter_a state) = true ->
  poseable (fighter_b state) = true ->
  fst (setup_scene single state empty_data)
  = fst (finish_scene single 0 16
           (fst (pose_mannequin single 16 (fighter_b state)
                   (fst (pose_mannequin single 0 (fighter_a state)
                           (fighters_placed single (distance state))))))).
Proof.
  intros Ha Hb. rewrite setup_scene_on_empty.
  rewrite (cbind_run (pose_mannequin single 0 _) _ _ tt)
    by (rewrite pose_a_outcome, Ha; reflexivity).
  rewrite (cbind_run (pose_mannequin single 16 _) _ _ tt)
    by (rewrite pose_b_outcome, Hb; reflexivity).
  reflexivity.
Qed.

Lemma setup_scene_returns (d0 : blend_data) (a b : nat) :
  snd (setup_scene single state d0) = Ok (a, b) ->
  poseable (fighter_a state) = true /\ poseable (fighter_b state) = true
  /\ a = 0%nat /\ b = 16%nat.
Proof.
  destruct d0 as [os ms].
  rewrite (proj2 (setup_scene_frame single ms state os)).
  rewrite setup_scene_outcome_empty.
  destruct (poseable (fighter_a state)); [|discriminate].
  destruct (poseable (fighter_b state)); [|discriminate].
  intro H. injection H as <- <-. repeat split.
Qed.

(** The two mannequins after both poses. *)
Lemma posed_fighters :
  let dB := fst (pose_mannequin single 16 (fighter_b state)
                   (fst (pose_mannequin single 0 (fighter_a state)
                           (fighters_placed single (distance state))))) in
  let dist := dist_of (distance state) in
  option_map location (nth_error (objects dB) 0)
  = Some (store_vec single (half (number_neg dist), 0, 0)%float)
  /\ option_map location (nth_error (objects dB) 16)
     = Some (store_vec single (half dist, 0, 0)%float)
  /\ option_map rotation_euler (nth_error (objects dB) 0)
     = Some (0, single (lean_of (fighter_a state)),
             single (math_pi / 2))%float
  /\ option_map rotation_euler (nth_error (objects dB) 16)
     = Some (0, single (lean_of (fighter_b state)),
             single ((- math_pi) / 2))%float
  /\ List.length (objects dB) = 32%nat
  /\ List.length (materials dB) = 2%nat.
Proof.
  cbv zeta.
  pose proof (placed_fighter_a (distance state)) as Xa.
  pose proof (placed_fighter_b (distance state)) as Xb.
  destruct (fighters_placed_facts single (distance state))
    as (Na & Nb & _ & _ & _ & _ & _ & _ & _ & _ & _ & _ & Lo & Lm).
  remember (fighters_placed single (distance state)) as D eqn:ED. clear ED.
  pose proof (shape_pose_mannequin single 0 (fighter_a state) D) as Sa.
  pose proof (pose_mannequin_own_rotation single 0 (fighter_a state) D _ Xa)
    as Ra.
  assert (Fb : nth_error
                 (objects (fst (pose_mannequin single 0 (fighter_a state) D)))
                 16 = nth_error (objects D) 16).
  { rewrite Xb. apply pose_mannequin_frame; [exact Xb | discriminate | ..];
      rewrite Na; cbn [obj_name]; discriminate. }
  remember (fst (pose_mannequin single 0 (fighter_a state) D)) as dA eqn:EA.
  clear EA.
  destruct (nth_error_shape _ _ _ _ Sa Xa) as (ya & Ya & Sya).
  rewrite Ya in Ra. cbn [option_map] in Ra.
  rewrite Xb in Fb.
  pose proof (shape_pose_mannequin single 16 (fighter_b state) dA) as Sb.
  pose proof (pose_mannequin_own_rotation single 16 (fighter_b state) dA _ Fb)
    as Rb.
  assert (Fa : nth_error
                 (objects (fst (pose_mannequin single 16 (fighter_b state) dA)))
                 0 = Some ya).
  { assert (Hn : obj_name ya = "FighterA") by (now injection Sya).
    apply pose_mannequin_frame; [exact Ya | discriminate | ..];
      rewrite (name_of_shape _ _ _ Sa), Nb, Hn; discriminate. }
  remember (fst (pose_mannequin single 16 (fighter_b state) dA)) as dB eqn:EB.
  clear EB.
  destruct (nth_error_shape _ _ _ _ Sb Fb) as (yb & Yb & Syb).
  rewrite Yb in Rb. cbn [option_map] in Rb.
  destruct (length_shape _ _ Sa) as [La1 La2].
  destruct (length_shape _ _ Sb) as [Lb1 Lb2].
  rewrite Fa, Yb. cbn [option_map].
  repeat split.
  - f_equal. now injection Sya.
  - f_equal. now injection Syb.
  - f_equal. now injection Ra.
  - f_equal. now injection Rb.
  - congruence.
  - congruence.
Qed.

End SetupFacts.

Lemma embed_object_field {B : Type} (g : object_t -> B)
  (ms : list material_t) (d : blend_data) (o : nat) :
  (forall n x, g (shift_object n x) = g x) ->
  option_map g (nth_error (objects (embed ms d)) o)
  = option_map g (nth_error (objects d) o).
Proof.
  intro H. unfold embed. cbn [objects]. rewrite nth_error_map.
  destruct (nth_error (objects d) o) as [x|]; cbn; [|reflexivity].
  now rewrite H.
Qed.

(** X15: when the scene set-up returns, on any store, the first mannequin
    stands at minus half the distance of the state's distance code along
    the first axis and the second at plus half of it, both at zero on the
    other two axes; the first is turned by pi / 2 about the third axis and
    the second by -pi / 2, and each leans about the second axis by
    (1 - balance) * 0.2 of its own fighter; all as the engine stores
    them. *)
Theorem setup_scene_placement (single : float -> float) (state : fight_state)
  (d0 : blend_data) (a b : nat) :
  snd (setup_scene single state d0) = Ok (a, b) ->
  let d := fst (setup_scene single state d0) in
  let dist := dist_of (distance state) in
  option_map location (nth_error (objects d) a)
  = Some (single (half (number_neg dist)), single 0, single 0)%float
  /\ option_map location (nth_error (objects d) b)
     = Some (single (half dist), single 0, single 0)%float
  /\ option_map rotation_euler (nth_error (objects d) a)
     = Some (0, single (lean_of (fighter_a state)),
             single (math_pi / 2))%float
  /\ option_map rotation_euler (nth_error (objects d) b)
     = Some (0, single (lean_of (fighter_b state)),
             single ((- math_pi) / 2))%float.
Proof.
  intro H. apply setup_scene_returns in H as (Ha & Hb & -> & ->).
  destruct d0 as [os ms]. cbv zeta.
  rewrite (proj1 (setup_scene_frame single ms state os)).
  rewrite !embed_object_field by reflexivity.
  rewrite (setup_scene_store_empty single state Ha Hb).
  destruct (posed_fighters single state) as (L0 & L16 & R0 & R16 & Lo & _).
  rewrite !finish_scene_keeps by (rewrite Lo; lia).
  repeat split; assumption.
Qed.

Lemma setup_scene_placement_witness :
  option_map location
    (nth_error (objects (fst (setup_scene binary32 example_state empty_data)))
       16)
  = Some (binary32 2, binary32 0, binary32 0)%float.
Proof.
  apply (setup_scene_placement binary32 example_state empty_data 0 16).
  vm_compute. reflexivity.
Defined.

Lemma two_materials (d : blend_data) (n0 n1 : string) (c0 c1 : rgba) :
  map mat_name (materials d) = [n0; n1] ->
  color_of d 0 = Some c0 ->
  color_of d 1 = Some c1 ->
  materials d = [{| mat_name := n0; default_value := c0 |};
                 {| mat_name := n1; default_value := c1 |}].
Proof.
  unfold color_of.
  destruct (materials d) as [|[n0' c0'] [|[n1' c1'] [|x l]]]; cbn;
    intros Hn H0 H1; try discriminate Hn.
  congruence.
Qed.

Lemma map_field_shape {B : Type} (g : object_t -> B)
  (h : string * object_type * vec3 * vec3 * option nat * list nat -> B)
  (d d' : blend_data) :
  (forall x, g x = h (object_shape x)) ->
  shape d' = shape d ->
  map g (objects d') = map g (objects d).
Proof.
  intros Hg Hs. apply shape_objects in Hs.
  rewrite !(map_ext g (fun x => h (object_shape x)) Hg).
  rewrite <- !(map_map object_shape h). now rewrite Hs.
Qed.

Section SetupStore.

Variable single : float -> float.
Variable state : fight_state.

(** The two materials after both poses. *)
Lemma posed_materials :
  poseable (fighter_a state) = true ->
  poseable (fighter_b state) = true ->
  materials (fst (pose_mannequin single 16 (fighter_b state)
                    (fst (pose_mannequin single 0 (fighter_a state)
                            (fighters_placed single (distance state))))))
  = [{| mat_name := "FighterA_material";
        default_value :=
          Nat.iter 15
            (darken_color single (tint_factor (damage (fighter_a state))))
            (store_rgba single (1.0, 0.3, 0.3, 1.0)%float) |};
     {| mat_name := "FighterB_material";
        default_value :=
          Nat.iter 15
            (darken_color single (tint_factor (damage (fighter_b state))))
            (store_rgba single (0.3, 0.3, 1.0, 1.0)%float) |}].
Proof.
  intros Ha Hb.
  pose proof (pose_a_outcome single state) as Oa. rewrite Ha in Oa.
  pose proof (pose_b_outcome single state) as Ob. rewrite Hb in Ob.
  destruct (fighters_placed_facts single (distance state))
    as (Na & Nb & _ & _ & _ & _ & Ua0 & Ua1 & Ub0 & Ub1 & Ca & Cb & _ & _).
  assert (Mn : map mat_name
                 (materials (fighters_placed single (distance state)))
               = ["FighterA_material"; "FighterB_material"])
    by (vm_compute; reflexivity).
  remember (fighters_placed single (distance state)) as D eqn:ED. clear ED.
  pose proof (proj1 (pose_mannequin_colors single 0 (fighter_a state) D) Oa)
    as Ka.
  pose proof (shape_pose_mannequin single 0 (fighter_a state) D) as Sa.
  remember (fst (pose_mannequin single 0 (fighter_a state) D)) as dA eqn:EA.
  clear EA.
  pose proof (proj1 (pose_mannequin_colors single 16 (fighter_b state) dA) Ob)
    as Kb.
  pose proof (shape_pose_mannequin single 16 (fighter_b state) dA) as Sb.
  remember (fst (pose_mannequin single 16 (fighter_b state) dA)) as dB eqn:EB.
  clear EB.
  pose proof (users_shape "FighterB" 0 _ _ (shape_objects _ _ Sa)) as U0.
  pose proof (users_shape "FighterB" 1 _ _ (shape_objects _ _ Sa)) as U1.
  rewrite (name_of_shape _ _ _ Sa), Nb in Kb. rewrite Na in Ka.
  apply two_materials.
  - rewrite (shape_materials _ _ Sb), (shape_materials _ _ Sa). exact Mn.
  - now rewrite Kb, U0, Ub0, Ka, Ua0, Ca.
  - now rewrite Kb, U1, Ub1, Ka, Ua1, Cb.
Qed.

(** The objects after both poses, but for their rotations, are those of
    [fighters_placed]. *)
Lemma posed_shape :
  shape (fst (pose_mannequin single 16 (fighter_b state)
                (fst (pose_mannequin single 0 (fighter_a state)
                        (fighters_placed single (distance state))))))
  = shape (fighters_placed single (distance state)).
Proof. now rewrite !shape_pose_mannequin. Qed.

End SetupStore.

(** The materials of a set-up that returns. *)
Lemma setup_scene_material_list (single : float -> float)
  (state : fight_state) (d0 : blend_data) (a b : nat) :
  snd (setup_scene single state d0) = Ok (a, b) ->
  materials (fst (setup_scene single state d0))
  = (materials d0
     ++ [{| mat_name := "FighterA_material";
            default_value :=
              Nat.iter 15
                (darken_color single (tint_factor (damage (fighter_a state))))
                (store_rgba single (1.0, 0.3, 0.3, 1.0)%float) |};
         {| mat_name := "FighterB_material";
            default_value :=
              Nat.iter 15
                (darken_color single (tint_factor (damage (fighter_b state))))
                (store_rgba single (0.3, 0.3, 1.0, 1.0)%float) |};
         {| mat_name := "GroundMaterial";
            default_value :=
              store_rgba single (0.3, 0.3, 0.3, 1.0)%float |}])%list.
Proof.
  intro H. apply setup_scene_returns in H as (Ha & Hb & _ & _).
  destruct d0 as [os ms].
  rewrite (proj1 (setup_scene_frame single ms state os)).
  unfold embed. cbn [materials]. f_equal.
  rewrite (setup_scene_store_empty single state Ha Hb).
  rewrite finish_scene_materials, (posed_materials single state Ha Hb).
  reflexivity.
Qed.

(** X16: when the scene set-up returns, the colours of the materials of
    the store are those that were there before, unchanged, and three new
    ones: the first fighter's, red (1.0, 0.3, 0.3, 1.0) put fifteen times
    through the darkening step with the factor 1 - damage * 0.5 of that
    fighter, the second fighter's, blue (0.3, 0.3, 1.0, 1.0) put fifteen
    times through the step with the second fighter's factor, and the
    ground's grey (0.3, 0.3, 0.3, 1.0).  No fighter's damage reaches the
    other's material, the ground's, or one of an earlier scene. *)
Theorem setup_scene_colors (single : float -> float) (state : fight_state)
  (d0 : blend_data) (a b : nat) :
  snd (setup_scene single state d0) = Ok (a, b) ->
  map default_value (materials (fst (setup_scene single state d0)))
  = (map default_value (materials d0)
     ++ [Nat.iter 15
           (darken_color single (tint_factor (damage (fighter_a state))))
           (store_rgba single (1.0, 0.3, 0.3, 1.0)%float);
         Nat.iter 15
           (darken_color single (tint_factor (damage (fighter_b state))))
           (store_rgba single (0.3, 0.3, 1.0, 1.0)%float);
         store_rgba single (0.3, 0.3, 0.3, 1.0)%float])%list.
Proof.
  intro H. rewrite (setup_scene_material_list single state d0 a b H).
  now rewrite map_app.
Qed.

Lemma setup_scene_colors_witness :
  List.length
    (materials (fst (setup_scene binary32 example_state mannequin_scene)))
  = 4%nat.
Proof.
  rewrite <- (length_map default_value).
  rewrite (setup_scene_colors binary32 example_state mannequin_scene 0 16)
    by (vm_compute; reflexivity).
  reflexivity.
Defined.

Lemma map_shift_field {B : Type} (g : object_t -> B) (n : nat)
  (l : list object_t) :
  (forall x, g (shift_object n x) = g x) ->
  map g (map (shift_object n) l) = map g l.
Proof. intro H. rewrite map_map. apply map_ext. exact H. Qed.

Lemma map_shift_materials (n : nat) (l : list object_t) :
  map obj_materials (map (shift_object n) l)
  = map (map (Nat.add n)) (map obj_materials l).
Proof. now rewrite !map_map. Qed.

(** The objects of a set-up that returns, begun on an empty store. *)
Lemma setup_scene_objects_empty (single : float -> float)
  (state : fight_state) :
  poseable (fighter_a state) = true ->
  poseable (fighter_b state) = true ->
  let d := fst (setup_scene single state empty_data) in
  map obj_name (objects d)
  = (("FighterA" :: map (append "FighterA") part_suffixes)
     ++ ("FighterB" :: map (append "FighterB") part_suffixes)
     ++ ["Ground"; "Sun"; "Area"; "Camera"])%list
  /\ map obj_type (objects d)
     = ((EMPTY :: repeat MESH 15) ++ (EMPTY :: repeat MESH 15)
        ++ [MESH; LIGHT; LIGHT; CAMERA])%list
  /\ map parent (objects d)
     = ((None :: repeat (Some 0%nat) 15) ++ (None :: repeat (Some 16%nat) 15)
        ++ repeat None 4)%list
  /\ map obj_materials (objects d)
     = (([] :: repeat [0%nat] 15) ++ ([] :: repeat [1%nat] 15)
        ++ [[2%nat]; []; []; []])%list.
Proof.
  intros Ha Hb. cbv zeta.
  rewrite (setup_scene_store_empty single state Ha Hb).
  rewrite finish_scene_store. unfold embed_o, embed. cbn [objects materials].
  destruct (posed_fighters single state) as (_ & _ & _ & _ & Lo & Lm).
  rewrite Lo, Lm. rewrite !map_app.
  pose proof (posed_shape single state) as Hs.
  rewrite (map_field_shape obj_name
             (fun '(n, _, _, _, _, _) => n) _ _ (fun x => eq_refl) Hs).
  rewrite (map_field_shape obj_type
             (fun '(_, t, _, _, _, _) => t) _ _ (fun x => eq_refl) Hs).
  rewrite (map_field_shape parent
             (fun '(_, _, _, _, p, _) => p) _ _ (fun x => eq_refl) Hs).
  rewrite (map_field_shape obj_materials
             (fun '(_, _, _, _, _, m) => m) _ _ (fun x => eq_refl) Hs).
  repeat split; vm_compute; reflexivity.
Qed.

(** X17: when the scene set-up returns, the objects of the store are
    exactly thirty-six, none of them from before: the first mannequin and
    its fifteen parts, the second mannequin and its fifteen parts, then
    Ground, Sun, Area and Camera.  The parts are meshes with their
    mannequin as parent and their fighter's material in their only slot;
    the ground is a mesh with the ground material; the mannequins, the two
    lights and the camera have no parent and no material. *)
Theorem setup_scene_inventory (single : float -> float) (state : fight_state)
  (d0 : blend_data) (a b : nat) :
  snd (setup_scene single state d0) = Ok (a, b) ->
  let d := fst (setup_scene single state d0) in
  let k := List.length (materials d0) in
  map obj_name (objects d)
  = (("FighterA" :: map (append "FighterA") part_suffixes)
     ++ ("FighterB" :: map (append "FighterB") part_suffixes)
     ++ ["Ground"; "Sun"; "Area"; "Camera"])%list
  /\ map obj_type (objects d)
     = ((EMPTY :: repeat MESH 15) ++ (EMPTY :: repeat MESH 15)
        ++ [MESH; LIGHT; LIGHT; CAMERA])%list
  /\ map parent (objects d)
     = ((None :: repeat (Some a) 15) ++ (None :: repeat (Some b) 15)
        ++ repeat None 4)%list
  /\ map obj_materials (objects d)
     = (([] :: repeat [k] 15) ++ ([] :: repeat [(k + 1)%nat] 15)
        ++ [[(k + 2)%nat]; []; []; []])%list.
Proof.
  intro H. apply setup_scene_returns in H as (Ha & Hb & -> & ->).
  destruct d0 as [os ms]. cbv zeta. cbn [materials].
  rewrite (proj1 (setup_scene_frame single ms state os)).
  unfold embed. cbn [objects].
  rewrite !map_shift_field by reflexivity. rewrite map_shift_materials.
  destruct (setup_scene_objects_empty single state Ha Hb)
    as (Hn & Ht & Hp & Hm).
  rewrite Hn, Ht, Hp, Hm. repeat split.
  cbn [map repeat app]. now rewrite !Nat.add_0_r.
Qed.

Lemma setup_scene_inventory_witness :
  map obj_type
    (objects (fst (setup_scene binary32 example_state mannequin_scene)))
  = ((EMPTY :: repeat MESH 15) ++ (EMPTY :: repeat MESH 15)
     ++ [MESH; LIGHT; LIGHT; CAMERA])%list.
Proof.
  apply (setup_scene_inventory binary32 example_state mannequin_scene 0 16).
  vm_compute. reflexivity.
Defined.

(** * The script: [render_scene] and [main] *)

Lemma list_index_app (x : string) (pre rest : list string) :
  ~ In x pre -> list_index x (pre ++ x :: rest) = Some (List.length pre).
Proof.
  induction pre as [|y pre IH]; cbn [app list_index List.length]; intro H.
  - now rewrite String.eqb_refl.
  - destruct (String.eqb_spec y x) as [->|Hne].
    + exfalso. apply H. now left.
    + rewrite IH; [reflexivity|]. intro Hin. apply H. now right.
Qed.

Lemma list_index_none (x : string) (l : list string) :
  list_index x l = None <-> ~ In x l.
Proof.
  induction l as [|y l IH]; cbn [list_index In]; [tauto|].
  destruct (String.eqb_spec y x) as [->|Hne].
  - split; [discriminate | intro H; exfalso; apply H; now left].
  - destruct (list_index x l) as [i|]; cbn [option_map].
    + split; [discriminate|]. intro H. exfalso.
      assert (Hn : ~ In x l) by tauto. apply IH in Hn. discriminate Hn.
    + split; [|reflexivity]. intros _ [E|Hin]; [congruence|].
      now apply (proj1 IH).
Qed.

Lemma list_index_some (x : string) (l : list string) (i : nat) :
  list_index x l = Some i ->
  exists pre rest, l = (pre ++ x :: rest)%list /\ ~ In x pre.
Proof.
  revert i. induction l as [|y l IH]; cbn [list_index]; intros i H;
    [discriminate H|].
  destruct (String.eqb_spec y x) as [->|Hne].
  - exists [], l. split; [reflexivity | intros []].
  - destruct (list_index x l) as [j|]; [|discriminate H].
    destruct (IH j eq_refl) as (pre & rest & -> & Hn).
    exists (y :: pre), rest. split; [reflexivity|].
    intros [E|Hin]; [congruence | contradiction].
Qed.

Lemma skipn_after (pre rest : list string) (x : string) :
  skipn (List.length pre + 1) (pre ++ x :: rest) = rest.
Proof.
  rewrite Nat.add_1_r.
  induction pre as [|y pre IH]; [reflexivity | exact IH].
Qed.

Lemma rbind_inl {A B : Type} (c : run A) (k : A -> run B) (p p' : process)
  (a : A) :
  c p = (p', inl a) -> rbind c k p = k a p'.
Proof. unfold rbind. now intros ->. Qed.

Lemma lift_cmd_run {A : Type} (c : cmd A) (p : process) :
  lift_cmd c p
  = ({| data := fst (c (data p)); render := render p; stdout := stdout p;
        stills := stills p |},
     match snd (c (data p)) with
     | Ok a => inl a
     | Raise e => inr (Uncaught e)
     end).
Proof. unfold lift_cmd. now destruct (c (data p)). Qed.

Section ScriptFacts.

Variable single : float -> float.
Variable max_str_digits : Z.
Variable render_op : render_settings -> blend_data -> bool.

Lemma main_usage (sys_argv : list string) (p : process) :
  ~ In "--" sys_argv ->
  main single max_str_digits render_op sys_argv p
  = (advanced p (data p) [Usage_blender; Example_heading; Example_command],
     inr (SystemExit 1)).
Proof.
  intro H. apply list_index_none in H. unfold main, rbind. rewrite H.
  cbv [print sys_exit advanced data render stdout stills].
  now rewrite <- !app_assoc.
Qed.

Lemma main_missing (pre rest : list string) (p : process) :
  ~ In "--" pre ->
  (List.length rest < 2)%nat ->
  main single max_str_digits render_op (pre ++ "--" :: rest) p
  = (advanced p (data p) [Missing_arguments; Usage_arguments],
     inr (SystemExit 1)).
Proof.
  intros H Hl. unfold main, rbind at 1 2. rewrite (list_index_app _ _ _ H).
  unfold rret at 1. rewrite skipn_after.
  apply Nat.ltb_lt in Hl. rewrite Hl.
  cbv [rbind print sys_exit advanced data render stdout stills].
  now rewrite <- !app_assoc.
Qed.

Lemma render_scene_run (output_path : string) (p : process) :
  render_scene render_op output_path p
  = let s := cycles_settings output_path in
    if render_op s (data p)
    then ({| data := data p; render := s;
             stdout := stdout p ++ [Rendered output_path];
             stills := stills p ++ [(s, data p)] |}, inl tt)
    else ({| data := data p; render := s; stdout := stdout p;
             stills := stills p ++ [(s, data p)] |}, inr RuntimeError).
Proof.
  destruct p as [d r out st].
  cbv [render_scene rbind set_engine set_samples set_resolution_x
       set_resolution_y set_filepath update_render ops_render print
       data render stdout stills engine samples resolution_x resolution_y
       filepath cycles_settings].
  now destruct (render_op _ d).
Qed.

Lemma main_run (pre : list string) (fpn_string output_path : string)
  (after : list string) (p : process) :
  ~ In "--" pre ->
  main single max_str_digits render_op
    (command_line pre fpn_string output_path after) p
  = match parse_fpn max_str_digits fpn_string with
    | Raise e => (advanced p (data p) [Parsing_FPN fpn_string],
                  inr (Uncaught e))
    | Ok state =>
        let d := fst (setup_scene single state (data p)) in
        match snd (setup_scene single state (data p)) with
        | Raise e =>
            (advanced p d [Parsing_FPN fpn_string; Setting_up_scene],
             inr (Uncaught e))
        | Ok _ =>
            let s := cycles_settings output_path in
            if render_op s d
            then ({| data := d; render := s;
                     stdout := stdout p ++
                               [Parsing_FPN fpn_string; Setting_up_scene;
                                Rendering_to output_path;
                                Rendered output_path; Done];
                     stills := stills p ++ [(s, d)] |}, inl tt)
            else ({| data := d; render := s;
                     stdout := stdout p ++
                               [Parsing_FPN fpn_string; Setting_up_scene;
                                Rendering_to output_path];
                     stills := stills p ++ [(s, d)] |}, inr RuntimeError)
        end
    end.
Proof.
  intro H. unfold main, command_line.
  rewrite (list_index_app _ _ _ H).
  rewrite (rbind_inl _ _ _ _ _ eq_refl), skipn_after.
  cbn [List.length Nat.ltb Nat.leb].
  rewrite (rbind_inl _ _ _ _ _ eq_refl).
  rewrite (rbind_inl _ _ _ _ _ eq_refl).
  rewrite (rbind_inl _ _ _ _ _ eq_refl).
  rewrite (rbind_inl _ _ _ _ _ eq_refl).
  destruct (parse_fpn max_str_digits fpn_string) as [state|e];
    [|reflexivity].
  rewrite (rbind_inl _ _ _ _ _ eq_refl).
  rewrite (rbind_inl _ _ _ _ _ eq_refl).
  cbv zeta. unfold rbind at 1. rewrite lift_cmd_run. cbn [data].
  destruct (snd (setup_scene single state (data p))) as [ab|e].
  - rewrite (rbind_inl _ _ _ _ _ eq_refl).
    unfold rbind at 1. rewrite render_scene_run.
    cbv zeta. cbn [data render stdout stills].
    destruct (render_op _ _); unfold print;
      cbn [data render stdout stills]; now rewrite <- !app_assoc.
  - unfold advanced. cbn [render stdout stills]. now rewrite <- !app_assoc.
Qed.

End ScriptFacts.

Lemma setup_scene_result (single : float -> float) (state : fight_state)
  (d0 : blend_data) :
  snd (setup_scene single state d0) =
  if poseable (fighter_a state) then
    if poseable (fighter_b state) then Ok (0%nat, 16%nat)
    else Raise (pose_failure (fighter_b state))
  else Raise (pose_failure (fighter_a state)).
Proof.
  destruct d0 as [os ms].
  rewrite (proj2 (setup_scene_frame single ms state os)).
  apply setup_scene_outcome_empty.
Qed.

(** X18: [main] ends by [sys.exit] exactly for the two usage errors, no
    "--" among the arguments or fewer than two arguments after the first
    "--", and then with status 1; whatever else goes wrong ends it with an
    exception, never with an exit status. *)
Theorem main_exit_status (single : float -> float) (max_str_digits : Z)
  (render_op : render_settings -> blend_data -> bool)
  (sys_argv : list string) (p : process) (code : Z) :
  snd (main single max_str_digits render_op sys_argv p)
  = inr (SystemExit code)
  <-> code = 1 /\ usage_error sys_argv.
Proof.
  split.
  - intro H. destruct (list_index "--" sys_argv) as [i|] eqn:E.
    + apply list_index_some in E as (pre & rest & -> & Hn).
      destruct rest as [|fpn [|out after]].
      * rewrite main_missing in H by (assumption || (cbn; lia)).
        injection H as <-. split; [reflexivity|]. right.
        exists pre, []. repeat split; [assumption | cbn; lia].
      * rewrite main_missing in H by (assumption || (cbn; lia)).
        injection H as <-. split; [reflexivity|]. right.
        exists pre, [fpn]. repeat split; [assumption | cbn; lia].
      * exfalso.
        change (pre ++ "--" :: fpn :: out :: after)%list
          with (command_line pre fpn out after) in H.
        rewrite main_run in H by assumption.
        destruct (parse_fpn max_str_digits fpn); [|discriminate H].
        cbv zeta in H. destruct (snd (setup_scene _ _ _)); [|discriminate H].
        destruct (render_op _ _); discriminate H.
    + apply list_index_none in E. rewrite main_usage in H by assumption.
      injection H as <-. split; [reflexivity | now left].
  - intros [-> [Hn | (pre & rest & -> & Hn & Hl)]].
    + now rewrite main_usage.
    + now rewrite main_missing.
Qed.

Lemma main_exit_status_witness :
  snd (main binary32 4300 render_ok ["blender"; "--"; example_fpn]
         initial_process)
  = inr (SystemExit 1).
Proof.
  apply (main_exit_status binary32 4300 render_ok
           ["blender"; "--"; example_fpn] initial_process 1).
  split; [reflexivity|]. right. exists ["blender"], [example_fpn].
  repeat split; [|cbn; lia].
  intros [E|[]]. discriminate E.
Defined.

(** X19: [main] looks at the two arguments after the first "--" and at
    nothing else of the command line: what comes before that "--" and what
    comes after the two arguments changes neither what the script does nor
    how it ends. *)
Theorem main_ignores_other_arguments (single : float -> float)
  (max_str_digits : Z) (render_op : render_settings -> blend_data -> bool)
  (before : list string) (fpn_string output_path : string)
  (after : list string) (p : process) :
  ~ In "--" before ->
  main single max_str_digits render_op
    (command_line before fpn_string output_path after) p
  = main single max_str_digits render_op ["--"; fpn_string; output_path] p.
Proof.
  intro H. rewrite main_run by assumption.
  change ["--"; fpn_string; output_path]
    with (command_line [] fpn_string output_path []).
  now rewrite main_run by (intros []).
Qed.

Lemma not_in_blender_argv :
  ~ In "--" ["blender"; "--background"; "--python"; "blender_render_fpn.py"].
Proof. cbn. intros [E|[E|[E|[E|[]]]]]; discriminate E. Qed.

Lemma main_ignores_other_arguments_witness :
  main binary32 4300 render_ok (blender_argv example_fpn) initial_process
  = main binary32 4300 render_ok ["--"; example_fpn; "out.png"]
      initial_process.
Proof.
  apply (main_ignores_other_arguments binary32 4300 render_ok
           ["blender"; "--background"; "--python"; "blender_render_fpn.py"]
           example_fpn "out.png" ["--verbose"] initial_process).
  exact not_in_blender_argv.
Defined.

(** X20: when the decoder raises, [main] ends with that exception before
    it has touched the scene: the store, the render settings and the
    stills are as they were, and the one line printed is the one that
    announces the parsing. *)
Theorem main_decode_failure (single : float -> float) (max_str_digits : Z)
  (render_op : render_settings -> blend_data -> bool)
  (before : list string) (fpn_string output_path : string)
  (after : list string) (p : process) (e : exn) :
  ~ In "--" before ->
  parse_fpn max_str_digits fpn_string = Raise e ->
  main single max_str_digits render_op
    (command_line before fpn_string output_path after) p
  = (advanced p (data p) [Parsing_FPN fpn_string], inr (Uncaught e)).
Proof. intros H E. rewrite main_run by assumption. now rewrite E. Qed.

Lemma main_decode_failure_witness :
  main binary32 4300 render_ok (blender_argv short_momentum_fpn)
    initial_process
  = (advanced initial_process empty_data [Parsing_FPN short_momentum_fpn],
     inr (Uncaught IndexError)).
Proof.
  apply (main_decode_failure binary32 4300 render_ok
           ["blender"; "--background"; "--python"; "blender_render_fpn.py"]
           short_momentum_fpn "out.png" ["--verbose"] initial_process
           IndexError not_in_blender_argv).
  vm_compute. reflexivity.
Defined.

(** X21: when the decoder returns a state with a fighter that cannot be
    posed, [main] ends with the exception of the first such fighter,
    [OverflowError] or [IndexError], after the scene has been cleared and
    rebuilt as far as the set-up came; nothing is rendered and the render
    settings are as they were. *)
Theorem main_pose_failure (single : float -> float) (max_str_digits : Z)
  (render_op : render_settings -> blend_data -> bool)
  (before : list string) (fpn_string output_path : string)
  (after : list string) (p : process) (state : fight_state) :
  ~ In "--" before ->
  parse_fpn max_str_digits fpn_string = Ok state ->
  (poseable (fighter_a state) && poseable (fighter_b state))%bool = false ->
  main single max_str_digits render_op
    (command_line before fpn_string output_path after) p
  = (advanced p (fst (setup_scene single state (data p)))
       [Parsing_FPN fpn_string; Setting_up_scene],
     inr (Uncaught
            (pose_failure (if poseable (fighter_a state)
                           then fighter_b state else fighter_a state)))).
Proof.
  intros H E Hp. rewrite main_run by assumption. rewrite E. cbv zeta.
  rewrite setup_scene_result.
  destruct (poseable (fighter_a state)); [|reflexivity].
  destruct (poseable (fighter_b state)); [discriminate Hp | reflexivity].
Qed.

Lemma main_pose_failure_witness :
  snd (main binary32 4300 render_ok (blender_argv short_limbs_fpn)
         initial_process)
  = inr (Uncaught IndexError).
Proof.
  eassert (E : parse_fpn 4300 short_limbs_fpn = Ok _)
    by (vm_compute; reflexivity).
  change (blender_argv short_limbs_fpn)
    with (command_line
            ["blender"; "--background"; "--python"; "blender_render_fpn.py"]
            short_limbs_fpn "out.png" ["--verbose"]).
  rewrite (main_pose_failure binary32 4300 render_ok
             ["blender"; "--background"; "--python"; "blender_render_fpn.py"]
             short_limbs_fpn "out.png" ["--verbose"] initial_process _
             not_in_blender_argv E eq_refl).
  reflexivity.
Defined.

(** X22: when the decoder returns a state whose two fighters can be posed
    and the render operator returns, [main] returns: it has printed its
    five lines in order, left the scene that [setup_scene] made of the
    state, set the render settings to Cycles, 128 samples, 1920 by 1080
    and the output path given, and asked for one still, of that scene with
    those settings. *)
Theorem main_success (single : float -> float) (max_str_digits : Z)
  (render_op : render_settings -> blend_data -> bool)
  (before : list string) (fpn_string output_path : string)
  (after : list string) (p : process) (state : fight_state) :
  ~ In "--" before ->
  parse_fpn max_str_digits fpn_string = Ok state ->
  poseable (fighter_a state) = true ->
  poseable (fighter_b state) = true ->
  render_op (cycles_settings output_path)
    (fst (setup_scene single state (data p))) = true ->
  main single max_str_digits render_op
    (command_line before fpn_string output_path after) p
  = ({| data := fst (setup_scene single state (data p));
        render := cycles_settings output_path;
        stdout := stdout p ++
                  [Parsing_FPN fpn_string; Setting_up_scene;
                   Rendering_to output_path; Rendered output_path; Done];
        stills := stills p ++
                  [(cycles_settings output_path,
                    fst (setup_scene single state (data p)))] |},
     inl tt).
Proof.
  intros H E Ha Hb Hr. rewrite main_run by assumption. rewrite E. cbv zeta.
  rewrite setup_scene_result, Ha, Hb, Hr. reflexivity.
Qed.

Lemma main_success_witness :
  snd (main binary32 4300 render_ok (blender_argv example_fpn)
         initial_process)
  = inl tt.
Proof.
  eassert (E : parse_fpn 4300 example_fpn = Ok _)
    by (vm_compute; reflexivity).
  change (blender_argv example_fpn)
    with (command_line
            ["blender"; "--background"; "--python"; "blender_render_fpn.py"]
            example_fpn "out.png" ["--verbose"]).
  rewrite (main_success binary32 4300 render_ok
             ["blender"; "--background"; "--python"; "blender_render_fpn.py"]
             example_fpn "out.png" ["--verbose"] initial_process _
             not_in_blender_argv E eq_refl eq_refl eq_refl).
  reflexivity.
Defined.

(** X23: [main] asks the engine for at most one still, and only of a
    scene that [setup_scene] has completed: either the stills and the
    render settings are as they were, or the command line gave a string
    that decodes to a state with two fighters that can be posed, the
    settings are those of [render_scene] for the output path given, and
    the one still asked for is of the scene set up for that state. *)
Theorem main_render_requests (single : float -> float) (max_str_digits : Z)
  (render_op : render_settings -> blend_data -> bool)
  (sys_argv : list string) (p : process) :
  let p' := fst (main single max_str_digits render_op sys_argv p) in
  (stills p' = stills p /\ render p' = render p)
  \/ exists before fpn_string output_path after state,
       sys_argv = command_line before fpn_string output_path after
       /\ ~ In "--" before
       /\ parse_fpn max_str_digits fpn_string = Ok state
       /\ poseable (fighter_a state) = true
       /\ poseable (fighter_b state) = true
       /\ data p' = fst (setup_scene single state (data p))
       /\ render p' = cycles_settings output_path
       /\ stills p' = (stills p ++ [(cycles_settings output_path, data p')])%list.
Proof.
  cbv zeta. destruct (list_index "--" sys_argv) as [i|] eqn:E.
  - apply list_index_some in E as (pre & rest & -> & Hn).
    destruct rest as [|fpn [|out after]].
    + left. rewrite main_missing by (assumption || (cbn; lia)).
      split; reflexivity.
    + left. rewrite main_missing by (assumption || (cbn; lia)).
      split; reflexivity.
    + change (pre ++ "--" :: fpn :: out :: after)%list
        with (command_line pre fpn out after).
      rewrite main_run by assumption.
      destruct (parse_fpn max_str_digits fpn) as [state|e] eqn:Ep;
        [|left; split; reflexivity].
      cbv zeta. rewrite setup_scene_result.
      destruct (poseable (fighter_a state)) eqn:Ha;
        [|left; split; reflexivity].
      destruct (poseable (fighter_b state)) eqn:Hb;
        [|left; split; reflexivity].
      right. exists pre, fpn, out, after, state.
      destruct (render_op _ _); cbn [fst data render stills];
        repeat (split; [first [reflexivity | assumption]|]); reflexivity.
  - apply list_index_none in E. left. rewrite main_usage by assumption.
    split; reflexivity.
Qed.
